(** * Perfect Vision: radius resolver, FOV polygon cache, vision-mesh visibility

    A shallow embedding of the parts of [scripts/vision.js] that derive the
    vision radii of a token ([getLightRadius] and the
    [PointSource.prototype.initialize] wrapper), clip the line-of-sight
    polygon to a radius ([computeFov]) and decide whether the vision mesh is
    shown ([PointSource.prototype.drawLight] wrapper).  Of the lighting
    layer it covers the wrappers of [LightingLayer.prototype.refresh] and
    [_configureChannels] (global lights, saturation level, colours of the
    scene), the duplicate of the light mesh that [_createContainer] keeps
    with [cloneShader] and [linkUniforms], and [refresh] with the
    [updateScene] hook.

    Numbers.  A JavaScript number is modelled by [number]: [NaN], the two
    infinities, or a finite value carried as a rational.  Finite arithmetic
    is exact (no rounding, no overflow) and the sign of zero is not tracked;
    everything else ([NaN] propagation, division by zero, comparisons with
    [NaN]) follows the language.  [Math.hypot] is a parameter of the
    development: nothing proved here depends on how it rounds.

    Host.  The script runs inside a host whose objects it reads and whose
    methods it wraps.  Of the host the embedding keeps the fields the script
    reads ([canvas.dimensions], the token, its flags, the world settings),
    the classes [Ray], [PIXI.Polygon] and [SourcePolygon] and the function
    [Math.clamped] as the host documents them, and takes as parameters what
    it cannot see: [isNewerVersion], the wrapped [initialize] and the table
    of [presets.js].

    Effects.  Exceptions are the [Throw] of [result]; the cache object that
    [computeFov] updates in place is passed in and returned, and so are the
    lighting layer, [CONFIG] and the illumination container in the wrappers
    that assign to them.  The calls that [refresh] makes to the host are
    returned as a trace. *)

From Stdlib Require Import QArith Qcanon Qabs Lqa List.
From stdpp Require Import base option gmap strings.

Import ListNotations.
Open Scope Q_scope.

(** ** JavaScript numbers *)

Inductive number : Type :=
  | NaN
  | NegInfinity
  | Fin (q : Q)
  | Infinity.

(** Sign of a number that is not [NaN], as a [comparison] with zero. *)
Definition signum (n : number) : option comparison :=
  match n with
  | NaN => None
  | NegInfinity => Some Lt
  | Fin q => Some (q ?= 0)
  | Infinity => Some Gt
  end.

Definition sign_mul (s t : comparison) : comparison :=
  match s, t with
  | Eq, _ | _, Eq => Eq
  | Lt, Lt | Gt, Gt => Gt
  | Lt, Gt | Gt, Lt => Lt
  end.

(** The infinite result of the given sign; a zero sign stands for the
    indeterminate forms, whose result is [NaN]. *)
Definition infinite_of (s : comparison) : number :=
  match s with
  | Lt => NegInfinity
  | Eq => NaN
  | Gt => Infinity
  end.

Definition neg (a : number) : number :=
  match a with
  | NaN => NaN
  | NegInfinity => Infinity
  | Fin x => Fin (- x)
  | Infinity => NegInfinity
  end.

Definition add (a b : number) : number :=
  match a, b with
  | Fin x, Fin y => Fin (x + y)
  | NaN, _ | _, NaN => NaN
  | Infinity, NegInfinity | NegInfinity, Infinity => NaN
  | Infinity, _ | _, Infinity => Infinity
  | NegInfinity, _ | _, NegInfinity => NegInfinity
  end.

Definition sub (a b : number) : number := add a (neg b).

Definition mul (a b : number) : number :=
  match a, b with
  | Fin x, Fin y => Fin (x * y)
  | _, _ =>
      match signum a, signum b with
      | Some s, Some t => infinite_of (sign_mul s t)
      | _, _ => NaN
      end
  end.

Definition div (a b : number) : number :=
  match a, b with
  | NaN, _ | _, NaN => NaN
  | Fin x, Fin y => if Qeq_bool y 0 then infinite_of (x ?= 0) else Fin (x / y)
  | Fin _, _ => Fin 0
  | _, Fin y =>
      match signum a with
      | Some s => infinite_of (sign_mul s (if Qeq_bool y 0 then Gt else y ?= 0))
      | None => NaN
      end
  | _, _ => NaN
  end.

(** Ordering of two numbers; [None] as soon as one of them is [NaN]. *)
Definition compare (a b : number) : option comparison :=
  match a, b with
  | NaN, _ | _, NaN => None
  | Fin x, Fin y => Some (x ?= y)
  | NegInfinity, NegInfinity | Infinity, Infinity => Some Eq
  | NegInfinity, _ | _, Infinity => Some Lt
  | Infinity, _ | _, NegInfinity => Some Gt
  end.

(** [a < b], [a <= b], [a > b] and [a === b] of the language. *)
Definition ltb (a b : number) : bool :=
  match compare a b with Some Lt => true | _ => false end.

Definition leb (a b : number) : bool :=
  match compare a b with Some Lt | Some Eq => true | _ => false end.

Definition gtb (a b : number) : bool := ltb b a.

Definition strict_eq (a b : number) : bool :=
  match compare a b with Some Eq => true | _ => false end.

Declare Scope js_scope.
Delimit Scope js_scope with js.
Bind Scope js_scope with number.
Infix "+" := add : js_scope.
Infix "-" := sub : js_scope.
Infix "*" := mul : js_scope.
Infix "/" := div : js_scope.
Infix "<?" := ltb : js_scope.
Infix "<=?" := leb : js_scope.
Infix ">?" := gtb : js_scope.
Infix "===" := strict_eq (at level 70, no associativity) : js_scope.

Module Number.
Definition isNaN (a : number) : bool :=
  match a with NaN => true | _ => false end.
End Number.

Module Math.

Definition max2 (a b : number) : number :=
  match compare a b with
  | None => NaN
  | Some Lt => b
  | Some _ => a
  end.

Definition min2 (a b : number) : number :=
  match compare a b with
  | None => NaN
  | Some Gt => b
  | Some _ => a
  end.

(** [Math.max(...args)]: [-Infinity] without arguments, [NaN] as soon as
    one argument is [NaN]. *)
Definition max (args : list number) : number := fold_right max2 NegInfinity args.

(** [Math.min(...args)]. *)
Definition min (args : list number) : number := fold_right min2 Infinity args.

Definition abs (a : number) : number :=
  match a with
  | NaN => NaN
  | NegInfinity | Infinity => Infinity
  | Fin x => Fin (Qabs x)
  end.

Definition sign (a : number) : number :=
  match a with
  | NaN => NaN
  | NegInfinity => Fin (-1)
  | Infinity => Fin 1
  | Fin x => match x ?= 0 with Lt => Fin (-1) | Eq => Fin 0 | Gt => Fin 1 end
  end.

(** [Math.clamped(num, min, max)], the host's extension of [Math]:
    [Math.min(max, Math.max(num, min))]. *)
Definition clamped (num lo hi : number) : number := min [hi; max [num; lo]].

(** [Math.hypot] lifted from finite arguments: an infinite argument gives
    [Infinity], otherwise a [NaN] argument gives [NaN]. *)
Definition hypot (hypotQ : Q -> Q -> Q) (a b : number) : number :=
  match a, b with
  | Fin x, Fin y => Fin (hypotQ x y)
  | Infinity, _ | NegInfinity, _ | _, Infinity | _, NegInfinity => Infinity
  | _, _ => NaN
  end.

End Math.


(** ** Exceptions *)

Inductive error : Type := TypeError.

Inductive result (A : Type) : Type :=
  | Ok (a : A)
  | Throw (e : error).

Arguments Ok {A} a.
Arguments Throw {A} e.

Definition result_bind {A B : Type} (k : A -> result B) (r : result A) : result B :=
  match r with
  | Ok a => k a
  | Throw e => Throw e
  end.

#[global] Instance result_mbind : MBind result := @result_bind.
#[global] Instance result_mret : MRet result := @Ok.

(** ** Values read from flags and settings *)

(** [a || b] where [a] is a flag (a string, or [undefined] when the flag is
    not set): the empty string and [undefined] are the falsy cases. *)
Definition or_else (a : option string) (b : string) : string :=
  match a with
  | Some s => if String.eqb s "" then b else s
  | None => b
  end.

(** [parseFloat] of a numeric flag; a flag that is not set parses to [NaN]. *)
Definition parseFloat (flag : option number) : number :=
  match flag with
  | Some n => n
  | None => NaN
  end.

(** ** Data model *)

(** One entry of the preset table of [presets.js]; a field the table leaves
    out reads as [undefined]. *)
Module Preset.
Record t : Type := make {
  dimVisionInDarkness : option string;
  dimVisionInDimLight : option string;
  brightVisionInDarkness : option string;
  brightVisionInDimLight : option string
}.
End Preset.

(** The world settings registered under the ["perfect-vision"] scope. *)
Module Settings.
Record t : Type := make {
  visionRules : string;
  dimVisionInDarkness : string;
  dimVisionInDimLight : string;
  brightVisionInDarkness : string;
  brightVisionInDimLight : string;
  monoVisionColor : string
}.
End Settings.

Module Game.
Record t : Type := make {
  version : string;
  settings : Settings.t
}.
End Game.

(** [canvas.dimensions]; [maxR] exists on newer hosts only. *)
Module Dimensions.
Record t : Type := make {
  distance : number;
  size : number;
  maxR : option number;
  sceneWidth : number;
  sceneHeight : number;
  width : number;
  height : number
}.
End Dimensions.

Module Canvas.
Record t : Type := make {
  dimensions : Dimensions.t;
  sight_tokenVision : bool;
  sight_sources_size : nat
}.
End Canvas.

(** The ["perfect-vision"] flags of a token document. *)
Module Flags.
Record t : Type := make {
  visionRules : option string;
  dimVisionInDarkness : option string;
  dimVisionInDimLight : option string;
  brightVisionInDarkness : option string;
  brightVisionInDimLight : option string;
  monoVisionColor : option string;
  sightLimit : option number
}.
End Flags.

Module Scene.
Record t : Type := make {
  sightLimit : option number
}.
End Scene.

(** A token: its footprint [w], [h], the raw sight distances
    [data.dimSight] and [data.brightSight], its flags, its scene and, for a
    preview clone, the scene of the token it was cloned from. *)
Module Token.
Record t : Type := make {
  w : number;
  h : number;
  dimSight : number;
  brightSight : number;
  flags : Flags.t;
  scene : option Scene.t;
  _original : option (option Scene.t)
}.
End Token.

(** The [dim] and [bright] fields of the [data] handed to the host. *)
Module Data.
Record t : Type := make {
  dim : number;
  bright : number
}.
End Data.

Module Point.
Record t : Type := make {
  x : number;
  y : number
}.
End Point.

(** A polygon of the host: a plain [PIXI.Polygon], or a [SourcePolygon]
    that also records its origin and radius.  Both keep their vertices as
    a flat array of coordinates. *)
Inductive Polygon : Type :=
  | PIXI_Polygon (points : list number)
  | SourcePolygon (x y radius : number) (points : list number).

Definition points (p : Polygon) : list number :=
  match p with
  | PIXI_Polygon pts => pts
  | SourcePolygon _ _ _ pts => pts
  end.

(** The coordinates of a list of points, as the polygon constructors
    store them. *)
Definition flatten (ps : list Point.t) : list number :=
  flat_map (fun p => [Point.x p; Point.y p]) ps.

(** A point source as the host leaves it; [darkness] stands for
    [this.isDarkness ?? this.darkness]. *)
Module PointSource.
Record t : Type := make {
  sourceType : string;
  x : number;
  y : number;
  radius : number;
  ratio : number;
  darkness : bool;
  fov : Polygon;
  los : Polygon;
  object : option Token.t
}.
End PointSource.

(** The fields this module attaches to a point source ([extend(this)]). *)
Module Extension.
Record t : Type := make {
  isVision : bool;
  token : option Token.t;
  radius : number;
  fov : option Polygon;
  fovMono : option Polygon;
  fovColor : option Polygon;
  fovDimToBright : option Polygon;
  monoVisionColor : option string
}.
End Extension.

(** The per-pass cache of [computeFov]: an object whose property
    [distance] memoizes the reach of the source and whose other properties
    are polygons keyed by the radius they were computed for. *)
Module FovCache.
Record t : Type := make {
  distance : option number;
  entries : gmap (nat + Qc) Polygon
}.
End FovCache.

(** The property key of a radius: numbers that are equal are the same key. *)
Definition key (radius : number) : nat + Qc :=
  match radius with
  | NaN => inl 0%nat
  | NegInfinity => inl 1%nat
  | Infinity => inl 2%nat
  | Fin q => inr (Q2Qc q)
  end.

(** The four vision rules in force for a token. *)
Module Rules.
Record t : Type := make {
  dimVisionInDarkness : string;
  dimVisionInDimLight : string;
  brightVisionInDarkness : string;
  brightVisionInDimLight : string
}.
End Rules.

(** The radii of lines 356-380: the common sign, the clamped [dim] and
    [bright], and [sightLimit] ([NaN] when no limit is set). *)
Module Radii.
Record t : Type := make {
  sign : number;
  dim : number;
  bright : number;
  sightLimit : number
}.
End Radii.

(** What the wrapper of [initialize] has computed when it calls the host:
    the [data] it passes on, the radius it stores on the extension, and the
    three vision radii. *)
Module Resolved.
Record t : Type := make {
  minR : number;
  rules : Rules.t;
  radii : Radii.t;
  data : Data.t;
  radius : number;
  visionRadius : number;
  visionRadiusColor : number;
  visionRadiusDimToBright : number;
  monoVisionColor : string
}.
End Resolved.

(** The host's [Ray]: built from two points, it records the offsets and
    their length, and [project(t)] is the point at fraction [t] of the way
    from [A] to [B]. *)
Module Ray.
Record t : Type := make {
  A : Point.t;
  B : Point.t;
  dx : number;
  dy : number;
  distance : number
}.
End Ray.

(** The visibility of the two light meshes of the container: the host's
    [c.light] and the duplicate [c_.light]. *)
Module Meshes.
Record t : Type := make {
  light_visible : bool;
  light__visible : bool
}.
End Meshes.

(** [CONFIG.Canvas]: the two colours the lighting layer mixes; the wrapper
    of [_configureChannels] can leave [undefined] in them. *)
Module Config.
Record t : Type := make {
  daylightColor : option Z;
  darknessColor : option Z
}.
End Config.

(** The scene in view: [data.globalLight], [data.globalLightThreshold]
    and its ["perfect-vision"] flags. *)
Module SceneView.
Record t : Type := make {
  globalLight : bool;
  globalLightThreshold : option number;
  flag_globalLight : option string;
  flag_forceSaturation : bool;
  flag_saturation : option number;
  flag_daylightColor : option string;
  flag_darknessColor : option string
}.
End SceneView.

(** The lighting layer with what this module attaches to it and to its
    illumination container: [sources] maps names to sources, [channels] is
    [null] or the channels computed last, [globalLight] and [globalLight2]
    are the two sources of [_drawIlluminationContainer] when it has made
    them, and [resetUniforms] is the
    [_resetIlluminationUniforms] of [globalLight]. *)
Module Lighting.
Record t : Type := make {
  darknessLevel : number;
  channels : option nat;
  sources : gmap string nat;
  saturation : option number;
  saturationLevel : option number;
  globalLight : option nat;
  globalLight2 : option nat;
  resetUniforms : bool;
  daylightColor : option Z;
  darknessColor : option Z;
  updateChannels : bool
}.
End Lighting.

(** A value of a uniform: [undefined], a number, or an object (an array,
    a texture) known by its identity. *)
Inductive uniform : Type :=
  | Undefined
  | Num (n : number)
  | Ref (object : nat).

(** The class of a shader: one that extends [AbstractBaseShader], by its
    name, or any other, [PIXI.Shader] among them. *)
Inductive shaderClass : Type :=
  | AbstractBase (name : string)
  | Other (name : string).

Module Shader.
Record t : Type := make {
  constructor : shaderClass;
  program : nat;
  uniforms : gmap string uniform
}.
End Shader.

(** What this module reads and writes of a mesh. *)
Module Mesh.
Record t : Type := make {
  shader : option Shader.t;
  _width : option number;
  _height : option number
}.
End Mesh.

(** An illumination container: [light] is [c.light] and [light_] is the
    [light] that [_createContainer] attaches to the container when it
    duplicates the mesh; with it, [c.light] and its shader are the proxies
    of lines 272-286. *)
Module Container.
Record t : Type := make {
  light : Mesh.t;
  light_ : option Mesh.t
}.
End Container.

(** The assignments to [c.light] that the proxies look at:
    [c.light.shader = value], [c.light.shader.uniforms[prop] = value],
    [c.light._width = value] and [c.light._height = value]. *)
Inductive assignment : Type :=
  | SetShader (value : option Shader.t)
  | SetUniform (prop : string) (value : uniform)
  | SetWidth (value : number)
  | SetHeight (value : number).

(** The options of [refresh], each [true] when left out. *)
Module RefreshOptions.
Record t : Type := make {
  lighting : bool;
  sight : bool;
  initialize : bool
}.
End RefreshOptions.

(** What [refresh] and the [updateScene] hook look at on the canvas:
    [canvas?.ready] and the placeables of the lighting and token layers. *)
Module Stage.
Record t : Type := make {
  ready : bool;
  lights : list nat;
  tokens : list nat
}.
End Stage.

(** The calls that [refresh] and the [updateScene] hook make to the host,
    in the order in which they make them. *)
Inductive effect : Type :=
  | PerceptionSchedule (lighting_initialize lighting_refresh
                        sight_initialize sight_refresh : bool)
  | HooksOnce
  | HooksOff
  | LightUpdateSource (light : nat)
  | TokenUpdateSource (token : nat)
  | LightingRefresh
  | SightRefresh.

(** ** Vocabulary of the statements *)

(** [a <= b] holds in the language: neither is [NaN] and [a] is at most [b]. *)
Definition num_le (a b : number) : Prop := (a <=? b)%js = true.

(** [a === b] holds in the language. *)
Definition num_eq (a b : number) : Prop := (a === b)%js = true.

Definition isFinite (a : number) : bool :=
  match a with Fin _ => true | _ => false end.

Definition isInfinite (a : number) : bool :=
  match a with Infinity | NegInfinity => true | _ => false end.

(** The token with other raw sight values. *)
Definition withSight (token : Token.t) (dimSight brightSight : number) : Token.t :=
  Token.make (Token.w token) (Token.h token) dimSight brightSight
    (Token.flags token) (Token.scene token) (Token._original token).

(** A point with finite coordinates. *)
Definition pointQ (v : Q * Q) : Point.t := Point.make (Fin (fst v)) (Fin (snd v)).



(** ** Colours as 32-bit integers *)

(** A colour is an integer.  [toInt32] is the conversion to a signed
    32-bit integer that the bitwise operators of the language apply to
    their operands; the shifts are those by less than 32 bits. *)
Definition toInt32 (z : Z) : Z := ((z + 2 ^ 31) mod 2 ^ 32 - 2 ^ 31)%Z.

(** [a >> n]. *)
Definition shr (a n : Z) : Z := Z.shiftr (toInt32 a) n.

(** [a & b]. *)
Definition band (a b : Z) : Z := Z.land (toInt32 a) (toInt32 b).

(** [a << n]. *)
Definition shl (a n : Z) : Z := toInt32 (Z.shiftl (toInt32 a) n).

(** [sanitize] of the wrapper of [LightingLayer.prototype.refresh] (lines
    791-794): no channel of a colour below [0xf]. *)
Definition sanitize (hex : Z) : Z :=
  let x0 := Z.max (band (shr hex 16) 255) 15 in
  let x1 := Z.max (band (shr hex 8) 255) 15 in
  let x2 := Z.max (band hex 255) 15 in
  (shl x0 16 + shl x1 8 + x2)%Z.

(** The red, green and blue channels of a colour, read the way [sanitize]
    reads them. *)
Definition red (hex : Z) : Z := band (shr hex 16) 255.
Definition green (hex : Z) : Z := band (shr hex 8) 255.
Definition blue (hex : Z) : Z := band hex 255.

(** ** The duplicated light mesh *)

(** [cloneShader] (lines 13-16): the uniforms given override those of the
    shader. *)
Definition cloneShader (shader : option Shader.t) (uniforms : gmap string uniform)
    : option Shader.t :=
  match shader with
  | Some shader =>
      Some (Shader.make
              (match Shader.constructor shader with
               | AbstractBase name => AbstractBase name
               | Other _ => Other "PIXI.Shader"
               end)
              (Shader.program shader)
              (uniforms ∪ Shader.uniforms shader))
  | None => None
  end.

(** A write [uniforms[prop] = value] through the proxy that [linkUniforms]
    (lines 18-39) puts on [shader1], linked to [shader2]: first to
    [shader2], unless [prop] is among [except], then to [shader1]. *)
Definition withUniform (prop : string) (value : uniform) (shader : Shader.t) : Shader.t :=
  Shader.make (Shader.constructor shader) (Shader.program shader)
    (<[prop := value]> (Shader.uniforms shader)).

Definition linkedSet (except : list string) (prop : string) (value : uniform)
    (shader1 : Shader.t) (shader2 : option Shader.t)
    : result (Shader.t * option Shader.t) :=
  shader2 ← (if bool_decide (prop ∈ except) then Ok shader2
             else match shader2 with
                  | Some shader2 => Ok (Some (withUniform prop value shader2))
                  | None => Throw TypeError
                  end);
  Ok (withUniform prop value shader1, shader2).

(** [_createContainer] (lines 259-292); [standard] tells whether the
    shader class is [StandardIlluminationShader] or extends it. *)
Definition _createContainer (standard : bool) (c : Container.t) : Container.t :=
  if standard then
    Container.make (Container.light c)
      (Some (Mesh.make
               (cloneShader (Mesh.shader (Container.light c)) {["ratio" := Num (Fin 1)]})
               None None))
  else c.

(** An assignment to [c.light].  Without the duplicate it is the plain
    assignment; with it, it goes through the proxies of lines 272-286: a
    new shader is cloned for the duplicate with the [ratio] that the
    duplicate has, a uniform other than [ratio] is written to both
    shaders, a width or height to both meshes. *)
Definition assign (a : assignment) (c : Container.t) : result Container.t :=
  let light := Container.light c in
  match a with
  | SetShader value =>
      match Container.light_ c with
      | Some light_ =>
          match Mesh.shader light_ with
          | Some shader_ =>
              let ratio := default Undefined (Shader.uniforms shader_ !! "ratio") in
              Ok (Container.make
                    (Mesh.make value (Mesh._width light) (Mesh._height light))
                    (Some (Mesh.make (cloneShader value {["ratio" := ratio]})
                             (Mesh._width light_) (Mesh._height light_))))
          | None => Throw TypeError
          end
      | None =>
          Ok (Container.make (Mesh.make value (Mesh._width light) (Mesh._height light)) None)
      end
  | SetUniform prop value =>
      match Mesh.shader light with
      | Some shader =>
          match Container.light_ c with
          | Some light_ =>
              '(shader, shader_) ← linkedSet ["ratio"] prop value shader (Mesh.shader light_);
              Ok (Container.make
                    (Mesh.make (Some shader) (Mesh._width light) (Mesh._height light))
                    (Some (Mesh.make shader_ (Mesh._width light_) (Mesh._height light_))))
          | None =>
              Ok (Container.make
                    (Mesh.make (Some (withUniform prop value shader))
                       (Mesh._width light) (Mesh._height light))
                    None)
          end
      | None => Throw TypeError
      end
  | SetWidth value =>
      Ok (Container.make
            (Mesh.make (Mesh.shader light) (Some value) (Mesh._height light))
            ((fun light_ => Mesh.make (Mesh.shader light_) (Some value) (Mesh._height light_))
               <$> Container.light_ c))
  | SetHeight value =>
      Ok (Container.make
            (Mesh.make (Mesh.shader light) (Mesh._width light) (Some value))
            ((fun light_ => Mesh.make (Mesh.shader light_) (Mesh._width light_) (Some value))
               <$> Container.light_ c))
  end.

(** A run of assignments, up to the first that throws. *)
Fixpoint assignAll (l : list assignment) (c : Container.t) : result Container.t :=
  match l with
  | [] => Ok c
  | a :: l => c ← assign a c; assignAll l c
  end.

(** The duplicate of a light mesh follows it: both meshes have a shader or
    neither has, the shaders are of the same program and the uniforms of
    the duplicate are those of the light, but for [ratio], which is 1. *)
Definition follows (light light_ : Mesh.t) : Prop :=
  match Mesh.shader light, Mesh.shader light_ with
  | Some shader, Some shader_ =>
      Shader.program shader_ = Shader.program shader
      /\ Shader.uniforms shader_ !! "ratio" = Some (Num (Fin 1))
      /\ forall prop, prop <> "ratio" ->
           Shader.uniforms shader_ !! prop = Shader.uniforms shader !! prop
  | None, None => True
  | _, _ => False
  end.

(** ** Traces of calls to the host *)

(** How often a trace registers the [canvasReady] hook, and how often it
    takes it off. *)
Definition registrations (trace : list effect) : nat :=
  length (List.filter (fun e => match e with HooksOnce => true | _ => false end) trace).

Definition removals (trace : list effect) : nat :=
  length (List.filter (fun e => match e with HooksOff => true | _ => false end) trace).

(** The registrations that [refreshHookID] stands for: one when it is
    set. *)
Definition pending (refreshHookID : option nat) : nat :=
  match refreshHookID with Some _ => 1 | None => 0 end.

(** ** A sample scene, for the examples at the end *)

(** Modelled from the spec: the preset table of [presets.js] is not part of
    the sources.  The two entries below hold what the spec states about the
    presets it names (["fvtt"]: bright vision in darkness is ["darkness"];
    ["dnd5e"]: dim vision in darkness is ["dim"]) and leave the other
    fields out.  They only serve the examples: every theorem holds for any
    table. *)
Definition samplePresets : gmap string Preset.t :=
  <["fvtt" := Preset.make None None (Some "darkness") None]>
    (<["dnd5e" := Preset.make (Some "dim") None None None]> ∅).

Definition sampleSettings : Settings.t :=
  Settings.make "fvtt" "dim" "dim" "bright" "bright" "#ffffff".

Definition sampleGame : Game.t := Game.make "0.8.6" sampleSettings.

(** A scene of 40 by 30 squares of 100 pixels and 5 feet. *)
Definition sampleDimensions : Dimensions.t :=
  Dimensions.make (Fin 5) (Fin 100) (Some (Fin 5000)) (Fin 4000) (Fin 3000) (Fin 4000) (Fin 3000).

Definition sampleCanvas : Canvas.t := Canvas.make sampleDimensions true 1.

(** A stand-in for [Math.hypot] in the examples: the integer square root of
    the sum of squares, exact on the Pythagorean triples used below. *)
Definition sampleHypot (a b : Q) : Q :=
  let n := a * a + b * b in
  inject_Z (Z.sqrt (Qnum n / Zpos (Qden n))).

(** A stand-in for [isNewerVersion]: the examples run on host 0.8.6, the
    only version that is newer than those it is compared with. *)
Definition sampleIsNewerVersion (v1 v0 : string) : bool :=
  String.eqb v1 "0.8.6".

Definition noFlags : Flags.t := Flags.make None None None None None None None.

Definition customFlags (dimVisionInDarkness brightVisionInDarkness : string) : Flags.t :=
  Flags.make (Some "custom") (Some dimVisionInDarkness) None
    (Some brightVisionInDarkness) None None None.

(** A token of one square with the given raw sight values and flags. *)
Definition sampleToken (dimSight brightSight : Q) (flags : Flags.t) : Token.t :=
  Token.make (Fin 100) (Fin 100) (Fin dimSight) (Fin brightSight) flags
    (Some (Scene.make None)) None.

Definition fvttFlags : Flags.t :=
  Flags.make (Some "fvtt") None None None None None None.


(** A token with 60ft of dim and 120ft of bright sight, limited to 30ft. *)
Definition limitedToken : Token.t :=
  sampleToken 60 120 (Flags.make (Some "fvtt") None None None None None (Some (Fin 30))).

(** The sample scene with a unit distance of zero, and with a grid size of
    zero. *)
Definition zeroDistanceCanvas : Canvas.t :=
  Canvas.make
    (Dimensions.make (Fin 0) (Fin 100) (Some (Fin 5000)) (Fin 4000) (Fin 3000) (Fin 4000) (Fin 3000))
    true 1.

Definition zeroSizeCanvas : Canvas.t :=
  Canvas.make
    (Dimensions.make (Fin 5) (Fin 0) (Some (Fin 5000)) (Fin 4000) (Fin 3000) (Fin 4000) (Fin 3000))
    true 1.

(** A line of sight seen from the corner of the scene. *)
Definition sampleLos : list (Q * Q) := [(300, 400); (3000, 0); (0, 900)].

Definition sampleSource (token : option Token.t) : PointSource.t :=
  PointSource.make "sight" (Fin 0) (Fin 0) (Fin 50) (Fin 1) false
    (PIXI_Polygon []) (PIXI_Polygon (flatten (map pointQ sampleLos))) token.

Definition sampleExtension : Extension.t :=
  Extension.make true None (Fin 0) None None None None None.

(** A stand-in for the host's [initialize]: it takes the larger of the two
    radii of [data] as the radius of the source. *)
Definition sampleWrapped (this : PointSource.t) (data : option Data.t) : PointSource.t :=
  PointSource.make (PointSource.sourceType this) (PointSource.x this) (PointSource.y this)
    (match data with
     | Some data => Math.max [Math.abs (Data.dim data); Math.abs (Data.bright data)]
     | None => PointSource.radius this
     end)
    (PointSource.ratio this) (PointSource.darkness this)
    (PointSource.fov this) (PointSource.los this) (PointSource.object this).

(** A stand-in for [colorStringToHex]: the hexadecimal digits of the
    string, read from the left, other characters skipped. *)
Fixpoint hexDigits (color : string) (hex : Z) : Z :=
  match color with
  | EmptyString => hex
  | String c color =>
      let n := Z.of_nat (Ascii.nat_of_ascii c) in
      hexDigits color
        (if (48 <=? n)%Z && (n <=? 57)%Z then (16 * hex + (n - 48))%Z
         else if (97 <=? n)%Z && (n <=? 102)%Z then (16 * hex + (n - 87))%Z
         else hex)
  end.

Definition sampleColorStringToHex (color : string) : Z := hexDigits color 0%Z.

(** The colours of the host's configuration, a scene with global
    illumination and a daylight colour of its own, and a lighting layer at
    a darkness level of one quarter that no refresh has touched yet. *)
Definition sampleConfig : Config.t := Config.make (Some 0xeeeeee%Z) (Some 0x242448%Z).

Definition sampleSceneView : SceneView.t :=
  SceneView.make true None None false None (Some "#ffcc00") None.

Definition sampleLighting : Lighting.t :=
  Lighting.make (Fin (1 # 4)) (Some 1%nat) ∅ None None None None false None None false.

(** A stand-in for the host's [refresh] of the lighting layer: it computes
    new channels. *)
Definition sampleRefresh (this : Lighting.t) : result Lighting.t :=
  Ok (Lighting.make (Lighting.darknessLevel this) (Some 2%nat) (Lighting.sources this)
        (Lighting.saturation this) (Lighting.saturationLevel this)
        (Lighting.globalLight this) (Lighting.globalLight2 this)
        (Lighting.resetUniforms this)
        (Lighting.daylightColor this) (Lighting.darknessColor this)
        (Lighting.updateChannels this)).

(** A stand-in for the host's [_configureChannels]: it returns the two
    colours it finds in [CONFIG] and leaves [CONFIG] without them. *)
Definition sampleConfigureChannels (config : Config.t)
    : Config.t * result (option Z * option Z) :=
  (Config.make None None, Ok (Config.daylightColor config, Config.darknessColor config)).

(** An illumination container whose light has a shader with two uniforms,
    and assignments to its light. *)
Definition sampleShader (ratio : Q) : Shader.t :=
  Shader.make (AbstractBase "StandardIlluminationShader") 1
    (<["ratio" := Num (Fin ratio)]> (<["alpha" := Num (Fin 1)]> ∅)).

Definition sampleContainer : Container.t :=
  Container.make (Mesh.make (Some (sampleShader (1 # 2))) None None) None.

Definition sampleAssignments : list assignment :=
  [SetUniform "ratio" (Num (Fin 0)); SetUniform "alpha" (Num (Fin (1 # 2)));
   SetShader (Some (sampleShader (3 # 4))); SetWidth (Fin 10);
   SetUniform "colorDim" (Ref 7)].

(** A ready canvas with two lights and a token. *)
Definition sampleStage : Stage.t := Stage.make true [1; 2]%nat [3]%nat.

(** The same world on host 0.7.9, a lighting layer whose two global lights
    have been made, and a scene whose global illumination ends at a
    darkness level of one half. *)
Definition oldGame : Game.t := Game.make "0.7.9" sampleSettings.

Definition oldLighting : Lighting.t :=
  Lighting.make (Fin (1 # 4)) (Some 1%nat) (<["Light.17" := 17%nat]> ∅) None None
    (Some 5%nat) (Some 6%nat) false None None false.

Definition thresholdSceneView : SceneView.t :=
  SceneView.make true (Some (Fin (1 # 2))) None false None None None.

Section Host.

(** [Math.hypot] on finite arguments. *)
Variable hypotQ : Q -> Q -> Q.

(** [isNewerVersion(v1, v0)] of the host. *)
Variable isNewerVersion : string -> string -> bool.

(** The table exported by [presets.js], which is not part of the sources:
    an object from preset names to presets. *)
Variable presets : gmap string Preset.t.

Variable game : Game.t.
Variable canvas : Canvas.t.

Definition new_Ray (A B : Point.t) : Ray.t :=
  let dx := (Point.x B - Point.x A)%js in
  let dy := (Point.y B - Point.y A)%js in
  Ray.make A B dx dy (Math.hypot hypotQ dx dy).

Definition project (r : Ray.t) (t : number) : Point.t :=
  Point.make (Point.x (Ray.A r) + t * Ray.dx r)%js
             (Point.y (Ray.A r) + t * Ray.dy r)%js.

(** *** [getLightRadius] (lines 294-299) *)

Definition getLightRadius (token : Token.t) (units : number) : number :=
  if (units === Fin 0)%js then Fin 0
  else
    let u := Math.abs units in
    let hw := (Token.w token / Fin 2)%js in
    ((((u / Dimensions.distance (Canvas.dimensions canvas))
       * Dimensions.size (Canvas.dimensions canvas)) + hw) * Math.sign units)%js.

(** *** The wrapper of [PointSource.prototype.initialize] (lines 301-451) *)

(** Lines 331-354: the rules of the token.  Reading a field of
    [presets[visionRules]] throws when the table has no such entry. *)
Definition visionRulesOf (document : Flags.t) : result Rules.t :=
  let settings := Game.settings game in
  let visionRules := or_else (Flags.visionRules document) "default" in
  '(dimVisionInDarkness, dimVisionInDimLight,
    brightVisionInDarkness, brightVisionInDimLight) ←
    (if String.eqb visionRules "custom" then
       Ok (Flags.dimVisionInDarkness document,
           Flags.dimVisionInDimLight document,
           Flags.brightVisionInDarkness document,
           Flags.brightVisionInDimLight document)
     else
       let visionRules :=
         if String.eqb visionRules "default"
         then Settings.visionRules settings else visionRules in
       if negb (String.eqb visionRules "custom") then
         match presets !! visionRules with
         | Some preset =>
             Ok (Preset.dimVisionInDarkness preset,
                 Preset.dimVisionInDimLight preset,
                 Preset.brightVisionInDarkness preset,
                 Preset.brightVisionInDimLight preset)
         | None => Throw TypeError
         end
       else Ok (None, None, None, None));
  Ok (Rules.make
        (or_else dimVisionInDarkness (Settings.dimVisionInDarkness settings))
        (or_else dimVisionInDimLight (Settings.dimVisionInDimLight settings))
        (or_else brightVisionInDarkness (Settings.brightVisionInDarkness settings))
        (or_else brightVisionInDimLight (Settings.brightVisionInDimLight settings))).

(** The name under which lines 333-349 look for the rules: the flag of
    the token, or the world setting when the flag is not set or is
    ["default"]. *)
Definition activeRules (document : Flags.t) : string :=
  let visionRules := or_else (Flags.visionRules document) "default" in
  if String.eqb visionRules "custom" then visionRules
  else if String.eqb visionRules "default"
       then Settings.visionRules (Game.settings game)
       else visionRules.

(** Line 316. *)
Definition minRadius (token : Token.t) : number :=
  (Math.min [Token.w token; Token.h token] * Fin (1 # 2))%js.

(** Line 357. *)
Definition maxRadius : number :=
  let d := Canvas.dimensions canvas in
  match Dimensions.maxR d with
  | Some maxR => maxR
  | None => Math.hypot hypotQ (Dimensions.sceneWidth d) (Dimensions.sceneHeight d)
  end.

(** Lines 359-380: pixel radii, their common sign, and the sight limit
    read from the token or, failing that, from the scene. *)
Definition sightRadii (token : Token.t) (scene : option Scene.t) : Radii.t :=
  let minR := minRadius token in
  let maxR := maxRadius in
  let dim := getLightRadius token (Token.dimSight token) in
  let bright := getLightRadius token (Token.brightSight token) in
  let sign := if (Math.min [dim; bright] <? Fin 0)%js then Fin (-1) else Fin 1 in
  let dim := Math.abs dim in
  let bright := Math.abs bright in
  let dim := Math.min [dim; maxR] in
  let bright := Math.min [bright; maxR] in
  let sightLimit := parseFloat (Flags.sightLimit (Token.flags token)) in
  let sightLimit :=
    if Number.isNaN sightLimit
    then parseFloat (scene ≫= Scene.sightLimit)
    else sightLimit in
  if negb (Number.isNaN sightLimit) then
    let sightLimit := Math.max [getLightRadius token (Math.abs sightLimit); minR] in
    Radii.make sign (Math.min [dim; sightLimit]) (Math.min [bright; sightLimit]) sightLimit
  else
    Radii.make sign dim bright sightLimit.

(** [rule === a || rule === b ? r : 0]. *)
Definition when2 (rule a b : string) (r : number) : number :=
  if String.eqb rule a || String.eqb rule b then r else Fin 0.

(** [rule === a ? r : 0]. *)
Definition when1 (rule a : string) (r : number) : number :=
  if String.eqb rule a then r else Fin 0.

(** Lines 382-389: the [dim] and [bright] written to [data]. *)
Definition emission (rules : Rules.t) (sign dim bright : number) : Data.t :=
  let dimVisionInDarkness := Rules.dimVisionInDarkness rules in
  let brightVisionInDarkness := Rules.brightVisionInDarkness rules in
  Data.make
    (sign * Math.max [when2 dimVisionInDarkness "dim" "dim_mono" dim;
                      when2 brightVisionInDarkness "dim" "dim_mono" bright])%js
    (sign * Math.max [when2 dimVisionInDarkness "bright" "bright_mono" dim;
                      when2 brightVisionInDarkness "bright" "bright_mono" bright])%js.

(** Lines 391-398. *)
Definition visionRadiusOf (rules : Rules.t) (dim bright : number) : number :=
  let dimVisionInDarkness := Rules.dimVisionInDarkness rules in
  let brightVisionInDarkness := Rules.brightVisionInDarkness rules in
  Math.max [when2 dimVisionInDarkness "scene" "scene_mono" dim;
            when2 dimVisionInDarkness "dim" "dim_mono" dim;
            when2 dimVisionInDarkness "bright" "bright_mono" dim;
            when2 brightVisionInDarkness "scene" "scene_mono" bright;
            when2 brightVisionInDarkness "dim" "dim_mono" bright;
            when2 brightVisionInDarkness "bright" "bright_mono" bright].

(** Lines 399-406. *)
Definition visionRadiusColorOf (rules : Rules.t) (dim bright : number) : number :=
  let dimVisionInDarkness := Rules.dimVisionInDarkness rules in
  let brightVisionInDarkness := Rules.brightVisionInDarkness rules in
  Math.max [when1 dimVisionInDarkness "scene" dim;
            when1 dimVisionInDarkness "dim" dim;
            when1 dimVisionInDarkness "bright" dim;
            when1 brightVisionInDarkness "scene" bright;
            when1 brightVisionInDarkness "dim" bright;
            when1 brightVisionInDarkness "bright" bright].

(** Lines 407-410. *)
Definition visionRadiusDimToBrightOf (rules : Rules.t) (dim bright : number) : number :=
  Math.max [when1 (Rules.dimVisionInDimLight rules) "bright" dim;
            when1 (Rules.brightVisionInDimLight rules) "bright" bright].

(** Line 415: the radius stored on the extension, taken from [data]
    before line 417 changes it. *)
Definition storedRadius (data : Data.t) : number :=
  Math.max [Math.abs (Data.dim data); Math.abs (Data.bright data)].

(** Line 417: a [data] whose radii are both zero gets [minR] as [dim]. *)
Definition forceMinimum (minR : number) (data : Data.t) : Data.t :=
  Data.make
    (if (Data.dim data === Fin 0)%js && (Data.bright data === Fin 0)%js
     then minR else Data.dim data)
    (Data.bright data).

(** Line 315: [token.scene ?? token._original?.scene]. *)
Definition sceneOf (token : Token.t) : option Scene.t :=
  match Token.scene token with
  | Some scene => Some scene
  | None => Token._original token ≫= id
  end.

(** Lines 316-417: everything the wrapper computes before it calls the
    host's [initialize]. *)
Definition resolve (token : Token.t) : result Resolved.t :=
  let scene := sceneOf token in
  let minR := minRadius token in
  let document := Token.flags token in
  rules ← visionRulesOf document;
  let radii := sightRadii token scene in
  let dim := Radii.dim radii in
  let bright := Radii.bright radii in
  let data := emission rules (Radii.sign radii) dim bright in
  let monoVisionColor :=
    or_else (Flags.monoVisionColor document)
      (or_else (Some (Settings.monoVisionColor (Game.settings game))) "#ffffff") in
  Ok (Resolved.make minR rules radii
        (forceMinimum minR data)
        (storedRadius data)
        (visionRadiusOf rules dim bright)
        (visionRadiusColorOf rules dim bright)
        (visionRadiusDimToBrightOf rules dim bright)
        monoVisionColor).

(** *** [computeFov] (lines 41-84) *)

(** The points [{ x: points[i], y: points[i + 1] }] visited by the loop of
    lines 63-69.  An array of odd length leaves the last [y] undefined,
    which behaves as [NaN] in the arithmetic that follows. *)
Fixpoint vertices (points : list number) : list Point.t :=
  match points with
  | [] => []
  | [x] => [Point.make x NaN]
  | x :: y :: rest => Point.make x y :: vertices rest
  end.

(** Lines 49-55: the reach of the source, taken from the cache when it
    has one. *)
Definition reach (source : PointSource.t) (fovCache : option FovCache.t) : number :=
  match fovCache ≫= FovCache.distance with
  | Some distance => distance
  | None =>
      let d := Canvas.dimensions canvas in
      let x := PointSource.x source in
      let y := PointSource.y source in
      Math.max [PointSource.radius source;
                Math.hypot hypotQ
                  (Math.max [x; (Dimensions.width d - x)%js])
                  (Math.max [y; (Dimensions.height d - y)%js])]
  end.

(** Lines 64-67: one turn of the loop. *)
Definition clip (source : PointSource.t) (distance limit : number) (p : Point.t) : Point.t :=
  let r := new_Ray (Point.make (PointSource.x source) (PointSource.y source)) p in
  let t0 := Math.clamped (Ray.distance r / distance)%js (Fin 0) (Fin 1) in
  if (t0 <=? limit)%js then p else project r (limit / t0)%js.


(** Line 60: the fraction [limit] of the reach that a radius covers. *)
Definition limitOf (radius distance : number) : number :=
  Math.clamped (radius / distance)%js (Fin 0) (Fin 1).

(** Lines 45-70: the clipped points. *)
Definition fovPointsOf (source : PointSource.t) (radius distance : number) : list Point.t :=
  let limit := limitOf radius distance in
  map (clip source distance limit) (vertices (points (PointSource.los source))).

(** [fovCache.distance = distance]. *)
Definition setDistance (distance : number) (fovCache : FovCache.t) : FovCache.t :=
  FovCache.make (Some distance) (FovCache.entries fovCache).

(** [fovCache[radius] = fov]. *)
Definition setEntry (radius : number) (fov : Polygon) (fovCache : FovCache.t) : FovCache.t :=
  FovCache.make (FovCache.distance fovCache) (<[key radius := fov]> (FovCache.entries fovCache)).

(** [fovCache && fovCache[radius]]: the polygon the cache holds for a radius. *)
Definition cached (radius : number) (fovCache : option FovCache.t) : option Polygon :=
  fovCache ≫= (fun c => FovCache.entries c !! key radius).

(** [computeFov(source, radius, fovCache)]: the polygon returned and the
    cache as the call leaves it. *)
Definition computeFov (source : PointSource.t) (radius : number)
    (fovCache : option FovCache.t) : Polygon * option FovCache.t :=
  match cached radius fovCache with
  | Some fov => (fov, fovCache)
  | None =>
      let '(fovPoints, fovCache) :=
        if (radius >? Fin 0)%js then
          let distance := reach source fovCache in
          (fovPointsOf source radius distance, setDistance distance <$> fovCache)
        else ([], fovCache) in
      let fov :=
        if isNewerVersion "0.8.0" (Game.version game)
        then PIXI_Polygon (flatten fovPoints)
        else SourcePolygon (PointSource.x source) (PointSource.y source) radius
               (flatten fovPoints) in
      (fov, setEntry radius fov <$> fovCache)
  end.

(** *** The wrapper of [initialize], whole *)

Definition withFov (this : PointSource.t) (fov : Polygon) : PointSource.t :=
  PointSource.make (PointSource.sourceType this) (PointSource.x this) (PointSource.y this)
    (PointSource.radius this) (PointSource.ratio this) (PointSource.darkness this)
    fov (PointSource.los this) (PointSource.object this).

Definition withLos (this : PointSource.t) (los : Polygon) : PointSource.t :=
  PointSource.make (PointSource.sourceType this) (PointSource.x this) (PointSource.y this)
    (PointSource.radius this) (PointSource.ratio this) (PointSource.darkness this)
    (PointSource.fov this) los (PointSource.object this).

(** [computeFov] for a radius that is only wanted when [wanted] holds. *)
Definition computeFovIf (wanted : bool) (source : PointSource.t) (radius : number)
    (fovCache : option FovCache.t) : option Polygon * option FovCache.t :=
  if wanted then
    let '(fov, fovCache) := computeFov source radius fovCache in (Some fov, fovCache)
  else (None, fovCache).

(** Lines 304-310: the wrapper only deals with vision sources. *)
Definition isSight (this : PointSource.t) (this_ : Extension.t) : bool :=
  if isNewerVersion (Game.version game) "0.8.2"
  then String.eqb (PointSource.sourceType this) "sight"
  else Extension.isVision this_.

(** Line 314: [this.object ?? this_.token]. *)
Definition tokenOf (this : PointSource.t) (this_ : Extension.t) : option Token.t :=
  match PointSource.object this with
  | Some token => Some token
  | None => Extension.token this_
  end.

(** Line 425: the radius of the field of view, [Math.max(visionRadius, minR)]. *)
Definition fovRadius (r : Resolved.t) : number :=
  Math.max [Resolved.visionRadius r; Resolved.minR r].

(** The wrapper: [wrapped] is the host's [initialize], which receives
    [data] and leaves the source in a new state.  The result is the source
    and its extension when the wrapper returns; reading a field of a token
    that is missing throws. *)
Definition initialize (wrapped : PointSource.t -> option Data.t -> PointSource.t)
    (this : PointSource.t) (this_ : Extension.t) (data : option Data.t)
    : result (PointSource.t * Extension.t) :=
  if negb (isSight this this_) then Ok (wrapped this data, this_)
  else
    match tokenOf this this_ with
    | None => Throw TypeError
    | Some token =>
        r ← resolve token;
        let minR := Resolved.minR r in
        let original := bool_decide (is_Some (Token._original token)) in
        let this := wrapped this (Some (Resolved.data r)) in
        let fovCache :=
          Some (FovCache.make None {[ key (PointSource.radius this) := PointSource.fov this ]}) in
        let fov_ := PointSource.fov this in
        let '(fov, fovCache) := computeFov this (fovRadius r) fovCache in
        let this := withFov this fov in
        let fovMono := if negb original then Some fov else None in
        let '(fovColor, fovCache) :=
          computeFovIf ((Resolved.visionRadiusColor r >? Fin 0)%js && negb original)
            this (Math.max [Resolved.visionRadiusColor r; minR]) fovCache in
        let '(fovDimToBright, fovCache) :=
          computeFovIf ((Resolved.visionRadiusDimToBright r >? Fin 0)%js && negb original)
            this (Math.max [Resolved.visionRadiusDimToBright r; minR]) fovCache in
        let monoVisionColor :=
          match fovMono with
          | Some _ => Some (Resolved.monoVisionColor r)
          | None => None
          end in
        let sightLimit := Radii.sightLimit (Resolved.radii r) in
        let this :=
          if negb (Number.isNaN sightLimit)
          then withLos this (fst (computeFov this sightLimit fovCache))
          else this in
        Ok (this,
            Extension.make (Extension.isVision this_) (Extension.token this_)
              (Resolved.radius r) (Some fov_) fovMono fovColor fovDimToBright
              monoVisionColor)
    end.

(** *** The wrapper of [PointSource.prototype.drawLight] (lines 471-542) *)

(** Lines 492-539, for a container that the host did draw; [globalLight2]
    tells whether the source is the placeholder of the global light. *)
Definition drawLight (this : PointSource.t) (this_ : Extension.t)
    (globalLight2 : bool) : Meshes.t :=
  let sight :=
    Canvas.sight_tokenVision canvas && (0 <? Canvas.sight_sources_size canvas)%nat in
  if String.eqb (PointSource.sourceType this) "sight" || Extension.isVision this_ then
    Meshes.make (sight && (Extension.radius this_ >? Fin 0)%js) false
  else
    Meshes.make true
      (sight && (PointSource.ratio this <? Fin 1)%js
       && negb (PointSource.darkness this) && negb globalLight2).

(** *** The wrapper of [LightingLayer.prototype.refresh] (lines 734-812) *)

(** [colorStringToHex] of the host, as the integer that the bitwise
    operators make of what it returns. *)
Variable colorStringToHex : string -> Z.

(** Whether a number is truthy. *)
Definition truthy (a : number) : bool :=
  match a with
  | NaN => false
  | Fin q => negb (Qeq_bool q 0)
  | _ => true
  end.

(** Lines 739-741: [darknessLevel] and [hasGlobalIllumination]. *)
Definition darknessOf (arg0 : option number) (this : Lighting.t) : number :=
  Math.clamped (default (Lighting.darknessLevel this) arg0) (Fin 0) (Fin 1).

Definition hasGlobalIllumination (arg0 : option number) (sd : SceneView.t)
    (this : Lighting.t) : bool :=
  SceneView.globalLight sd
  && (negb (match SceneView.globalLightThreshold sd with
            | Some threshold => truthy threshold
            | None => false
            end)
      || (darknessOf arg0 this <=? default NaN (SceneView.globalLightThreshold sd))%js).

Definition withSources (this : Lighting.t) (sources : gmap string nat) (reset : bool)
    : Lighting.t :=
  Lighting.make (Lighting.darknessLevel this) (Lighting.channels this) sources
    (Lighting.saturation this) (Lighting.saturationLevel this)
    (Lighting.globalLight this) (Lighting.globalLight2 this) reset
    (Lighting.daylightColor this) (Lighting.darknessColor this)
    (Lighting.updateChannels this).

(** Lines 738-758: on hosts up to 0.8.4 the two global lights are put
    among the sources of the layer, or taken out of them. *)
Definition globalLights (arg0 : option number) (sd : SceneView.t) (this : Lighting.t)
    : result Lighting.t :=
  if negb (isNewerVersion (Game.version game) "0.8.4") then
    if hasGlobalIllumination arg0 sd this then
      match Lighting.globalLight this with
      | None => Throw TypeError
      | Some light =>
          let sources := <["PerfectVision.Light.1" := light]> (Lighting.sources this) in
          let sources :=
            match Lighting.globalLight2 this with
            | Some light2 => <["PerfectVision.Light.2" := light2]> sources
            | None => sources
            end in
          Ok (withSources this sources true)
      end
    else
      let sources := delete "PerfectVision.Light.1" (Lighting.sources this) in
      let sources :=
        match Lighting.globalLight2 this with
        | Some _ => delete "PerfectVision.Light.2" sources
        | None => sources
        end in
      Ok (withSources this sources (Lighting.resetUniforms this))
  else Ok this.

(** Lines 763-775: the saturation level of the layer. *)
Definition saturationOf (arg0 : option number) (sd : SceneView.t) (this : Lighting.t)
    : number :=
  let saturation :=
    match Lighting.saturation this with
    | Some saturation => saturation
    | None =>
        if SceneView.flag_forceSaturation sd
        then default (Fin 0) (SceneView.flag_saturation sd)
        else (Fin 1 - darknessOf arg0 this)%js
    end in
  Math.clamped saturation (Fin 0) (Fin 1).

(** Lines 778-797: a colour of the scene, from its flag or from [CONFIG],
    sanitized.  A colour of [CONFIG] that is [undefined] counts as 0 under
    the bitwise operators. *)
Definition sceneColor (flag : option string) (configured : option Z) : Z :=
  sanitize (match flag with
            | Some color => if String.eqb color "" then default 0%Z configured
                            else colorStringToHex color
            | None => default 0%Z configured
            end).

(** Lines 760-805: everything the wrapper does before it calls the host. *)
Definition refreshPrepare (arg0 : option number) (config : Config.t) (sd : SceneView.t)
    (this : Lighting.t) : result Lighting.t :=
  this ← globalLights arg0 sd this;
  let saturationLevel :=
    if isNewerVersion (Game.version game) "0.8.4"
    then Some (saturationOf arg0 sd this)
    else Lighting.saturationLevel this in
  let daylightColor :=
    sceneColor (SceneView.flag_daylightColor sd) (Config.daylightColor config) in
  let darknessColor :=
    sceneColor (SceneView.flag_darknessColor sd) (Config.darknessColor config) in
  let changed :=
    negb (bool_decide (Lighting.daylightColor this = Some daylightColor))
    || negb (bool_decide (Lighting.darknessColor this = Some darknessColor)) in
  Ok (Lighting.make (Lighting.darknessLevel this)
        (if changed then None else Lighting.channels this)
        (Lighting.sources this)
        (Lighting.saturation this) saturationLevel
        (Lighting.globalLight this) (Lighting.globalLight2 this)
        (Lighting.resetUniforms this)
        (Some daylightColor) (Some darknessColor)
        (if changed then true else Lighting.updateChannels this)).

(** The wrapper: [wrapped] is the host's [refresh], which may throw; when
    it returns, [updateChannels] is taken back. *)
Definition refreshLighting (wrapped : Lighting.t -> result Lighting.t)
    (arg0 : option number) (config : Config.t) (sd : SceneView.t) (this : Lighting.t)
    : result Lighting.t :=
  this ← refreshPrepare arg0 config sd this;
  this ← wrapped this;
  Ok (Lighting.make (Lighting.darknessLevel this) (Lighting.channels this)
        (Lighting.sources this) (Lighting.saturation this) (Lighting.saturationLevel this)
        (Lighting.globalLight this) (Lighting.globalLight2 this)
        (Lighting.resetUniforms this)
        (Lighting.daylightColor this) (Lighting.darknessColor this) false).

(** *** The wrapper of [LightingLayer.prototype._configureChannels] (lines
    564-580) *)

(** [wrapped] is the host's [_configureChannels]: it may change [CONFIG]
    and it returns channels or throws.  The result is [CONFIG] as the
    wrapper leaves it, with what it returns or throws. *)
Definition configureChannels {Channels : Type}
    (wrapped : Config.t -> Config.t * result Channels)
    (this : Lighting.t) (config : Config.t) : Config.t * result Channels :=
  let daylightColor := Config.daylightColor config in
  let darknessColor := Config.darknessColor config in
  let config := Config.make (Lighting.daylightColor this) (Lighting.darknessColor this) in
  let '(config, outcome) := wrapped config in
  match outcome with
  | Ok channels => (Config.make daylightColor darknessColor, Ok channels)
  | Throw e => (config, Throw e)
  end.

(** *** [refresh] (lines 86-132) and the [updateScene] hook (lines 877-898) *)

Definition defaultOptions : RefreshOptions.t := RefreshOptions.make true true true.

(** One call of [refresh]: [refreshHookID] is the variable of line 86
    before the call, [hookID] what [Hooks.once] returns if it is called.
    The result is [refreshHookID] after the call and the calls made to the
    host. *)
Definition refresh (options : RefreshOptions.t) (stage : Stage.t)
    (refreshHookID : option nat) (hookID : nat) : option nat * list effect :=
  let lighting := RefreshOptions.lighting options in
  let sight := RefreshOptions.sight options in
  let initialize := RefreshOptions.initialize options in
  if isNewerVersion (Game.version game) "0.8.1" then
    (refreshHookID,
     if Stage.ready stage
     then [PerceptionSchedule initialize lighting initialize sight]
     else [])
  else if negb (Stage.ready stage) then
    match refreshHookID with
    | None => (Some hookID, [HooksOnce])
    | Some _ => (refreshHookID, [])
    end
  else
    (None,
     (match refreshHookID with Some _ => [HooksOff] | None => [] end)
     ++ (if initialize
         then (if lighting then map LightUpdateSource (Stage.lights stage) else [])
              ++ (if sight then map TokenUpdateSource (Stage.tokens stage) else [])
         else [])
     ++ (if lighting then [LightingRefresh] else [])
     ++ (if sight then [SightRefresh] else [])).

(** Calls of [refresh] one after the other, each with its options, the
    canvas as it is then and the identifier that [Hooks.once] would
    return. *)
Fixpoint refreshAll (calls : list (RefreshOptions.t * Stage.t * nat))
    (refreshHookID : option nat) : option nat * list effect :=
  match calls with
  | [] => (refreshHookID, [])
  | (options, stage, hookID) :: calls =>
      let '(refreshHookID, trace) := refresh options stage refreshHookID hookID in
      let '(refreshHookID, trace') := refreshAll calls refreshHookID in
      (refreshHookID, trace ++ trace')
  end.

(** The [updateScene] hook: [isView] is [scene.isView] and [flagged] tells
    whether the change has the property ["flags.perfect-vision"]. *)
Definition updateScene (isView flagged : bool) (stage : Stage.t) : list effect :=
  if negb isView || negb flagged then []
  else if isNewerVersion (Game.version game) "0.8.1" then
    [PerceptionSchedule true true true true]
  else
    map LightUpdateSource (Stage.lights stage)
    ++ map TokenUpdateSource (Stage.tokens stage)
    ++ [LightingRefresh; SightRefresh].

(** ** Order on numbers *)

#[local] Arguments Qcompare : simpl never.

Ltac qspec :=
  repeat match goal with
    | |- context [(?a ?= ?b)%Q] => destruct (Qcompare_spec a b)
    | H : context [(?a ?= ?b)%Q] |- _ => destruct (Qcompare_spec a b)
    end.

Ltac num_crush :=
  unfold num_le, num_eq, gtb, leb, ltb, strict_eq, Math.max2, Math.min2, compare in *;
  simpl in *; qspec; simpl in *;
  solve [ reflexivity | discriminate | congruence | lra | exfalso; lra ].

Lemma num_le_Fin (x y : Q) : num_le (Fin x) (Fin y) <-> x <= y.
Proof.
  unfold num_le, leb, compare. destruct (Qcompare_spec x y); split; intros; lra || reflexivity || discriminate.
Qed.

Lemma num_eq_Fin (x y : Q) : num_eq (Fin x) (Fin y) <-> x == y.
Proof.
  unfold num_eq, strict_eq, compare. destruct (Qcompare_spec x y); split; intros; lra || reflexivity || discriminate.
Qed.

Lemma num_le_notNaN_l (a b : number) : num_le a b -> a <> NaN.
Proof. intros H ->. discriminate H. Qed.

Lemma num_le_notNaN_r (a b : number) : num_le a b -> b <> NaN.
Proof. intros H ->. destruct a; discriminate H. Qed.

Lemma num_le_refl (a : number) : a <> NaN -> num_le a a.
Proof. destruct a; intros H; try congruence; num_crush. Qed.

Lemma num_le_trans (a b c : number) : num_le a b -> num_le b c -> num_le a c.
Proof. destruct a, b, c; intros H1 H2; num_crush. Qed.

Lemma num_eq_trans (a b c : number) : num_eq a b -> num_eq b c -> num_eq a c.
Proof. destruct a, b, c; intros H1 H2; num_crush. Qed.

Lemma num_eq_le (a b : number) : num_eq a b -> num_le a b.
Proof. destruct a, b; intros H; num_crush. Qed.

Lemma max2_mono (a a' b b' : number) :
  num_le a a' -> num_le b b' -> num_le (Math.max2 a b) (Math.max2 a' b').
Proof. destruct a, a', b, b'; intros H1 H2; num_crush. Qed.

Lemma min2_mono (a a' b b' : number) :
  num_le a a' -> num_le b b' -> num_le (Math.min2 a b) (Math.min2 a' b').
Proof. destruct a, a', b, b'; intros H1 H2; num_crush. Qed.

Lemma max2_ub_l (a b : number) : a <> NaN -> b <> NaN -> num_le a (Math.max2 a b).
Proof. destruct a, b; intros H1 H2; try congruence; num_crush. Qed.

Lemma max2_ub_r (a b : number) : a <> NaN -> b <> NaN -> num_le b (Math.max2 a b).
Proof. destruct a, b; intros H1 H2; try congruence; num_crush. Qed.

Lemma max2_lub (a b c : number) : num_le a c -> num_le b c -> num_le (Math.max2 a b) c.
Proof. destruct a, b, c; intros H1 H2; num_crush. Qed.

Lemma min2_lb_r (a b : number) : a <> NaN -> b <> NaN -> num_le (Math.min2 a b) b.
Proof. destruct a, b; intros H1 H2; try congruence; num_crush. Qed.

Lemma max2_notNaN (a b : number) : a <> NaN -> b <> NaN -> Math.max2 a b <> NaN.
Proof. intros Ha Hb. exact (num_le_notNaN_r _ _ (max2_ub_l a b Ha Hb)). Qed.

Lemma max_notNaN (l : list number) : Forall (fun a => a <> NaN) l -> Math.max l <> NaN.
Proof.
  induction 1 as [|a l Ha Hl IH]; simpl; [discriminate|].
  now apply max2_notNaN.
Qed.

(** [Math.max] bounds each of its arguments, when none of them is [NaN]. *)
Lemma max_ub (l : list number) (a : number) :
  Forall (fun a => a <> NaN) l -> In a l -> num_le a (Math.max l).
Proof.
  induction 1 as [|b l Hb Hl IH]; simpl; [tauto|].
  intros [->|Hin].
  - apply max2_ub_l; [assumption|]. now apply max_notNaN.
  - eapply num_le_trans; [apply IH, Hin|].
    apply max2_ub_r; [assumption|]. now apply max_notNaN.
Qed.

Lemma max_mono (l l' : list number) :
  Forall2 num_le l l' -> num_le (Math.max l) (Math.max l').
Proof.
  induction 1 as [|a a' l l' Ha Hl IH]; simpl; [reflexivity|].
  now apply max2_mono.
Qed.

(** ** [getLightRadius] on a scene without extent *)

Lemma getLightRadius_zero_units (token : Token.t) (units : number) :
  num_eq units (Fin 0) -> getLightRadius token units = Fin 0.
Proof. unfold num_eq, getLightRadius. now intros ->. Qed.

Lemma getLightRadius_nonzero (token : Token.t) (q : Q) :
  ~ q == 0 ->
  getLightRadius token (Fin q) =
  ((((Fin (Qabs q) / Dimensions.distance (Canvas.dimensions canvas))
     * Dimensions.size (Canvas.dimensions canvas)) + (Token.w token / Fin 2))
   * Math.sign (Fin q))%js.
Proof.
  intros Hq. unfold getLightRadius, strict_eq, compare.
  destruct (Qcompare_spec q 0); [contradiction|reflexivity|reflexivity].
Qed.

Lemma Qabs_nonzero (q : Q) : ~ q == 0 -> 0 < Qabs q.
Proof.
  intros Hq. destruct (Qlt_le_dec q 0) as [H|H].
  - rewrite (Qabs_neg q) by lra. lra.
  - rewrite (Qabs_pos q) by lra. lra.
Qed.

Lemma sign_nonzero (q : Q) :
  ~ q == 0 -> Math.sign (Fin q) = Fin 1 \/ Math.sign (Fin q) = Fin (-1).
Proof.
  intros Hq. unfold Math.sign. destruct (Qcompare_spec q 0); [contradiction|now right|now left].
Qed.

(** C9 (amended): [getLightRadius] returns zero whenever the sight value is
    zero, also on a scene whose unit distance or grid size is zero.  For a
    sight value that is finite and not zero it does not: with a unit
    distance of zero the result is infinite or [NaN], and with a grid size
    of zero (and a unit distance that is not) it is half the token width,
    with the sign of the sight value. *)
Theorem getLightRadius_zero_scene (token : Token.t) (units : number) (d s : Q) :
  Dimensions.distance (Canvas.dimensions canvas) = Fin d ->
  Dimensions.size (Canvas.dimensions canvas) = Fin s ->
  d == 0 \/ s == 0 ->
  (num_eq units (Fin 0) -> getLightRadius token units = Fin 0) /\
  (forall q, units = Fin q -> ~ q == 0 -> d == 0 ->
     isFinite (getLightRadius token units) = false) /\
  (forall q w, units = Fin q -> ~ q == 0 -> ~ d == 0 -> Token.w token = Fin w ->
     num_eq (getLightRadius token units) (Fin (w / 2) * Math.sign units)%js).
Proof.
  intros Hd Hs Hz. split; [apply getLightRadius_zero_units|]. split.
  - intros q -> Hq Hd0. rewrite getLightRadius_nonzero by assumption.
    rewrite Hd, Hs.
    assert (Hdiv : (Fin (Qabs q) / Fin d)%js = Infinity).
    { unfold div. rewrite (proj2 (Qeq_bool_iff d 0) Hd0).
      pose proof (Qabs_nonzero q Hq).
      destruct (Qcompare_spec (Qabs q) 0); [lra|lra|reflexivity]. }
    rewrite Hdiv.
    destruct (sign_nonzero q Hq) as [-> | ->];
      destruct (Token.w token) as [| |w|]; simpl; qspec; reflexivity.
  - intros q w -> Hq Hd0 Hw. destruct Hz as [Hz|Hz]; [contradiction|].
    rewrite getLightRadius_nonzero by assumption.
    rewrite Hd, Hs, Hw. unfold div.
    destruct (Qeq_bool d 0) eqn:E; [apply Qeq_bool_iff in E; contradiction|].
    replace (Qeq_bool 2 0) with false by reflexivity.
    destruct (sign_nonzero q Hq) as [-> | ->]; simpl; apply num_eq_Fin;
      rewrite Hz; field; assumption.
Qed.

(** ** The cache of [computeFov] *)

Lemma computeFov_hit (source : PointSource.t) (radius : number)
    (fovCache : option FovCache.t) (fov : Polygon) :
  cached radius fovCache = Some fov ->
  computeFov source radius fovCache = (fov, fovCache).
Proof. unfold computeFov. now intros ->. Qed.

Lemma cached_setEntry (radius : number) (fov : Polygon) (c : FovCache.t) :
  cached radius (Some (setEntry radius fov c)) = Some fov.
Proof. unfold cached, setEntry. simpl. apply lookup_insert_eq. Qed.

(** After a call with a cache, the cache holds the polygon returned. *)
Lemma computeFov_cached (source : PointSource.t) (radius : number) (c : FovCache.t) :
  cached radius (snd (computeFov source radius (Some c)))
  = Some (fst (computeFov source radius (Some c))).
Proof.
  unfold computeFov.
  destruct (cached radius (Some c)) as [fov|] eqn:E.
  - exact E.
  - destruct (radius >? Fin 0)%js; simpl; apply cached_setEntry.
Qed.

(** Numbers that are equal in the language are the same key of the cache. *)
Lemma key_num_eq (a b : number) : num_eq a b -> key a = key b.
Proof.
  destruct a as [| |x|], b as [| |y|]; try discriminate; try reflexivity.
  intros H%num_eq_Fin. unfold key. f_equal. apply Qc_is_canon. simpl.
  now rewrite !Qred_correct.
Qed.

(** C5: [computeFov] called a second time with the same source and radius
    and the cache left by the first call returns the very polygon of the
    first call and leaves the cache as it was; the second call is answered
    by the cache, which holds that polygon under the radius. *)
Theorem computeFov_twice (source : PointSource.t) (radius : number) (c : FovCache.t) :
  let first := computeFov source radius (Some c) in
  computeFov source radius (snd first) = (fst first, snd first)
  /\ cached radius (snd first) = Some (fst first).
Proof.
  intros first. pose proof (computeFov_cached source radius c) as H.
  split; [|exact H]. now apply computeFov_hit.
Qed.

(** ** The radius stored for the vision mesh *)

Lemma withFov_radius (this : PointSource.t) (fov : Polygon) :
  PointSource.radius (withFov this fov) = PointSource.radius this.
Proof. reflexivity. Qed.

Lemma withLos_radius (this : PointSource.t) (los : Polygon) :
  PointSource.radius (withLos this los) = PointSource.radius this.
Proof. reflexivity. Qed.

(** What the wrapper leaves behind for a vision source whose token
    resolves: the stored radius is the one resolved, and the host was given
    the resolved [data]. *)
Lemma initialize_sight (wrapped : PointSource.t -> option Data.t -> PointSource.t)
    (this : PointSource.t) (this_ : Extension.t) (data : option Data.t)
    (token : Token.t) (r : Resolved.t) :
  isSight this this_ = true ->
  tokenOf this this_ = Some token ->
  resolve token = Ok r ->
  exists this' ext,
    initialize wrapped this this_ data = Ok (this', ext)
    /\ Extension.radius ext = Resolved.radius r
    /\ Extension.isVision ext = Extension.isVision this_
    /\ PointSource.radius this'
       = PointSource.radius (wrapped this (Some (Resolved.data r))).
Proof.
  intros Hs Ht Hr. unfold initialize. rewrite Hs, Ht, Hr. simpl.
  destruct (computeFov _ (fovRadius r) _) as [fov c1].
  destruct (computeFovIf _ _ _ c1) as [fovColor c2].
  destruct (computeFovIf _ _ _ c2) as [fovDimToBright c3].
  eexists _, _. split; [reflexivity|]. simpl.
  split; [reflexivity|]. split; [reflexivity|].
  now destruct (negb _).
Qed.

(** The field of view the wrapper leaves on the source is the one
    [computeFov] gives for [Math.max(visionRadius, minR)], with a cache that
    starts from the polygon of the host. *)
Lemma initialize_fov (wrapped : PointSource.t -> option Data.t -> PointSource.t)
    (this : PointSource.t) (this_ : Extension.t) (data : option Data.t)
    (token : Token.t) (r : Resolved.t) :
  isSight this this_ = true ->
  tokenOf this this_ = Some token ->
  resolve token = Ok r ->
  let host := wrapped this (Some (Resolved.data r)) in
  let seed :=
    FovCache.make None {[ key (PointSource.radius host) := PointSource.fov host ]} in
  exists this' ext,
    initialize wrapped this this_ data = Ok (this', ext)
    /\ PointSource.fov this' = fst (computeFov host (fovRadius r) (Some seed))
    /\ Extension.fov ext = Some (PointSource.fov host).
Proof.
  intros Hs Ht Hr host seed. unfold initialize. rewrite Hs, Ht, Hr. simpl.
  fold host. fold seed.
  destruct (computeFov host (fovRadius r) (Some seed)) as [fov c1].
  destruct (computeFovIf _ _ _ c1) as [fovColor c2].
  destruct (computeFovIf _ _ _ c2) as [fovDimToBright c3].
  eexists _, _. split; [reflexivity|]. simpl.
  split; [|reflexivity]. now destruct (negb _).
Qed.

Lemma gtb_zero (q : Q) : q == 0 -> (Fin q >? Fin 0)%js = false.
Proof. intros H. num_crush. Qed.

Lemma storedRadius_zero (data : Data.t) :
  num_eq (Data.dim data) (Fin 0) -> num_eq (Data.bright data) (Fin 0) ->
  num_eq (storedRadius data) (Fin 0).
Proof.
  unfold storedRadius. destruct data as [d b]. simpl.
  destruct d as [| |d|], b as [| |b|]; try discriminate.
  intros Hd%num_eq_Fin Hb%num_eq_Fin.
  assert (Qabs d == 0) by (rewrite Hd; reflexivity).
  assert (Qabs b == 0) by (rewrite Hb; reflexivity).
  num_crush.
Qed.

(** C10: the radius the wrapper of [initialize] stores for the visibility
    test of the vision mesh is taken from the [dim] and [bright] outputs as
    they are before [minR] is forced.  So when both outputs are zero the
    stored radius is zero and [drawLight] hides the vision mesh, although
    the [dim] handed to the host is [minR]. *)
Theorem stored_radius_before_forcing
    (wrapped : PointSource.t -> option Data.t -> PointSource.t)
    (this this' : PointSource.t) (this_ ext : Extension.t) (data : option Data.t)
    (token : Token.t) (r : Resolved.t) (globalLight2 : bool) :
  isSight this this_ = true ->
  tokenOf this this_ = Some token ->
  resolve token = Ok r ->
  initialize wrapped this this_ data = Ok (this', ext) ->
  String.eqb (PointSource.sourceType this') "sight" || Extension.isVision ext = true ->
  let radii := Resolved.radii r in
  let data0 :=
    emission (Resolved.rules r) (Radii.sign radii) (Radii.dim radii) (Radii.bright radii) in
  num_eq (Data.dim data0) (Fin 0) ->
  num_eq (Data.bright data0) (Fin 0) ->
  Extension.radius ext = storedRadius data0
  /\ num_eq (Extension.radius ext) (Fin 0)
  /\ Meshes.light_visible (drawLight this' ext globalLight2) = false
  /\ Data.dim (Resolved.data r) = Resolved.minR r
  /\ PointSource.radius this'
     = PointSource.radius (wrapped this (Some (Resolved.data r))).
Proof.
  intros Hs Ht Hr Hi Hv radii data0 Hd Hb.
  destruct (initialize_sight wrapped this this_ data token r Hs Ht Hr)
    as (this1 & ext1 & Hi1 & Hrad & _ & Hhost).
  rewrite Hi in Hi1. injection Hi1 as <- <-.
  assert (Hres : Resolved.radius r = storedRadius data0
                 /\ Resolved.data r = forceMinimum (Resolved.minR r) data0).
  { unfold resolve in Hr. destruct (visionRulesOf _) as [rules|e]; [|discriminate].
    simpl in Hr. injection Hr as <-. now split. }
  destruct Hres as [Hrr Hrd].
  pose proof (storedRadius_zero data0 Hd Hb) as Hz.
  rewrite Hrad, Hrr. split; [reflexivity|]. split; [exact Hz|].
  split; [|split; [|exact Hhost]].
  - unfold drawLight. rewrite Hv, Hrad, Hrr. simpl.
    replace (storedRadius data0 >? Fin 0)%js with false; [apply andb_false_r|].
    destruct (storedRadius data0); try discriminate Hz.
    apply num_eq_Fin in Hz. symmetry. now apply gtb_zero.
  - rewrite Hrd. unfold forceMinimum.
    unfold num_eq in Hd, Hb. now rewrite Hd, Hb.
Qed.

(** ** The vision radius against the radii handed to the host *)

Lemma when2_cases (rule a b : string) (n : number) :
  when2 rule a b n = n \/ when2 rule a b n = Fin 0.
Proof. unfold when2. destruct (_ || _); auto. Qed.

Lemma when2_Fin (rule a b : string) (x : Q) :
  0 <= x -> exists q, when2 rule a b (Fin x) = Fin q /\ 0 <= q.
Proof.
  intros Hx. destruct (when2_cases rule a b (Fin x)) as [-> | ->]; eexists; split; eauto; lra.
Qed.

Lemma max_pair (a b : Q) :
  Math.max [Fin a; Fin b] = Fin a \/ Math.max [Fin a; Fin b] = Fin b.
Proof.
  unfold Math.max. simpl. unfold Math.max2 at 2. simpl.
  unfold Math.max2, compare. destruct (a ?= b); auto.
Qed.

Lemma num_le_max_pair (a b c : number) :
  num_le a c -> num_le b c -> num_le (Math.max [a; b]) c.
Proof.
  intros Ha Hb. unfold Math.max. simpl. apply max2_lub; [assumption|].
  apply max2_lub; [assumption|].
  destruct c; try reflexivity. now apply num_le_notNaN_r in Ha.
Qed.

Lemma scaled_le (s v : number) (q : Q) :
  s = Fin 1 \/ s = Fin (-1) -> 0 <= q -> num_le (Fin q) v ->
  num_le (s * Fin q)%js v /\ num_le (Math.abs (s * Fin q)%js) v.
Proof.
  intros Hs Hq Hv. destruct v as [| |v|]; try discriminate Hv; [|destruct Hs as [-> | ->]; now split].
  apply num_le_Fin in Hv.
  destruct Hs as [-> | ->]; cbn [mul Math.abs]; split; apply num_le_Fin.
  - lra.
  - pose proof (Qabs_pos (1 * q)). lra.
  - lra.
  - pose proof (Qabs_neg (-1 * q)). lra.
Qed.

(** The six arguments of [Math.max] in lines 391-398 are numbers, none
    below zero. *)
Lemma visionRadius_args (rules : Rules.t) (dim bright : Q) :
  0 <= dim -> 0 <= bright ->
  let dvd := Rules.dimVisionInDarkness rules in
  let bvd := Rules.brightVisionInDarkness rules in
  Forall (fun a => exists q, a = Fin q /\ 0 <= q)
    [when2 dvd "scene" "scene_mono" (Fin dim);
     when2 dvd "dim" "dim_mono" (Fin dim);
     when2 dvd "bright" "bright_mono" (Fin dim);
     when2 bvd "scene" "scene_mono" (Fin bright);
     when2 bvd "dim" "dim_mono" (Fin bright);
     when2 bvd "bright" "bright_mono" (Fin bright)].
Proof.
  intros Hd Hb dvd bvd. repeat constructor; now apply when2_Fin.
Qed.

Lemma visionRadius_ub (rules : Rules.t) (dim bright : Q) (a : number) :
  0 <= dim -> 0 <= bright ->
  let dvd := Rules.dimVisionInDarkness rules in
  let bvd := Rules.brightVisionInDarkness rules in
  In a [when2 dvd "scene" "scene_mono" (Fin dim);
        when2 dvd "dim" "dim_mono" (Fin dim);
        when2 dvd "bright" "bright_mono" (Fin dim);
        when2 bvd "scene" "scene_mono" (Fin bright);
        when2 bvd "dim" "dim_mono" (Fin bright);
        when2 bvd "bright" "bright_mono" (Fin bright)] ->
  num_le a (visionRadiusOf rules (Fin dim) (Fin bright)).
Proof.
  intros Hd Hb dvd bvd Hin. unfold visionRadiusOf. apply max_ub; [|exact Hin].
  eapply Forall_impl; [apply (visionRadius_args rules dim bright Hd Hb)|].
  intros n (q & -> & _). discriminate.
Qed.

Lemma visionRadius_nonneg (rules : Rules.t) (dim bright : Q) :
  0 <= dim -> 0 <= bright ->
  num_le (Fin 0) (visionRadiusOf rules (Fin dim) (Fin bright)).
Proof.
  intros Hd Hb.
  destruct (when2_Fin (Rules.dimVisionInDarkness rules) "scene" "scene_mono" dim Hd)
    as (q & Hq & Hq0).
  eapply num_le_trans; [apply num_le_Fin, Hq0|].
  rewrite <- Hq. apply visionRadius_ub; try assumption. simpl. auto.
Qed.

(** Each radius written to [data] in lines 382-389, and its absolute
    value, is at most the vision radius. *)
Lemma emission_le (rules : Rules.t) (sign : number) (dim bright : Q) :
  0 <= dim -> 0 <= bright -> sign = Fin 1 \/ sign = Fin (-1) ->
  let data := emission rules sign (Fin dim) (Fin bright) in
  let v := visionRadiusOf rules (Fin dim) (Fin bright) in
  (num_le (Data.dim data) v /\ num_le (Math.abs (Data.dim data)) v)
  /\ (num_le (Data.bright data) v /\ num_le (Math.abs (Data.bright data)) v).
Proof.
  intros Hd Hb Hs data v. subst data. unfold emission. cbn [Data.dim Data.bright].
  set (dvd := Rules.dimVisionInDarkness rules).
  set (bvd := Rules.brightVisionInDarkness rules).
  split.
  - destruct (when2_Fin dvd "dim" "dim_mono" dim Hd) as (a & Ha & Ha0).
    destruct (when2_Fin bvd "dim" "dim_mono" bright Hb) as (b & Hb' & Hb0).
    assert (Hina : num_le (Fin a) v)
      by (rewrite <- Ha; apply visionRadius_ub; simpl; auto).
    assert (Hinb : num_le (Fin b) v)
      by (rewrite <- Hb'; apply visionRadius_ub; simpl; auto 10).
    rewrite Ha, Hb'. destruct (max_pair a b) as [-> | ->]; now apply scaled_le.
  - destruct (when2_Fin dvd "bright" "bright_mono" dim Hd) as (a & Ha & Ha0).
    destruct (when2_Fin bvd "bright" "bright_mono" bright Hb) as (b & Hb' & Hb0).
    assert (Hina : num_le (Fin a) v)
      by (rewrite <- Ha; apply visionRadius_ub; simpl; auto).
    assert (Hinb : num_le (Fin b) v)
      by (rewrite <- Hb'; apply visionRadius_ub; simpl; auto 10).
    rewrite Ha, Hb'. destruct (max_pair a b) as [-> | ->]; now apply scaled_le.
Qed.

(** C1 (amended): for radii [dim] and [bright] that are not negative, any
    rules and either sign, the vision radius of lines 391-398 is at least
    the [dim] and [bright] outputs of lines 382-389 and at least the radius
    stored from them.  Once line 417 has forced [dim] to [minR] the bound
    holds for the radius of the field of view,
    [Math.max(visionRadius, minR)], not for the vision radius itself. *)
Theorem visionRadius_bounds_outputs (rules : Rules.t) (sign minR : number) (dim bright : Q) :
  0 <= dim -> 0 <= bright -> sign = Fin 1 \/ sign = Fin (-1) -> minR <> NaN ->
  let data := emission rules sign (Fin dim) (Fin bright) in
  let forced := forceMinimum minR data in
  let v := visionRadiusOf rules (Fin dim) (Fin bright) in
  num_le (Math.max [Data.dim data; Data.bright data]) v
  /\ num_le (storedRadius data) v
  /\ num_le (Math.max [Data.dim forced; Data.bright forced]) (Math.max [v; minR]).
Proof.
  intros Hd Hb Hs Hm data forced v.
  destruct (emission_le rules sign dim bright Hd Hb Hs) as [[H1 H2] [H3 H4]].
  fold data in H1, H2, H3, H4. fold v in H1, H2, H3, H4.
  assert (Hv : v <> NaN) by exact (num_le_notNaN_r _ _ H1).
  assert (Hvm : num_le v (Math.max [v; minR])).
  { apply max_ub; [repeat constructor; assumption|simpl; auto]. }
  assert (Hmm : num_le minR (Math.max [v; minR])).
  { apply max_ub; [repeat constructor; assumption|simpl; auto]. }
  split; [now apply num_le_max_pair|]. split; [now apply num_le_max_pair|].
  subst forced. unfold forceMinimum.
  apply num_le_max_pair; [|exact (num_le_trans _ _ _ H3 Hvm)].
  cbn [Data.dim].
  destruct ((Data.dim data === Fin 0)%js && (Data.bright data === Fin 0)%js);
    [exact Hmm|exact (num_le_trans _ _ _ H1 Hvm)].
Qed.

(** ** A token without sight *)

Lemma max_zeros (l : list number) :
  l <> [] -> Forall (fun a => exists q, a = Fin q /\ q == 0) l ->
  exists q, Math.max l = Fin q /\ q == 0.
Proof.
  intros Hne H. induction H as [|a l (q & -> & Hq) Hl IH]; [congruence|].
  destruct l as [|b l].
  - exists q. split; [reflexivity|assumption].
  - destruct IH as (q' & Hq' & Hq'0); [discriminate|].
    change (Math.max (Fin q :: b :: l)) with (Math.max2 (Fin q) (Math.max (b :: l))).
    rewrite Hq'. unfold Math.max2, compare. destruct (q ?= q'); eauto.
Qed.

Lemma when2_zero (rule a b : string) (z : Q) :
  z == 0 -> exists q, when2 rule a b (Fin z) = Fin q /\ q == 0.
Proof.
  intros Hz. destruct (when2_cases rule a b (Fin z)) as [-> | ->]; eexists; split; eauto; lra.
Qed.

Lemma when1_zero (rule a : string) (z : Q) :
  z == 0 -> exists q, when1 rule a (Fin z) = Fin q /\ q == 0.
Proof.
  intros Hz. unfold when1. destruct (String.eqb rule a); eexists; split; eauto; lra.
Qed.

Lemma min_with_bound (z : Q) (bound : number) :
  z == 0 -> num_le (Fin 0) bound -> Math.min [Fin z; bound] = Fin z.
Proof.
  intros Hz Hb. destruct bound as [| |b|]; try discriminate Hb; [|reflexivity].
  apply num_le_Fin in Hb.
  change (Math.min [Fin z; Fin b]) with (Math.min2 (Fin z) (Fin b)).
  unfold Math.min2, compare. destruct (Qcompare_spec z b); try reflexivity. lra.
Qed.

(** The radii of a token whose raw sight values are both zero and that has
    no sight limit. *)
Lemma sightRadii_blind (token : Token.t) (scene : option Scene.t) :
  num_eq (Token.dimSight token) (Fin 0) ->
  num_eq (Token.brightSight token) (Fin 0) ->
  num_le (Fin 0) maxRadius ->
  Flags.sightLimit (Token.flags token) = None ->
  scene ≫= Scene.sightLimit = None ->
  exists z, z == 0 /\ sightRadii token scene = Radii.make (Fin 1) (Fin z) (Fin z) NaN.
Proof.
  intros Hd Hb Hm Ht Hsc. unfold sightRadii.
  rewrite (getLightRadius_zero_units token _ Hd), (getLightRadius_zero_units token _ Hb).
  rewrite Ht, Hsc. cbn [parseFloat Number.isNaN negb Math.abs].
  exists (Qabs 0). split; [reflexivity|].
  rewrite (min_with_bound (Qabs 0) maxRadius) by (reflexivity || assumption).
  reflexivity.
Qed.

(** The rules found for a name that the preset table knows. *)
Lemma visionRulesOf_preset (document : Flags.t) (name : string) (preset : Preset.t) :
  activeRules document = name -> name <> "custom" -> presets !! name = Some preset ->
  visionRulesOf document
  = Ok (Rules.make
          (or_else (Preset.dimVisionInDarkness preset)
             (Settings.dimVisionInDarkness (Game.settings game)))
          (or_else (Preset.dimVisionInDimLight preset)
             (Settings.dimVisionInDimLight (Game.settings game)))
          (or_else (Preset.brightVisionInDarkness preset)
             (Settings.brightVisionInDarkness (Game.settings game)))
          (or_else (Preset.brightVisionInDimLight preset)
             (Settings.brightVisionInDimLight (Game.settings game)))).
Proof.
  unfold activeRules, visionRulesOf. intros Ha Hc Hp.
  destruct (String.eqb (or_else _ "default") "custom") eqn:E.
  - apply String.eqb_eq in E. congruence.
  - rewrite Ha.
    destruct (String.eqb name "custom") eqn:E'; [apply String.eqb_eq in E'; congruence|].
    simpl. now rewrite Hp.
Qed.

Lemma minRadius_Fin (token : Token.t) (w h : Q) :
  Token.w token = Fin w -> Token.h token = Fin h -> 0 <= w -> 0 <= h ->
  exists m, minRadius token = Fin m /\ 0 <= m.
Proof.
  intros Hw Hh Hw0 Hh0. unfold minRadius. rewrite Hw, Hh.
  change (Math.min [Fin w; Fin h]) with (Math.min2 (Fin w) (Fin h)).
  unfold Math.min2, compare. destruct (w ?= h); eexists; (split; [reflexivity|nra]).
Qed.

(** C2 (amended): for a token whose raw [dim] and [bright] sight values are
    both zero, under the ["fvtt"] preset and without a sight limit, the
    wrapper forces the [dim] output to [minR] and leaves [bright] at zero;
    the vision radius itself is zero, and it is the radius of the field of
    view, [Math.max(visionRadius, minR)], that equals [minR]. *)
Theorem blind_token_radii (token : Token.t) (preset : Preset.t) (w h : Q) :
  activeRules (Token.flags token) = "fvtt" ->
  presets !! "fvtt" = Some preset ->
  num_eq (Token.dimSight token) (Fin 0) ->
  num_eq (Token.brightSight token) (Fin 0) ->
  Token.w token = Fin w -> Token.h token = Fin h -> 0 <= w -> 0 <= h ->
  num_le (Fin 0) maxRadius ->
  Flags.sightLimit (Token.flags token) = None ->
  sceneOf token ≫= Scene.sightLimit = None ->
  exists r,
    resolve token = Ok r
    /\ Data.dim (Resolved.data r) = minRadius token
    /\ num_eq (Data.bright (Resolved.data r)) (Fin 0)
    /\ num_eq (Resolved.visionRadius r) (Fin 0)
    /\ num_eq (fovRadius r) (minRadius token).
Proof.
  intros Ha Hp Hd Hb Hw Hh Hw0 Hh0 Hm Hl Hsc.
  unfold resolve.
  rewrite (visionRulesOf_preset _ "fvtt" preset Ha) by (assumption || discriminate).
  set (rules := Rules.make _ _ _ _).
  destruct (sightRadii_blind token (sceneOf token) Hd Hb Hm Hl Hsc) as (z & Hz & ->).
  destruct (minRadius_Fin token w h Hw Hh Hw0 Hh0) as (m & Hmr & Hm0).
  eexists. split; [reflexivity|]. cbn [Resolved.data Resolved.visionRadius Radii.sign Radii.dim Radii.bright].
  assert (Hv : exists v, visionRadiusOf rules (Fin z) (Fin z) = Fin v /\ v == 0).
  { apply max_zeros; [discriminate|]. repeat constructor; now apply when2_zero. }
  assert (He : exists a b, emission rules (Fin 1) (Fin z) (Fin z) = Data.make (Fin a) (Fin b)
                           /\ a == 0 /\ b == 0).
  { unfold emission.
    destruct (max_zeros [when2 (Rules.dimVisionInDarkness rules) "dim" "dim_mono" (Fin z);
                         when2 (Rules.brightVisionInDarkness rules) "dim" "dim_mono" (Fin z)])
      as (a & -> & Ha0); [discriminate|repeat constructor; now apply when2_zero|].
    destruct (max_zeros [when2 (Rules.dimVisionInDarkness rules) "bright" "bright_mono" (Fin z);
                         when2 (Rules.brightVisionInDarkness rules) "bright" "bright_mono" (Fin z)])
      as (b & -> & Hb0); [discriminate|repeat constructor; now apply when2_zero|].
    eexists _, _. split; [reflexivity|]. split; lra. }
  destruct He as (a & b & -> & Ha0 & Hb0). destruct Hv as (v & Hv & Hv0).
  unfold forceMinimum, fovRadius. cbn [Data.dim Data.bright Resolved.visionRadius Resolved.minR].
  rewrite (proj2 (num_eq_Fin a 0) Ha0), (proj2 (num_eq_Fin b 0) Hb0).
  split; [reflexivity|]. split; [now apply num_eq_Fin|].
  rewrite Hv. split; [now apply num_eq_Fin|].
  rewrite Hmr. change (Math.max [Fin v; Fin m]) with (Math.max2 (Fin v) (Fin m)).
  unfold Math.max2, compare. destruct (Qcompare_spec v m); apply num_eq_Fin; lra.
Qed.

(** ** Rule names outside the preset table *)








(** ** Pixel radii on a scene with extent *)

Lemma Qdiv_nonneg (a b : Q) : 0 <= a -> 0 < b -> 0 <= a / b.
Proof. intros Ha Hb. apply Qle_shift_div_l; lra. Qed.

Section FiniteScene.

Variables (token : Token.t) (w d s : Q).
Hypothesis token_w : Token.w token = Fin w.
Hypothesis scene_distance : Dimensions.distance (Canvas.dimensions canvas) = Fin d.
Hypothesis scene_size : Dimensions.size (Canvas.dimensions canvas) = Fin s.
Hypothesis distance_nonzero : ~ d == 0.

(** [getLightRadius] of a sight value that is finite and not zero. *)
Lemma getLightRadius_Fin (q : Q) :
  ~ q == 0 ->
  getLightRadius token (Fin q)
  = Fin ((Qabs q / d * s + w / 2) * (if Qlt_le_dec q 0 then -1 else 1)).
Proof using token_w scene_distance scene_size distance_nonzero.
  intros Hq. rewrite getLightRadius_nonzero by assumption.
  rewrite token_w, scene_distance, scene_size. unfold div.
  destruct (Qeq_bool d 0) eqn:E; [apply Qeq_bool_iff in E; contradiction|].
  replace (Qeq_bool 2 0) with false by reflexivity.
  unfold Math.sign. destruct (Qlt_le_dec q 0); destruct (Qcompare_spec q 0);
    try reflexivity; exfalso; lra.
Qed.

(** The magnitude of [getLightRadius] on sight values that are not negative. *)
Lemma getLightRadius_abs (q : Q) :
  0 <= q -> 0 <= w -> 0 < d -> 0 <= s ->
  exists g, Math.abs (getLightRadius token (Fin q)) = Fin g
            /\ (q == 0 -> g == 0)
            /\ (~ q == 0 -> g == q / d * s + w / 2).
Proof using token_w scene_distance scene_size distance_nonzero.
  intros Hq Hw Hd Hs. destruct (Qeq_dec q 0) as [Hz|Hz].
  - rewrite getLightRadius_zero_units by now apply num_eq_Fin.
    exists (Qabs 0). split; [reflexivity|]. split; [reflexivity|contradiction].
  - rewrite getLightRadius_Fin by assumption.
    destruct (Qlt_le_dec q 0); [lra|].
    eexists. split; [reflexivity|]. split; [contradiction|]. intros _.
    assert (Hqa : Qabs q == q) by (apply Qabs_pos; lra).
    assert (Hpos : 0 <= q / d * s).
    { apply Qmult_le_0_compat; [|assumption]. unfold Qdiv.
      apply Qmult_le_0_compat; [lra|]. apply Qlt_le_weak, Qinv_lt_0_compat. lra. }
    rewrite Hqa. set (k := q / d * s) in *. clearbody k.
    assert (Hh : 0 <= w / 2) by (apply Qle_shift_div_l; lra).
    set (hw := w / 2) in *. clearbody hw. rewrite Qabs_pos; lra.
Qed.

End FiniteScene.

(** ** The sight limit *)

Lemma max_two (a b : number) : Math.max [a; b] = Math.max2 a b.
Proof. unfold Math.max. simpl. now destruct b. Qed.

Lemma min_two (a b : number) : Math.min [a; b] = Math.min2 a b.
Proof. unfold Math.min. simpl. now destruct b. Qed.

Lemma max2_NaN (a b : number) : Math.max2 a b <> NaN -> a <> NaN /\ b <> NaN.
Proof. destruct a, b; intros H; split; (discriminate || now elim H). Qed.

Lemma min2_capped (a b : number) : num_le b a -> num_eq (Math.min2 a b) b.
Proof. destruct a, b; intros H; num_crush. Qed.

(** C6: when [parseFloat] finds a number [L] in the [sightLimit] flag of
    the token or, failing that, of the scene, the wrapper turns it into a
    pixel radius with [getLightRadius], as it does for a sight value, raises
    it to [minR] at least and takes the minimum of the [dim] and [bright]
    radii with it.  A radius that the limit does not exceed therefore
    becomes the limit: a bright radius derived from 120ft is capped to the
    pixel value derived from a limit of 30ft. *)
Theorem sightLimit_clamps (token : Token.t) (scene : option Scene.t) (L : number) :
  parseFloat (Flags.sightLimit (Token.flags token)) = L
  \/ (parseFloat (Flags.sightLimit (Token.flags token)) = NaN
      /\ parseFloat (scene ≫= Scene.sightLimit) = L) ->
  L <> NaN ->
  let limit := Math.max [getLightRadius token (Math.abs L); minRadius token] in
  let dim0 :=
    Math.min [Math.abs (getLightRadius token (Token.dimSight token)); maxRadius] in
  let bright0 :=
    Math.min [Math.abs (getLightRadius token (Token.brightSight token)); maxRadius] in
  let r := sightRadii token scene in
  Radii.sightLimit r = limit
  /\ Radii.dim r = Math.min [dim0; limit]
  /\ Radii.bright r = Math.min [bright0; limit]
  /\ (limit <> NaN -> num_le (minRadius token) limit)
  /\ (dim0 <> NaN -> limit <> NaN -> num_le (Radii.dim r) limit)
  /\ (bright0 <> NaN -> limit <> NaN -> num_le (Radii.bright r) limit)
  /\ (num_le limit dim0 -> num_eq (Radii.dim r) limit)
  /\ (num_le limit bright0 -> num_eq (Radii.bright r) limit).
Proof.
  intros HL Hnan limit dim0 bright0 r.
  assert (Hr : r = Radii.make (Radii.sign r) (Math.min [dim0; limit])
                     (Math.min [bright0; limit]) limit).
  { subst r. unfold sightRadii.
    destruct HL as [HL | [HL1 HL2]].
    - rewrite HL. destruct L; try contradiction; reflexivity.
    - rewrite HL1. cbn [Number.isNaN]. rewrite HL2.
      destruct L; try contradiction; reflexivity. }
  rewrite Hr. cbn [Radii.sightLimit Radii.dim Radii.bright].
  rewrite !min_two.
  split; [reflexivity|]. split; [reflexivity|]. split; [reflexivity|].
  split; [|split; [|split; [|split]]].
  - intros Hl. subst limit. rewrite max_two in *.
    destruct (max2_NaN _ _ Hl). now apply max2_ub_r.
  - intros H1 H2. now apply min2_lb_r.
  - intros H1 H2. now apply min2_lb_r.
  - apply min2_capped.
  - apply min2_capped.
Qed.

(** ** Monotonicity in the raw sight values *)

Lemma when2_mono (rule a b : string) (r r' : number) :
  num_le r r' -> num_le (when2 rule a b r) (when2 rule a b r').
Proof. intros H. unfold when2. destruct (_ || _); [exact H|reflexivity]. Qed.

Lemma visionRadiusOf_mono (rules : Rules.t) (dim dim' bright bright' : number) :
  num_le dim dim' -> num_le bright bright' ->
  num_le (visionRadiusOf rules dim bright) (visionRadiusOf rules dim' bright').
Proof.
  intros Hd Hb. unfold visionRadiusOf. apply max_mono.
  repeat constructor; now apply when2_mono.
Qed.

Lemma min_pair_mono (a a' b : number) :
  num_le a a' -> b <> NaN -> num_le (Math.min [a; b]) (Math.min [a'; b]).
Proof.
  intros Ha Hb. rewrite !min_two. apply min2_mono; [exact Ha|now apply num_le_refl].
Qed.

Section Monotone.

Variables (token : Token.t) (w h d s : Q).
Hypothesis token_w : Token.w token = Fin w.
Hypothesis token_h : Token.h token = Fin h.
Hypothesis scene_distance : Dimensions.distance (Canvas.dimensions canvas) = Fin d.
Hypothesis scene_size : Dimensions.size (Canvas.dimensions canvas) = Fin s.
Hypothesis w_nonneg : 0 <= w.
Hypothesis d_pos : 0 < d.
Hypothesis s_nonneg : 0 <= s.

Lemma getLightRadius_mono (a a' : Q) :
  0 <= a -> a <= a' ->
  num_le (Math.abs (getLightRadius token (Fin a)))
         (Math.abs (getLightRadius token (Fin a'))).
Proof using token_w scene_distance scene_size w_nonneg d_pos s_nonneg.
  intros Ha Haa.
  assert (Hd : ~ d == 0) by lra.
  destruct (getLightRadius_abs token w d s token_w scene_distance scene_size Hd a)
    as (g & -> & Hg0 & Hg1); try assumption.
  destruct (getLightRadius_abs token w d s token_w scene_distance scene_size Hd a')
    as (g' & -> & Hg0' & Hg1'); try assumption; [lra|].
  apply num_le_Fin.
  assert (Hhw : 0 <= w / 2) by (apply Qdiv_nonneg; lra).
  assert (Hk : forall x, 0 <= x -> 0 <= x / d * s).
  { intros x Hx. apply Qmult_le_0_compat; [|assumption]. now apply Qdiv_nonneg. }
  destruct (Qeq_dec a 0) as [Hz|Hz]; destruct (Qeq_dec a' 0) as [Hz'|Hz'].
  - rewrite (Hg0 Hz), (Hg0' Hz'). lra.
  - rewrite (Hg0 Hz), (Hg1' Hz'). pose proof (Hk a'). lra.
  - lra.
  - rewrite (Hg1 Hz), (Hg1' Hz').
    assert (Hdiff : a' / d * s - a / d * s == (a' - a) / d * s) by (field; assumption).
    pose proof (Hk (a' - a)). lra.
Qed.

Lemma getLightRadius_notNaN (q : Q) : getLightRadius token (Fin q) <> NaN.
Proof using token_w scene_distance scene_size d_pos.
  assert (Hd : ~ d == 0) by lra.
  destruct (Qeq_dec q 0) as [Hz|Hz].
  - rewrite getLightRadius_zero_units by now apply num_eq_Fin. discriminate.
  - rewrite (getLightRadius_Fin token w d s) by assumption. discriminate.
Qed.

Lemma minRadius_notNaN : minRadius token <> NaN.
Proof using token_w token_h.
  unfold minRadius. rewrite token_w, token_h, min_two.
  unfold Math.min2, compare. destruct (w ?= h); discriminate.
Qed.

Lemma limit_notNaN (l : Q) :
  Math.max [getLightRadius token (Math.abs (Fin l)); minRadius token] <> NaN.
Proof using token_w token_h scene_distance scene_size d_pos.
  rewrite max_two. apply max2_notNaN; [apply getLightRadius_notNaN|apply minRadius_notNaN].
Qed.

Lemma sightRadii_mono (scene : option Scene.t) (a b a' b' : Q) :
  maxRadius <> NaN ->
  isInfinite (parseFloat (Flags.sightLimit (Token.flags token))) = false ->
  isInfinite (parseFloat (scene ≫= Scene.sightLimit)) = false ->
  0 <= a -> a <= a' -> 0 <= b -> b <= b' ->
  let r := sightRadii (withSight token (Fin a) (Fin b)) scene in
  let r' := sightRadii (withSight token (Fin a') (Fin b')) scene in
  num_le (Radii.dim r) (Radii.dim r') /\ num_le (Radii.bright r) (Radii.bright r').
Proof using token_w token_h scene_distance scene_size w_nonneg d_pos s_nonneg.
  intros Hm Ht Hsc Ha Haa Hb Hbb r r'. subst r r'. unfold sightRadii.
  change (minRadius (withSight token _ _)) with (minRadius token).
  cbn [withSight Token.flags Token.dimSight Token.brightSight].
  repeat match goal with
    | |- context [getLightRadius (Token.make ?w0 ?h0 ?x ?y ?f ?sc ?o) ?u] =>
        change (getLightRadius (Token.make w0 h0 x y f sc o) u)
          with (getLightRadius token u)
    end.
  pose proof (getLightRadius_mono a a' Ha Haa) as Hda.
  pose proof (getLightRadius_mono b b' Hb Hbb) as Hdb.
  destruct (parseFloat (Flags.sightLimit (Token.flags token))) as [| |l|];
    try discriminate Ht; cbn [Number.isNaN negb].
  - destruct (parseFloat (scene ≫= Scene.sightLimit)) as [| |l|];
      try discriminate Hsc; cbn [Number.isNaN negb Radii.dim Radii.bright].
    + split; now apply min_pair_mono.
    + pose proof (limit_notNaN l).
      split; apply min_pair_mono; try assumption; now apply min_pair_mono.
  - cbn [Radii.dim Radii.bright]. pose proof (limit_notNaN l).
    split; apply min_pair_mono; try assumption; now apply min_pair_mono.
Qed.

End Monotone.

(** C7 (amended): on a scene with a positive unit distance and a grid size
    that is not negative, for a token of finite size whose sight limits, if
    any, are finite, raising a raw [dim] or [bright] sight value that is
    not negative never lowers the vision radius, all else fixed.  (Raising
    a negative sight value towards zero does lower it: the wrapper works
    with the magnitude of the value.) *)
Theorem visionRadius_monotone (token : Token.t) (w h d s a b a' b' : Q) (r1 : Resolved.t) :
  Token.w token = Fin w -> Token.h token = Fin h -> 0 <= w ->
  Dimensions.distance (Canvas.dimensions canvas) = Fin d -> 0 < d ->
  Dimensions.size (Canvas.dimensions canvas) = Fin s -> 0 <= s ->
  maxRadius <> NaN ->
  isInfinite (parseFloat (Flags.sightLimit (Token.flags token))) = false ->
  isInfinite (parseFloat (sceneOf token ≫= Scene.sightLimit)) = false ->
  0 <= a -> a <= a' -> 0 <= b -> b <= b' ->
  resolve (withSight token (Fin a) (Fin b)) = Ok r1 ->
  exists r2,
    resolve (withSight token (Fin a') (Fin b')) = Ok r2
    /\ num_le (Resolved.visionRadius r1) (Resolved.visionRadius r2).
Proof.
  intros Hw Hh Hw0 Hd Hd0 Hs Hs0 Hm Ht Hsc Ha Haa Hb Hbb Hr1.
  unfold resolve in *.
  change (Token.flags (withSight token _ _)) with (Token.flags token) in *.
  change (sceneOf (withSight token _ _)) with (sceneOf token) in *.
  destruct (visionRulesOf (Token.flags token)) as [rules|e]; [|discriminate].
  cbn [mbind result_mbind result_bind] in *. injection Hr1 as <-.
  eexists. split; [reflexivity|]. cbn [Resolved.visionRadius].
  destruct (sightRadii_mono token w h d s Hw Hh Hd Hs Hw0 Hd0 Hs0 (sceneOf token)
              a b a' b' Hm Ht Hsc Ha Haa Hb Hbb) as [H1 H2].
  now apply visionRadiusOf_mono.
Qed.

(** ** [computeFov] at the two ends of the range of radii *)

Lemma vertices_flatten (ps : list Point.t) : vertices (flatten ps) = ps.
Proof.
  induction ps as [|[x y] ps IH]; [reflexivity|].
  unfold flatten in *. simpl. now rewrite IH.
Qed.

Lemma computeFov_miss (source : PointSource.t) (radius : number)
    (fovCache : option FovCache.t) :
  cached radius fovCache = None ->
  points (fst (computeFov source radius fovCache))
  = if (radius >? Fin 0)%js
    then flatten (fovPointsOf source radius (reach source fovCache))
    else [].
Proof.
  intros H. unfold computeFov. rewrite H.
  destruct (radius >? Fin 0)%js; destruct (isNewerVersion _ _); reflexivity.
Qed.

(** [Math.clamped(n, 0, 1)] is a number between 0 and 1, unless [n] is [NaN]. *)
Lemma clamped_unit (n : number) :
  n <> NaN -> exists c, Math.clamped n (Fin 0) (Fin 1) = Fin c /\ 0 <= c /\ c <= 1.
Proof.
  intros Hn. unfold Math.clamped. rewrite min_two, max_two.
  destruct n as [| |q|]; try contradiction.
  - exists 0. split; [reflexivity|lra].
  - unfold Math.max2, Math.min2, compare.
    destruct (Qcompare_spec q 0).
    + destruct (Qcompare_spec 1 q); eexists; (split; [reflexivity|lra]).
    + destruct (Qcompare_spec 1 0); eexists; (split; [reflexivity|lra]).
    + destruct (Qcompare_spec 1 q); eexists; (split; [reflexivity|lra]).
  - exists 1. split; [reflexivity|lra].
Qed.





(** ** [computeFov] never moves a vertex away from the source *)







(** ** The derived radii *)

Lemma when1_cases (rule a : string) (n : number) :
  when1 rule a n = n \/ when1 rule a n = Fin 0.
Proof. unfold when1. destruct (String.eqb rule a); auto. Qed.

Lemma when1_le_when2 (rule a b : string) (x : number) :
  num_le (Fin 0) x -> num_le (when1 rule a x) (when2 rule a b x).
Proof.
  intros Hx. unfold when1, when2.
  destruct (String.eqb rule a), (String.eqb rule b); simpl;
    first [exact Hx | reflexivity | apply num_le_refl; exact (num_le_notNaN_r _ _ Hx)].
Qed.

Lemma when1_range (rule a : string) (x u : number) :
  num_le (Fin 0) x -> num_le x u ->
  num_le (Fin 0) (when1 rule a x) /\ num_le (when1 rule a x) u.
Proof.
  intros H0 Hu. destruct (when1_cases rule a x) as [-> | ->]; split;
    first [assumption | reflexivity | exact (num_le_trans _ _ _ H0 Hu)].
Qed.

Lemma when2_range (rule a b : string) (x u : number) :
  num_le (Fin 0) x -> num_le x u ->
  num_le (Fin 0) (when2 rule a b x) /\ num_le (when2 rule a b x) u.
Proof.
  intros H0 Hu. destruct (when2_cases rule a b x) as [-> | ->]; split;
    first [assumption | reflexivity | exact (num_le_trans _ _ _ H0 Hu)].
Qed.

(** [Math.max] of arguments that all lie between two bounds lies between
    them, when there is an argument at all. *)
Lemma max_range (l : list number) (lo hi : number) :
  l <> [] -> Forall (fun a => num_le lo a /\ num_le a hi) l ->
  num_le lo (Math.max l) /\ num_le (Math.max l) hi.
Proof.
  intros Hne H. induction H as [|a l [Ha1 Ha2] Hl IH]; [congruence|].
  destruct l as [|b l].
  - change (Math.max [a]) with (Math.max2 a NegInfinity).
    destruct a; try discriminate Ha1; split; assumption.
  - destruct IH as [IH1 IH2]; [discriminate|].
    change (Math.max (a :: b :: l)) with (Math.max2 a (Math.max (b :: l))).
    split.
    + eapply num_le_trans; [exact Ha1|]. apply max2_ub_l.
      * exact (num_le_notNaN_r _ _ Ha1).
      * exact (num_le_notNaN_r _ _ IH1).
    + now apply max2_lub.
Qed.

(** X1: the radius of coloured vision never exceeds the vision radius,
    for radii that are not negative. *)
Theorem colour_within_vision (token : Token.t) (r : Resolved.t) :
  resolve token = Ok r ->
  num_le (Fin 0) (Radii.dim (Resolved.radii r)) ->
  num_le (Fin 0) (Radii.bright (Resolved.radii r)) ->
  num_le (Resolved.visionRadiusColor r) (Resolved.visionRadius r).
Proof.
  intros Hr Hd Hb. unfold resolve in Hr.
  destruct (visionRulesOf _) as [rules|e]; [|discriminate].
  cbn [mbind result_mbind result_bind] in Hr. injection Hr as <-.
  cbn [Resolved.visionRadiusColor Resolved.visionRadius Resolved.radii] in *.
  unfold visionRadiusColorOf, visionRadiusOf. apply max_mono.
  repeat constructor; now apply when1_le_when2.
Qed.

(** X2: each of the three derived radii lies between zero and the larger
    of the two radii it is derived from. *)
Theorem derived_radii_bounded (token : Token.t) (r : Resolved.t) :
  resolve token = Ok r ->
  num_le (Fin 0) (Radii.dim (Resolved.radii r)) ->
  num_le (Fin 0) (Radii.bright (Resolved.radii r)) ->
  let top := Math.max [Radii.dim (Resolved.radii r); Radii.bright (Resolved.radii r)] in
  (num_le (Fin 0) (Resolved.visionRadius r) /\ num_le (Resolved.visionRadius r) top)
  /\ (num_le (Fin 0) (Resolved.visionRadiusColor r)
      /\ num_le (Resolved.visionRadiusColor r) top)
  /\ (num_le (Fin 0) (Resolved.visionRadiusDimToBright r)
      /\ num_le (Resolved.visionRadiusDimToBright r) top).
Proof.
  intros Hr Hd Hb top. unfold resolve in Hr.
  destruct (visionRulesOf _) as [rules|e]; [|discriminate].
  cbn [mbind result_mbind result_bind] in Hr. injection Hr as <-.
  cbn [Resolved.visionRadiusColor Resolved.visionRadius Resolved.visionRadiusDimToBright
         Resolved.radii] in *.
  set (dim := Radii.dim _) in *. set (bright := Radii.bright _) in *.
  assert (Hdt : num_le dim top).
  { apply max_ub; [|simpl; auto].
    repeat constructor; [exact (num_le_notNaN_r _ _ Hd)|exact (num_le_notNaN_r _ _ Hb)]. }
  assert (Hbt : num_le bright top).
  { apply max_ub; [|simpl; auto].
    repeat constructor; [exact (num_le_notNaN_r _ _ Hd)|exact (num_le_notNaN_r _ _ Hb)]. }
  split; [|split].
  - apply max_range; [discriminate|].
    repeat (constructor; [now apply when2_range|]). constructor.
  - apply max_range; [discriminate|].
    repeat (constructor; [now apply when1_range|]). constructor.
  - apply max_range; [discriminate|].
    repeat (constructor; [now apply when1_range|]). constructor.
Qed.

(** ** The range of the clamped radii *)

Lemma num_le_antisym (a b : number) : num_le a b -> num_le b a -> num_eq a b.
Proof. destruct a, b; intros H1 H2; num_crush. Qed.

Lemma min2_lb_l (a b : number) : a <> NaN -> b <> NaN -> num_le (Math.min2 a b) a.
Proof. destruct a, b; intros H1 H2; try congruence; num_crush. Qed.

Lemma min2_glb (a b c : number) : num_le c a -> num_le c b -> num_le c (Math.min2 a b).
Proof. destruct a, b, c; intros H1 H2; num_crush. Qed.

(** [Math.min(x, bound)] for [x] and [bound] that are not negative. *)
Lemma min_pair_range (x bound : number) :
  num_le (Fin 0) x -> num_le (Fin 0) bound ->
  num_le (Fin 0) (Math.min [x; bound])
  /\ num_le (Math.min [x; bound]) x
  /\ num_le (Math.min [x; bound]) bound.
Proof.
  intros Hx Hb. rewrite min_two.
  pose proof (num_le_notNaN_r _ _ Hx). pose proof (num_le_notNaN_r _ _ Hb).
  split; [now apply min2_glb|]. split; [now apply min2_lb_l|now apply min2_lb_r].
Qed.

Section FiniteToken.

Variables (token : Token.t) (w h d s : Q).
Hypothesis token_w : Token.w token = Fin w.
Hypothesis token_h : Token.h token = Fin h.
Hypothesis scene_distance : Dimensions.distance (Canvas.dimensions canvas) = Fin d.
Hypothesis scene_size : Dimensions.size (Canvas.dimensions canvas) = Fin s.
Hypothesis w_nonneg : 0 <= w.
Hypothesis h_nonneg : 0 <= h.
Hypothesis d_nonzero : ~ d == 0.

Lemma getLightRadius_magnitude (q : Q) :
  exists g, Math.abs (getLightRadius token (Fin q)) = Fin g /\ 0 <= g.
Proof using token_w scene_distance scene_size d_nonzero.
  destruct (Qeq_dec q 0) as [Hz|Hz].
  - rewrite getLightRadius_zero_units by now apply num_eq_Fin.
    exists (Qabs 0). split; [reflexivity|apply Qabs_nonneg].
  - rewrite (getLightRadius_Fin token w d s) by assumption.
    eexists. split; [reflexivity|apply Qabs_nonneg].
Qed.

Lemma getLightRadius_finite (q : Q) : exists g, getLightRadius token (Fin q) = Fin g.
Proof using token_w scene_distance scene_size d_nonzero.
  destruct (Qeq_dec q 0) as [Hz|Hz].
  - rewrite getLightRadius_zero_units by now apply num_eq_Fin. eauto.
  - rewrite (getLightRadius_Fin token w d s) by assumption. eauto.
Qed.

(** The limit of line 377 for a finite flag: a number, [minR] at least. *)
Lemma limit_range (l : Q) :
  let limit := Math.max [getLightRadius token (Math.abs (Fin l)); minRadius token] in
  num_le (Fin 0) limit /\ num_le (minRadius token) limit.
Proof using token_w token_h scene_distance scene_size w_nonneg h_nonneg d_nonzero.
  intros limit. subst limit. rewrite max_two.
  destruct (getLightRadius_finite (Qabs l)) as (g & Hg).
  destruct (minRadius_Fin token w h token_w token_h w_nonneg h_nonneg) as (m & Hm & Hm0).
  cbn [Math.abs]. rewrite Hg, Hm.
  assert (Hr : num_le (Fin m) (Math.max2 (Fin g) (Fin m)))
    by (apply max2_ub_r; discriminate).
  split; [|exact Hr]. eapply num_le_trans; [|exact Hr]. now apply num_le_Fin.
Qed.

(** X3: on a scene with finite dimensions, for a token of finite size and
    finite raw sight values, the radii of lines 359-380 lie between zero
    and [maxR], the sign is 1 or -1, and a sight limit, when there is one,
    is at least [minR] and bounds both radii. *)
Theorem sightRadii_range (scene : option Scene.t) (a b : Q) :
  Token.dimSight token = Fin a -> Token.brightSight token = Fin b ->
  num_le (Fin 0) maxRadius ->
  isInfinite (parseFloat (Flags.sightLimit (Token.flags token))) = false ->
  isInfinite (parseFloat (scene ≫= Scene.sightLimit)) = false ->
  let r := sightRadii token scene in
  (num_le (Fin 0) (Radii.dim r) /\ num_le (Radii.dim r) maxRadius)
  /\ (num_le (Fin 0) (Radii.bright r) /\ num_le (Radii.bright r) maxRadius)
  /\ (Radii.sign r = Fin 1 \/ Radii.sign r = Fin (-1))
  /\ (Radii.sightLimit r <> NaN ->
      num_le (minRadius token) (Radii.sightLimit r)
      /\ num_le (Radii.dim r) (Radii.sightLimit r)
      /\ num_le (Radii.bright r) (Radii.sightLimit r)).
Proof using token_w token_h scene_distance scene_size w_nonneg h_nonneg d_nonzero.
  intros Ha Hb Hm Ht Hsc r. subst r. unfold sightRadii. rewrite Ha, Hb.
  destruct (getLightRadius_magnitude a) as (ga & -> & Hga).
  destruct (getLightRadius_magnitude b) as (gb & -> & Hgb).
  destruct (min_pair_range (Fin ga) maxRadius) as (Hd0 & _ & Hd1);
    [now apply num_le_Fin|assumption|].
  destruct (min_pair_range (Fin gb) maxRadius) as (Hb0 & _ & Hb1);
    [now apply num_le_Fin|assumption|].
  set (dim := Math.min [Fin ga; maxRadius]) in *.
  set (bright := Math.min [Fin gb; maxRadius]) in *.
  set (sign := if (_ <? _)%js then _ else _).
  assert (Hsign : sign = Fin 1 \/ sign = Fin (-1))
    by (subst sign; destruct (_ <? _)%js; auto).
  assert (Hlim : forall l,
    let limit := Math.max [getLightRadius token (Math.abs (Fin l)); minRadius token] in
    (num_le (Fin 0) (Math.min [dim; limit]) /\ num_le (Math.min [dim; limit]) maxRadius)
    /\ (num_le (Fin 0) (Math.min [bright; limit])
        /\ num_le (Math.min [bright; limit]) maxRadius)
    /\ num_le (minRadius token) limit
    /\ num_le (Math.min [dim; limit]) limit
    /\ num_le (Math.min [bright; limit]) limit).
  { intros l limit. destruct (limit_range l) as [Hl0 Hl1]. fold limit in Hl0, Hl1.
    destruct (min_pair_range dim limit Hd0 Hl0) as (H1 & H2 & H3).
    destruct (min_pair_range bright limit Hb0 Hl0) as (H4 & H5 & H6).
    split; [split; [exact H1|exact (num_le_trans _ _ _ H2 Hd1)]|].
    split; [split; [exact H4|exact (num_le_trans _ _ _ H5 Hb1)]|].
    split; [exact Hl1|]. split; [exact H3|exact H6]. }
  destruct (parseFloat (Flags.sightLimit (Token.flags token))) as [| |l|];
    try discriminate Ht; cbn [Number.isNaN negb].
  - destruct (parseFloat (scene ≫= Scene.sightLimit)) as [| |l|];
      try discriminate Hsc;
      cbn [Number.isNaN negb Radii.dim Radii.bright Radii.sign Radii.sightLimit].
    + split; [tauto|]. split; [tauto|]. split; [exact Hsign|]. intros H. now elim H.
    + destruct (Hlim l) as (H1 & H2 & H3 & H4 & H5).
      split; [exact H1|]. split; [exact H2|]. split; [exact Hsign|]. intros _. tauto.
  - cbn [Radii.dim Radii.bright Radii.sign Radii.sightLimit].
    destruct (Hlim l) as (H1 & H2 & H3 & H4 & H5).
    split; [exact H1|]. split; [exact H2|]. split; [exact Hsign|]. intros _. tauto.
Qed.

End FiniteToken.

(** ** The sign of the raw sight values *)

Section PositiveScene.

Variables (token : Token.t) (w h d s : Q).
Hypothesis token_w : Token.w token = Fin w.
Hypothesis token_h : Token.h token = Fin h.
Hypothesis scene_distance : Dimensions.distance (Canvas.dimensions canvas) = Fin d.
Hypothesis scene_size : Dimensions.size (Canvas.dimensions canvas) = Fin s.
Hypothesis w_pos : 0 < w.
Hypothesis h_nonneg : 0 <= h.
Hypothesis d_pos : 0 < d.
Hypothesis s_nonneg : 0 <= s.

(** The pixel radius of a magnitude. *)
Lemma pixels_pos (q : Q) : 0 < Qabs q / d * s + w / 2.
Proof using w_pos d_pos s_nonneg.
  assert (0 <= Qabs q / d * s).
  { apply Qmult_le_0_compat; [|assumption]. apply Qdiv_nonneg; [apply Qabs_nonneg|assumption]. }
  assert (0 < w / 2) by (apply Qlt_shift_div_l; lra).
  set (k := Qabs q / d * s) in *. set (hw := w / 2) in *. clearbody k hw. lra.
Qed.

(** [getLightRadius] has the sign of the sight value. *)
Lemma getLightRadius_signed (q : Q) :
  exists g, getLightRadius token (Fin q) = Fin g
            /\ (g < 0 <-> q < 0)
            /\ Qabs g == (if Qeq_dec q 0 then 0 else Qabs q / d * s + w / 2).
Proof using token_w scene_distance scene_size w_pos d_pos s_nonneg.
  assert (Hd : ~ d == 0) by lra.
  destruct (Qeq_dec q 0) as [Hz|Hz].
  - rewrite getLightRadius_zero_units by now apply num_eq_Fin.
    exists 0. split; [reflexivity|]. split; [lra|reflexivity].
  - rewrite (getLightRadius_Fin token w d s) by assumption.
    eexists. split; [reflexivity|].
    pose proof (pixels_pos q) as Hp. set (p := Qabs q / d * s + w / 2) in *. clearbody p.
    destruct (Qlt_le_dec q 0) as [Hq|Hq].
    + split; [lra|]. rewrite Qabs_neg; lra.
    + split; [lra|]. rewrite Qabs_pos; lra.
Qed.

(** X4: on a scene with a positive unit distance, for a token of positive
    width, the sign kept by line 362 is -1 exactly when one of the two raw
    sight values is negative. *)
Theorem sign_of_raw_values (scene : option Scene.t) (a b : Q) :
  Token.dimSight token = Fin a -> Token.brightSight token = Fin b ->
  let r := sightRadii token scene in
  (a < 0 \/ b < 0 -> Radii.sign r = Fin (-1))
  /\ (0 <= a /\ 0 <= b -> Radii.sign r = Fin 1).
Proof using token_w scene_distance scene_size w_pos d_pos s_nonneg.
  intros Ha Hb r.
  assert (Hs : Radii.sign r
               = if (Math.min [getLightRadius token (Fin a); getLightRadius token (Fin b)]
                     <? Fin 0)%js
                 then Fin (-1) else Fin 1).
  { subst r. unfold sightRadii. rewrite Ha, Hb. now destruct (negb _). }
  rewrite Hs.
  destruct (getLightRadius_signed a) as (ga & -> & Hga & _).
  destruct (getLightRadius_signed b) as (gb & -> & Hgb & _).
  rewrite min_two. unfold Math.min2, ltb, compare.
  split.
  - intros Hneg. destruct (Qcompare_spec ga gb); cbn [compare];
      match goal with |- context [(?x ?= 0)%Q] => destruct (Qcompare_spec x 0) end;
      first [reflexivity | exfalso; lra].
  - intros [Ha0 Hb0]. destruct (Qcompare_spec ga gb); cbn [compare];
      match goal with |- context [(?x ?= 0)%Q] => destruct (Qcompare_spec x 0) end;
      first [reflexivity | exfalso; lra].
Qed.

Lemma getLightRadius_magnitude_eq (q q' : Q) :
  Qabs q == Qabs q' ->
  num_le (Math.abs (getLightRadius token (Fin q)))
         (Math.abs (getLightRadius token (Fin q'))).
Proof using token_w scene_distance scene_size w_pos d_pos s_nonneg.
  intros Hq.
  destruct (getLightRadius_signed q) as (g & -> & _ & Hg).
  destruct (getLightRadius_signed q') as (g' & -> & _ & Hg').
  apply num_le_Fin. cbn [Math.abs]. rewrite Hg, Hg'.
  assert (Hz : q == 0 <-> q' == 0).
  { split; intros H0.
    - destruct (Qeq_dec q' 0) as [|Hn]; [assumption|].
      pose proof (Qabs_nonzero q' Hn). rewrite H0 in Hq. change (Qabs 0) with 0 in Hq. lra.
    - destruct (Qeq_dec q 0) as [|Hn]; [assumption|].
      pose proof (Qabs_nonzero q Hn). rewrite H0 in Hq. change (Qabs 0) with 0 in Hq. lra. }
  destruct (Qeq_dec q 0) as [E|E], (Qeq_dec q' 0) as [E'|E'].
  - lra.
  - exfalso. apply E', Hz, E.
  - exfalso. apply E, Hz, E'.
  - rewrite Hq. lra.
Qed.

Lemma sightRadii_le (scene : option Scene.t) (x y x' y' : Q) :
  maxRadius <> NaN ->
  isInfinite (parseFloat (Flags.sightLimit (Token.flags token))) = false ->
  isInfinite (parseFloat (scene ≫= Scene.sightLimit)) = false ->
  num_le (Math.abs (getLightRadius token (Fin x))) (Math.abs (getLightRadius token (Fin x'))) ->
  num_le (Math.abs (getLightRadius token (Fin y))) (Math.abs (getLightRadius token (Fin y'))) ->
  let r := sightRadii (withSight token (Fin x) (Fin y)) scene in
  let r' := sightRadii (withSight token (Fin x') (Fin y')) scene in
  num_le (Radii.dim r) (Radii.dim r') /\ num_le (Radii.bright r) (Radii.bright r').
Proof using token_w token_h scene_distance scene_size d_pos.
  intros Hm Ht Hsc Hda Hdb r r'. subst r r'. unfold sightRadii.
  change (minRadius (withSight token _ _)) with (minRadius token).
  cbn [withSight Token.flags Token.dimSight Token.brightSight].
  repeat match goal with
    | |- context [getLightRadius (Token.make ?w0 ?h0 ?u ?v ?f ?sc ?o) ?z] =>
        change (getLightRadius (Token.make w0 h0 u v f sc o) z)
          with (getLightRadius token z)
    end.
  pose proof (limit_notNaN token w h d s token_w token_h scene_distance scene_size d_pos)
    as Hlim.
  destruct (parseFloat (Flags.sightLimit (Token.flags token))) as [| |l|];
    try discriminate Ht; cbn [Number.isNaN negb].
  - destruct (parseFloat (scene ≫= Scene.sightLimit)) as [| |l|];
      try discriminate Hsc; cbn [Number.isNaN negb Radii.dim Radii.bright].
    + split; now apply min_pair_mono.
    + pose proof (Hlim l).
      split; apply min_pair_mono; try assumption; now apply min_pair_mono.
  - cbn [Radii.dim Radii.bright]. pose proof (Hlim l).
    split; apply min_pair_mono; try assumption; now apply min_pair_mono.
Qed.

End PositiveScene.

Lemma when1_mono (rule a : string) (r r' : number) :
  num_le r r' -> num_le (when1 rule a r) (when1 rule a r').
Proof. intros H. unfold when1. destruct (String.eqb rule a); [exact H|reflexivity]. Qed.

Lemma visionRadiusColorOf_mono (rules : Rules.t) (dim dim' bright bright' : number) :
  num_le dim dim' -> num_le bright bright' ->
  num_le (visionRadiusColorOf rules dim bright) (visionRadiusColorOf rules dim' bright').
Proof.
  intros Hd Hb. unfold visionRadiusColorOf. apply max_mono.
  repeat constructor; now apply when1_mono.
Qed.

Lemma visionRadiusDimToBrightOf_mono (rules : Rules.t) (dim dim' bright bright' : number) :
  num_le dim dim' -> num_le bright bright' ->
  num_le (visionRadiusDimToBrightOf rules dim bright)
         (visionRadiusDimToBrightOf rules dim' bright').
Proof.
  intros Hd Hb. unfold visionRadiusDimToBrightOf. apply max_mono.
  repeat constructor; now apply when1_mono.
Qed.

(** X5: the radii depend on the magnitude of the raw sight values only:
    raw values of the same magnitudes, whatever their signs, give the same
    clamped radii and the same three derived radii. *)
Theorem magnitude_decides_radii (token : Token.t) (w h d s a b a' b' : Q) (r1 : Resolved.t) :
  Token.w token = Fin w -> Token.h token = Fin h -> 0 < w ->
  Dimensions.distance (Canvas.dimensions canvas) = Fin d -> 0 < d ->
  Dimensions.size (Canvas.dimensions canvas) = Fin s -> 0 <= s ->
  maxRadius <> NaN ->
  isInfinite (parseFloat (Flags.sightLimit (Token.flags token))) = false ->
  isInfinite (parseFloat (sceneOf token ≫= Scene.sightLimit)) = false ->
  Qabs a == Qabs a' -> Qabs b == Qabs b' ->
  resolve (withSight token (Fin a) (Fin b)) = Ok r1 ->
  exists r2,
    resolve (withSight token (Fin a') (Fin b')) = Ok r2
    /\ num_eq (Radii.dim (Resolved.radii r1)) (Radii.dim (Resolved.radii r2))
    /\ num_eq (Radii.bright (Resolved.radii r1)) (Radii.bright (Resolved.radii r2))
    /\ num_eq (Resolved.visionRadius r1) (Resolved.visionRadius r2)
    /\ num_eq (Resolved.visionRadiusColor r1) (Resolved.visionRadiusColor r2)
    /\ num_eq (Resolved.visionRadiusDimToBright r1) (Resolved.visionRadiusDimToBright r2).
Proof.
  intros Hw Hh Hw0 Hd Hd0 Hs Hs0 Hm Ht Hsc Ha Hb Hr1.
  unfold resolve in *.
  change (Token.flags (withSight token _ _)) with (Token.flags token) in *.
  change (sceneOf (withSight token _ _)) with (sceneOf token) in *.
  destruct (visionRulesOf (Token.flags token)) as [rules|e]; [|discriminate].
  cbn [mbind result_mbind result_bind] in *. injection Hr1 as <-.
  eexists. split; [reflexivity|].
  cbn [Resolved.visionRadius Resolved.visionRadiusColor Resolved.visionRadiusDimToBright
         Resolved.radii].
  pose proof (getLightRadius_magnitude_eq token w d s Hw Hd Hs Hw0 Hd0 Hs0) as Hmag.
  assert (Ha' : Qabs a' == Qabs a) by (symmetry; exact Ha).
  assert (Hb' : Qabs b' == Qabs b) by (symmetry; exact Hb).
  destruct (sightRadii_le token w h d s Hw Hh Hd Hs Hd0 (sceneOf token) a b a' b'
              Hm Ht Hsc (Hmag a a' Ha) (Hmag b b' Hb)) as [H1 H2].
  destruct (sightRadii_le token w h d s Hw Hh Hd Hs Hd0 (sceneOf token) a' b' a b
              Hm Ht Hsc (Hmag a' a Ha') (Hmag b' b Hb')) as [H3 H4].
  repeat split; apply num_le_antisym;
    first [assumption
          | now apply visionRadiusOf_mono
          | now apply visionRadiusColorOf_mono
          | now apply visionRadiusDimToBrightOf_mono].
Qed.

(** ** Dim sight that shows as dim light *)

Lemma max2_Fin_l (p z : Q) : z <= p -> Math.max2 (Fin p) (Fin z) = Fin p.
Proof. intros H. unfold Math.max2, compare. destruct (Qcompare_spec p z); try reflexivity. lra. Qed.

Lemma max2_Fin_zero (x y : Q) :
  x == 0 -> y == 0 -> exists q, Math.max2 (Fin x) (Fin y) = Fin q /\ q == 0.
Proof. intros Hx Hy. unfold Math.max2, compare. destruct (x ?= y); eauto. Qed.

(** X6: a token with [q] units of dim sight and no bright sight, under
    rules that show dim vision in darkness as dim light and without a sight
    limit: the [dim] handed to the host, the stored radius and the vision
    radius are all [(q / distance) * size + w / 2] pixels, and [bright] is
    zero. *)
Theorem dim_sight_pixels (token : Token.t) (w h d s q : Q) (r : Resolved.t) :
  Token.w token = Fin w -> Token.h token = Fin h -> 0 < w ->
  Dimensions.distance (Canvas.dimensions canvas) = Fin d -> 0 < d ->
  Dimensions.size (Canvas.dimensions canvas) = Fin s -> 0 <= s ->
  Token.dimSight token = Fin q -> 0 < q ->
  num_eq (Token.brightSight token) (Fin 0) ->
  Flags.sightLimit (Token.flags token) = None ->
  sceneOf token ≫= Scene.sightLimit = None ->
  num_le (Fin (q / d * s + w / 2)) maxRadius ->
  resolve token = Ok r ->
  Rules.dimVisionInDarkness (Resolved.rules r) = "dim" ->
  let pixels := Fin (q / d * s + w / 2) in
  num_eq (Data.dim (Resolved.data r)) pixels
  /\ num_eq (Data.bright (Resolved.data r)) (Fin 0)
  /\ num_eq (Resolved.radius r) pixels
  /\ num_eq (Resolved.visionRadius r) pixels.
Proof.
  intros Hw Hh Hw0 Hd Hd0 Hs Hs0 Hq Hq0 Hb Hl Hsc Hmax Hr Hrule pixels.
  assert (Hdn : ~ d == 0) by lra. assert (Hqn : ~ q == 0) by lra.
  assert (Hk : 0 <= q / d * s).
  { apply Qmult_le_0_compat; [|assumption]. apply Qdiv_nonneg; lra. }
  assert (Hhw : 0 < w / 2) by (apply Qlt_shift_div_l; lra).
  (* the radii *)
  assert (Hradii : exists p z, p == q / d * s + w / 2 /\ z == 0
            /\ sightRadii token (sceneOf token) = Radii.make (Fin 1) (Fin p) (Fin z) NaN).
  { unfold sightRadii. rewrite Hq, Hl, Hsc.
    rewrite (getLightRadius_zero_units token _ Hb).
    rewrite (getLightRadius_Fin token w d s Hw Hd Hs Hdn q Hqn).
    destruct (Qlt_le_dec q 0) as [Hneg|_]; [lra|].
    cbn [parseFloat Number.isNaN negb Math.abs].
    set (g := (Qabs q / d * s + w / 2) * 1).
    assert (Hg : g == q / d * s + w / 2).
    { subst g. rewrite (Qabs_pos q) by lra.
      set (k := q / d * s) in *. set (hw := w / 2) in *. clearbody k hw. lra. }
    assert (Hga : Qabs g == q / d * s + w / 2).
    { rewrite Qabs_pos; [exact Hg|]. rewrite Hg.
      set (k := q / d * s) in *. set (hw := w / 2) in *. clearbody k hw. lra. }
    assert (Hmax0 : num_le (Fin 0) maxRadius).
    { eapply num_le_trans; [|exact Hmax]. apply num_le_Fin.
      set (k := q / d * s) in *. set (hw := w / 2) in *. clearbody k hw. lra. }
    exists (Qabs g), (Qabs 0). split; [exact Hga|]. split; [reflexivity|].
    rewrite (min_with_bound (Qabs 0) maxRadius) by (reflexivity || assumption).
    assert (Hmin : Math.min [Fin (Qabs g); maxRadius] = Fin (Qabs g)).
    { rewrite min_two. destruct maxRadius as [| |m|]; try discriminate Hmax; [|reflexivity].
      apply num_le_Fin in Hmax. unfold Math.min2, compare.
      destruct (Qcompare_spec (Qabs g) m); try reflexivity. lra. }
    rewrite Hmin.
    replace (Math.min [Fin g; Fin 0] <? Fin 0)%js with false; [reflexivity|].
    rewrite min_two. unfold Math.min2, ltb, compare.
    destruct (Qcompare_spec g 0); cbn [compare]; try reflexivity;
      set (k := q / d * s) in *; set (hw := w / 2) in *; clearbody k hw; exfalso; lra. }
  destruct Hradii as (p & z & Hp & Hz & Hradii).
  unfold resolve in Hr. destruct (visionRulesOf _) as [rules|e]; [|discriminate].
  cbn [mbind result_mbind result_bind] in Hr. injection Hr as <-.
  cbn [Resolved.rules] in Hrule.
  cbn [Resolved.data Resolved.radius Resolved.visionRadius]. rewrite Hradii.
  cbn [Radii.sign Radii.dim Radii.bright].
  assert (Hp0 : 0 < p).
  { rewrite Hp. set (k := q / d * s) in *. set (hw := w / 2) in *. clearbody k hw. lra. }
  (* the arguments that come from the bright radius are zero *)
  assert (Hz2 : forall a b, exists e, when2 (Rules.brightVisionInDarkness rules) a b (Fin z)
                                      = Fin e /\ e == 0)
    by (intros a b; now apply when2_zero).
  assert (Hdata : exists x y, emission rules (Fin 1) (Fin p) (Fin z) = Data.make (Fin x) (Fin y)
                              /\ x == p /\ y == 0).
  { unfold emission. rewrite Hrule, !max_two.
    destruct (Hz2 "dim" "dim_mono") as (e1 & -> & He1).
    destruct (Hz2 "bright" "bright_mono") as (e2 & -> & He2).
    cbn [when2 String.eqb Ascii.eqb Bool.eqb orb andb].
    rewrite (max2_Fin_l p e1) by lra.
    destruct (max2_Fin_zero 0 e2 (Qeq_refl 0) He2) as (y & -> & Hy).
    eexists _, _. split; [reflexivity|]. cbn [mul]. split; lra. }
  destruct Hdata as (x & y & -> & Hx & Hy).
  assert (Hstored : num_eq (storedRadius (Data.make (Fin x) (Fin y))) (Fin p)).
  { unfold storedRadius. cbn [Data.dim Data.bright Math.abs]. rewrite max_two.
    rewrite (max2_Fin_l (Qabs x) (Qabs y)).
    - apply num_eq_Fin. rewrite Qabs_pos; lra.
    - rewrite (Qabs_pos x) by lra. rewrite Hy. change (Qabs 0) with 0. lra. }
  assert (Hvision : num_eq (visionRadiusOf rules (Fin p) (Fin z)) (Fin p)).
  { apply num_le_antisym.
    - unfold visionRadiusOf.
      refine (proj2 (max_range _ (Fin 0) (Fin p) _ _)); [discriminate|].
      assert (Hpp : num_le (Fin 0) (Fin p) /\ num_le (Fin p) (Fin p))
        by (split; apply num_le_Fin; lra).
      assert (Hzp : num_le (Fin 0) (Fin z) /\ num_le (Fin z) (Fin p))
        by (split; apply num_le_Fin; lra).
      repeat (constructor; [first [now apply when2_range
                                  | apply (when2_range _ _ _ (Fin z) (Fin p)); tauto]|]).
      constructor.
    - replace (Fin p) with (when2 (Rules.dimVisionInDarkness rules) "dim" "dim_mono" (Fin p))
        at 1 by (rewrite Hrule; reflexivity).
      apply visionRadius_ub; [lra|lra|]. simpl. auto. }
  unfold forceMinimum. cbn [Data.dim Data.bright].
  replace (Fin x === Fin 0)%js with false by (symmetry; num_crush).
  cbn [andb]. subst pixels.
  assert (Hpix : num_eq (Fin p) (Fin (q / d * s + w / 2))) by now apply num_eq_Fin.
  split; [apply num_eq_Fin; lra|]. split; [now apply num_eq_Fin|].
  split; eapply num_eq_trans; eassumption.
Qed.

(** ** What [computeFov] does to its cache *)

Lemma cached_setEntry_ne (radius radius' : number) (fov : Polygon) (c : FovCache.t) :
  key radius <> key radius' ->
  cached radius' (Some (setEntry radius fov c)) = cached radius' (Some c).
Proof. intros H. unfold cached, setEntry. simpl. now apply lookup_insert_ne. Qed.

(** The cache left by a call that the cache did not answer. *)
Lemma computeFov_miss_cache (source : PointSource.t) (radius : number) (c : FovCache.t) :
  cached radius (Some c) = None ->
  snd (computeFov source radius (Some c))
  = Some (setEntry radius (fst (computeFov source radius (Some c)))
            (if (radius >? Fin 0)%js then setDistance (reach source (Some c)) c else c)).
Proof.
  intros H. unfold computeFov. rewrite H. now destruct (radius >? Fin 0)%js.
Qed.

(** X7: a call of [computeFov] never changes what the cache already
    holds: a polygon stored under any radius is still stored under it
    afterwards, and a memoized distance stays as it is. *)
Theorem computeFov_keeps_cache (source : PointSource.t) (radius radius' : number)
    (c : FovCache.t) :
  let after := snd (computeFov source radius (Some c)) in
  (forall fov', cached radius' (Some c) = Some fov' -> cached radius' after = Some fov')
  /\ (forall d, FovCache.distance c = Some d -> after ≫= FovCache.distance = Some d).
Proof.
  intros after. subst after.
  destruct (cached radius (Some c)) as [fov|] eqn:E.
  - rewrite (computeFov_hit source radius (Some c) fov E). split; auto.
  - rewrite (computeFov_miss_cache source radius c E). split.
    + intros fov' H'.
      assert (Hne : key radius <> key radius').
      { intros Hk. unfold cached in E, H'. simpl in E, H'. rewrite Hk in E. congruence. }
      rewrite cached_setEntry_ne by assumption.
      destruct (radius >? Fin 0)%js; exact H'.
    + intros d Hd. destruct (radius >? Fin 0)%js; simpl; [|exact Hd].
      unfold reach. simpl. now rewrite Hd.
Qed.

(** X8: the cache is keyed by the radius alone.  Whatever source a later
    call is made for, with the cache a first call has left it returns the
    polygon of the first call, and it measures with the distance the first
    call memoized. *)
Theorem computeFov_cache_ignores_source (source source' : PointSource.t)
    (radius : number) (c : FovCache.t) :
  let first := computeFov source radius (Some c) in
  computeFov source' radius (snd first) = (fst first, snd first)
  /\ (cached radius (Some c) = None -> (radius >? Fin 0)%js = true ->
      reach source' (snd first) = reach source (Some c)).
Proof.
  intros first. split.
  - apply computeFov_hit. apply computeFov_cached.
  - intros Hmiss Hpos. subst first. unfold computeFov. rewrite Hmiss, Hpos. reflexivity.
Qed.

Lemma length_vertices_flatten (ps : list Point.t) :
  length (vertices (flatten ps)) = length ps.
Proof. now rewrite vertices_flatten. Qed.

(** X9: a polygon computed for a positive radius has as many vertices as
    the line-of-sight polygon; for any other radius, [NaN] included, it
    has none, and the distance memoized in the cache is left alone. *)
Theorem computeFov_vertex_count (source : PointSource.t) (radius : number)
    (fovCache : option FovCache.t) :
  cached radius fovCache = None ->
  let result := computeFov source radius fovCache in
  length (vertices (points (fst result)))
  = (if (radius >? Fin 0)%js
     then length (vertices (points (PointSource.los source)))
     else 0%nat)
  /\ ((radius >? Fin 0)%js = false ->
      points (fst result) = []
      /\ snd result ≫= FovCache.distance = fovCache ≫= FovCache.distance).
Proof.
  intros Hmiss result. subst result. split.
  - rewrite (computeFov_miss source radius fovCache Hmiss).
    destruct (radius >? Fin 0)%js; [|reflexivity].
    unfold fovPointsOf. now rewrite length_vertices_flatten, length_map.
  - intros Hneg. split.
    + rewrite (computeFov_miss source radius fovCache Hmiss). now rewrite Hneg.
    + unfold computeFov. rewrite Hmiss, Hneg. now destruct fovCache.
Qed.

(** ** [computeFov] keeps the polygon within the radius *)





(** ** The polygons the wrapper of [initialize] shares *)

Lemma max2_num_eq (a a' b : number) :
  num_eq a a' -> b <> NaN -> num_eq (Math.max2 a b) (Math.max2 a' b).
Proof. destruct a, a', b; intros H1 H2; try congruence; num_crush. Qed.

(** X11: when the radius of the field of view equals the radius the host
    has given the source, the wrapper leaves the host's own polygon in
    [this.fov]: the cache it starts from answers the call. *)
Theorem initialize_keeps_host_fov
    (wrapped : PointSource.t -> option Data.t -> PointSource.t)
    (this this' : PointSource.t) (this_ ext : Extension.t) (data : option Data.t)
    (token : Token.t) (r : Resolved.t) :
  isSight this this_ = true ->
  tokenOf this this_ = Some token ->
  resolve token = Ok r ->
  initialize wrapped this this_ data = Ok (this', ext) ->
  let host := wrapped this (Some (Resolved.data r)) in
  num_eq (fovRadius r) (PointSource.radius host) ->
  PointSource.fov this' = PointSource.fov host
  /\ Extension.fov ext = Some (PointSource.fov this').
Proof.
  intros Hs Ht Hr Hi host Heq.
  destruct (initialize_fov wrapped this this_ data token r Hs Ht Hr)
    as (this1 & ext1 & Hi1 & Hfov & Hext).
  rewrite Hi in Hi1. injection Hi1 as <- <-. fold host in Hfov, Hext.
  assert (Hhit : PointSource.fov this' = PointSource.fov host).
  { rewrite Hfov. erewrite computeFov_hit; [reflexivity|].
    unfold cached. simpl. rewrite (key_num_eq _ _ Heq). apply lookup_singleton_eq. }
  split; [exact Hhit|]. now rewrite Hext, Hhit.
Qed.

(** X12: for a token that is not a preview, when the radius of coloured
    vision is positive and equals the vision radius, the polygon of
    coloured vision is the very polygon of the field of view: the second
    call of [computeFov] is answered by the cache. *)
Theorem initialize_shares_colour_fov
    (wrapped : PointSource.t -> option Data.t -> PointSource.t)
    (this this' : PointSource.t) (this_ ext : Extension.t) (data : option Data.t)
    (token : Token.t) (r : Resolved.t) :
  isSight this this_ = true ->
  tokenOf this this_ = Some token ->
  resolve token = Ok r ->
  initialize wrapped this this_ data = Ok (this', ext) ->
  Token._original token = None ->
  Resolved.minR r <> NaN ->
  (Resolved.visionRadiusColor r >? Fin 0)%js = true ->
  num_eq (Resolved.visionRadiusColor r) (Resolved.visionRadius r) ->
  Extension.fovColor ext = Some (PointSource.fov this')
  /\ Extension.fovMono ext = Some (PointSource.fov this').
Proof.
  intros Hs Ht Hr Hi Ho Hm Hpos Heq.
  unfold initialize in Hi. rewrite Hs, Ht, Hr in Hi.
  cbn [negb mbind result_mbind result_bind] in Hi. rewrite Ho, Hpos in Hi.
  replace (bool_decide (is_Some (@None (option Scene.t)))) with false in Hi
    by (symmetry; apply bool_decide_eq_false; intros [? ?]; discriminate).
  cbn [negb andb] in Hi.
  set (host := wrapped this (Some (Resolved.data r))) in *.
  set (seed := FovCache.make None _) in *.
  pose proof (computeFov_cached host (fovRadius r) seed) as Hc.
  destruct (computeFov host (fovRadius r) (Some seed)) as [fov c1].
  cbn [fst snd] in Hc.
  assert (Hkey : key (Math.max [Resolved.visionRadiusColor r; Resolved.minR r])
                 = key (fovRadius r)).
  { apply key_num_eq. unfold fovRadius. rewrite !max_two. now apply max2_num_eq. }
  assert (Hc' : cached (Math.max [Resolved.visionRadiusColor r; Resolved.minR r]) c1
                = Some fov).
  { unfold cached in *. now rewrite Hkey. }
  unfold computeFovIf at 1 in Hi.
  rewrite (computeFov_hit (withFov host fov) _ c1 fov Hc') in Hi.
  destruct (computeFovIf _ _ _ c1) as [fovDimToBright c3].
  injection Hi as <- <-. cbn [Extension.fovColor Extension.fovMono].
  now destruct (negb _).
Qed.



(** ** [sanitize] *)

Lemma toInt32_small (z : Z) : (- 2 ^ 31 <= z < 2 ^ 31)%Z -> toInt32 z = z.
Proof. intros H. unfold toInt32. rewrite Z.mod_small; lia. Qed.

Lemma toInt32_range (z : Z) : (- 2 ^ 31 <= toInt32 z < 2 ^ 31)%Z.
Proof. unfold toInt32. pose proof (Z.mod_pos_bound (z + 2 ^ 31) (2 ^ 32)). lia. Qed.

Lemma band_255 (a : Z) : band a 255 = (toInt32 a mod 256)%Z.
Proof.
  unfold band. rewrite (toInt32_small 255) by lia.
  change 255%Z with (Z.ones 8). rewrite Z.land_ones by lia. reflexivity.
Qed.

Lemma channel_range (a : Z) : (0 <= band a 255 <= 255)%Z.
Proof. rewrite band_255. pose proof (Z.mod_pos_bound (toInt32 a) 256). lia. Qed.

Lemma shr_small (a n : Z) : (- 2 ^ 31 <= a < 2 ^ 31)%Z -> (0 <= n)%Z -> shr a n = (a / 2 ^ n)%Z.
Proof. intros Ha Hn. unfold shr. rewrite toInt32_small by assumption. now apply Z.shiftr_div_pow2. Qed.

Lemma shl_channel (x n : Z) :
  (0 <= x <= 255)%Z -> (0 <= n <= 16)%Z -> shl x n = (x * 2 ^ n)%Z.
Proof.
  intros Hx Hn. unfold shl. rewrite (toInt32_small x) by lia.
  rewrite Z.shiftl_mul_pow2 by lia.
  assert (2 ^ n <= 2 ^ 16)%Z by (apply Z.pow_le_mono_r; lia).
  apply toInt32_small. nia.
Qed.

(** The channels of a colour put together from three channels. *)
Lemma channels_of_rgb (r g b : Z) :
  (0 <= r <= 255)%Z -> (0 <= g <= 255)%Z -> (0 <= b <= 255)%Z ->
  let hex := (shl r 16 + shl g 8 + b)%Z in
  hex = (r * 65536 + g * 256 + b)%Z /\ red hex = r /\ green hex = g /\ blue hex = b.
Proof.
  intros Hr Hg Hb hex. subst hex.
  rewrite (shl_channel r 16), (shl_channel g 8) by lia.
  change (2 ^ 16)%Z with 65536%Z. change (2 ^ 8)%Z with 256%Z.
  set (hex := (r * 65536 + g * 256 + b)%Z).
  assert (Hhex : (0 <= hex < 2 ^ 24)%Z) by (subst hex; lia).
  assert (H31 : (- 2 ^ 31 <= hex < 2 ^ 31)%Z) by lia.
  split; [reflexivity|]. unfold red, green, blue.
  rewrite !band_255, !shr_small by lia.
  rewrite (toInt32_small hex) by lia.
  change (2 ^ 16)%Z with 65536%Z. change (2 ^ 8)%Z with 256%Z.
  assert (H16 : (hex / 65536 = r)%Z) by (subst hex; Z.div_mod_to_equations; lia).
  assert (H8 : (hex / 256 = r * 256 + g)%Z) by (subst hex; Z.div_mod_to_equations; lia).
  rewrite H16, H8.
  rewrite !toInt32_small by lia.
  subst hex. repeat split; Z.div_mod_to_equations; lia.
Qed.

Lemma sanitize_channels (hex : Z) :
  sanitize hex
  = (Z.max (red hex) 15 * 65536 + Z.max (green hex) 15 * 256 + Z.max (blue hex) 15)%Z
  /\ red (sanitize hex) = Z.max (red hex) 15
  /\ green (sanitize hex) = Z.max (green hex) 15
  /\ blue (sanitize hex) = Z.max (blue hex) 15.
Proof.
  pose proof (channel_range (shr hex 16)). pose proof (channel_range (shr hex 8)).
  pose proof (channel_range hex).
  apply (channels_of_rgb (Z.max (red hex) 15) (Z.max (green hex) 15) (Z.max (blue hex) 15));
    unfold red, green, blue; lia.
Qed.

Lemma sanitize_range (hex : Z) : (0x0f0f0f <= sanitize hex <= 0xffffff)%Z.
Proof.
  destruct (sanitize_channels hex) as (Hs & _).
  pose proof (channel_range (shr hex 16)). pose proof (channel_range (shr hex 8)).
  pose proof (channel_range hex). unfold red, green, blue in *. lia.
Qed.

(** X14: [sanitize] raises each channel of a colour to [0xf] at least and
    leaves the channels that are there already as they are; its result is
    a colour between [0x0f0f0f] and [0xffffff]. *)
Theorem sanitize_raises_channels (hex : Z) :
  red (sanitize hex) = Z.max (red hex) 15
  /\ green (sanitize hex) = Z.max (green hex) 15
  /\ blue (sanitize hex) = Z.max (blue hex) 15
  /\ (0x0f0f0f <= sanitize hex <= 0xffffff)%Z.
Proof.
  destruct (sanitize_channels hex) as (Hs & Hr & Hg & Hb).
  split; [exact Hr|]. split; [exact Hg|]. split; [exact Hb|].
  pose proof (channel_range (shr hex 16)). pose proof (channel_range (shr hex 8)).
  pose proof (channel_range hex). unfold red, green, blue in *. lia.
Qed.

(** The channels of a 24-bit colour, by division. *)
Lemma channels_small (hex : Z) :
  (0 <= hex <= 0xffffff)%Z ->
  red hex = (hex / 65536)%Z /\ green hex = ((hex / 256) mod 256)%Z
  /\ blue hex = (hex mod 256)%Z.
Proof.
  intros Hrange.
  assert (H31 : (- 2 ^ 31 <= hex < 2 ^ 31)%Z) by lia.
  assert (Hq16 : (0 <= hex / 65536 < 256)%Z).
  { split; [apply Z.div_pos; lia | apply Z.div_lt_upper_bound; lia]. }
  assert (Hq8 : (0 <= hex / 256 < 65536)%Z).
  { split; [apply Z.div_pos; lia | apply Z.div_lt_upper_bound; lia]. }
  unfold red, green, blue. rewrite !band_255.
  rewrite (shr_small hex 16), (shr_small hex 8) by lia.
  change (2 ^ 16)%Z with 65536%Z. change (2 ^ 8)%Z with 256%Z.
  rewrite (toInt32_small hex) by exact H31.
  rewrite (toInt32_small (hex / 65536)), (toInt32_small (hex / 256)) by lia.
  split; [apply Z.mod_small; lia|]. split; reflexivity.
Qed.

(** X15: [sanitize] is idempotent, and the colours it leaves alone are
    exactly the 24-bit colours without a channel below [0xf]. *)
Theorem sanitize_fixed_points (hex : Z) :
  sanitize (sanitize hex) = sanitize hex
  /\ (sanitize hex = hex
      <-> (0 <= hex <= 0xffffff)%Z
          /\ (15 <= red hex)%Z /\ (15 <= green hex)%Z /\ (15 <= blue hex)%Z).
Proof.
  destruct (sanitize_channels hex) as (Hs & Hr & Hg & Hb).
  split.
  - destruct (sanitize_channels (sanitize hex)) as (Hs' & _).
    rewrite Hs', Hr, Hg, Hb, Hs. lia.
  - split.
    + intros Heq. pose proof (sanitize_range hex) as Hrange.
      rewrite Heq in Hr, Hg, Hb, Hrange. lia.
    + intros (Hrange & Hr15 & Hg15 & Hb15). rewrite Hs.
      rewrite !Z.max_l by assumption.
      destruct (channels_small hex Hrange) as (-> & -> & ->).
      pose proof (Z.div_mod hex 256 ltac:(lia)) as H1.
      pose proof (Z.div_mod (hex / 256) 256 ltac:(lia)) as H2.
      assert (H3 : (hex / 65536 = hex / 256 / 256)%Z)
        by (rewrite Z.div_div by lia; reflexivity).
      rewrite H3. lia.
Qed.

(** *** The wrapper of [LightingLayer.prototype.refresh] *)

Lemma clamped_range (n : number) :
  let c := Math.clamped n (Fin 0) (Fin 1) in
  (n = NaN /\ c = NaN) \/ (n <> NaN /\ num_le (Fin 0) c /\ num_le c (Fin 1)).
Proof.
  intros c. subst c. destruct n as [| |q|].
  - left. split; reflexivity.
  - right. split; [discriminate|].
    destruct (clamped_unit NegInfinity ltac:(discriminate)) as (c & -> & H0 & H1).
    split; apply num_le_Fin; assumption.
  - right. split; [discriminate|].
    destruct (clamped_unit (Fin q) ltac:(discriminate)) as (c & -> & H0 & H1).
    split; apply num_le_Fin; assumption.
  - right. split; [discriminate|].
    destruct (clamped_unit Infinity ltac:(discriminate)) as (c & -> & H0 & H1).
    split; apply num_le_Fin; assumption.
Qed.

(** A number between 0 and 1 is its own clamp. *)
Lemma clamped_fixed (c : Q) :
  0 <= c -> c <= 1 -> num_eq (Math.clamped (Fin c) (Fin 0) (Fin 1)) (Fin c).
Proof.
  intros H0 H1. unfold Math.clamped. rewrite min_two, max_two. num_crush.
Qed.

Lemma limit_one (n : number) :
  num_le (Fin 1) n -> Math.clamped n (Fin 0) (Fin 1) = Fin 1.
Proof.
  intros H. unfold Math.clamped. rewrite min_two, max_two.
  destruct n as [| |q|]; try discriminate H; [|reflexivity].
  apply num_le_Fin in H. unfold Math.max2, Math.min2, compare.
  destruct (Qcompare_spec q 0); try lra.
  destruct (Qcompare_spec 1 q); try lra; reflexivity.
Qed.

Lemma limit_zero (n : number) :
  num_le n (Fin 0) -> num_eq (Math.clamped n (Fin 0) (Fin 1)) (Fin 0).
Proof.
  intros H. unfold Math.clamped. rewrite min_two, max_two.
  destruct n as [| |q|]; try discriminate H; [reflexivity|].
  apply num_le_Fin in H. num_crush.
Qed.

Lemma globalLights_new (arg0 : option number) (sd : SceneView.t) (this : Lighting.t) :
  isNewerVersion (Game.version game) "0.8.4" = true -> globalLights arg0 sd this = Ok this.
Proof. intros H. unfold globalLights. rewrite H. reflexivity. Qed.

(** What [globalLights] leaves alone. *)
Lemma globalLights_frame (arg0 : option number) (sd : SceneView.t) (this that : Lighting.t) :
  globalLights arg0 sd this = Ok that ->
  exists sources reset, that = withSources this sources reset.
Proof.
  unfold globalLights. intros H.
  destruct (negb (isNewerVersion (Game.version game) "0.8.4")).
  - destruct (hasGlobalIllumination arg0 sd this).
    + destruct (Lighting.globalLight this); [|discriminate H].
      injection H as <-. eauto.
    + injection H as <-. eauto.
  - injection H as <-. exists (Lighting.sources this), (Lighting.resetUniforms this).
    destruct this; reflexivity.
Qed.

(** The saturation level that the wrapper stores. *)
Lemma refreshPrepare_saturationLevel (arg0 : option number) (config : Config.t)
    (sd : SceneView.t) (this this' : Lighting.t) :
  refreshPrepare arg0 config sd this = Ok this' ->
  Lighting.saturationLevel this'
  = if isNewerVersion (Game.version game) "0.8.4"
    then Some (saturationOf arg0 sd this)
    else Lighting.saturationLevel this.
Proof.
  unfold refreshPrepare. intros H.
  destruct (globalLights arg0 sd this) as [that|e] eqn:E; [|discriminate H].
  destruct (globalLights_frame _ _ _ _ E) as (sources & reset & ->).
  cbn in H. injection H as <-. cbn. reflexivity.
Qed.

(** X16: on hosts after 0.8.4 a refresh of the lighting layer stores a
    saturation level that is a number between 0 and 1, or [NaN]; on older
    hosts it leaves the stored level alone. *)
Theorem saturationLevel_unit (arg0 : option number) (config : Config.t)
    (sd : SceneView.t) (this this' : Lighting.t) :
  refreshPrepare arg0 config sd this = Ok this' ->
  if isNewerVersion (Game.version game) "0.8.4"
  then exists s, Lighting.saturationLevel this' = Some s
         /\ (s = NaN \/ (num_le (Fin 0) s /\ num_le s (Fin 1)))
  else Lighting.saturationLevel this' = Lighting.saturationLevel this.
Proof.
  intros H. apply refreshPrepare_saturationLevel in H. rewrite H.
  destruct (isNewerVersion (Game.version game) "0.8.4"); [|reflexivity].
  eexists. split; [reflexivity|]. unfold saturationOf.
  match goal with |- context [Math.clamped ?n _ _] => destruct (clamped_range n) as [(_ & ->)|(_ & H0 & H1)] end.
  - left. reflexivity.
  - right. split; assumption.
Qed.

(** X17: on hosts after 0.8.4, without an override and without a forced
    saturation, the saturation level is 1 minus the darkness level clamped
    to between 0 and 1, whenever the darkness level is a number: a
    darkness level of 1 or more leaves no saturation, one of 0 or less
    leaves all of it. *)
Theorem saturation_complements_darkness (arg0 : option number) (config : Config.t)
    (sd : SceneView.t) (this this' : Lighting.t) :
  isNewerVersion (Game.version game) "0.8.4" = true ->
  Lighting.saturation this = None ->
  SceneView.flag_forceSaturation sd = false ->
  default (Lighting.darknessLevel this) arg0 <> NaN ->
  refreshPrepare arg0 config sd this = Ok this' ->
  exists s, Lighting.saturationLevel this' = Some s
    /\ num_eq s (Fin 1 - darknessOf arg0 this)%js
    /\ (num_le (Fin 1) (default (Lighting.darknessLevel this) arg0) -> num_eq s (Fin 0))
    /\ (num_le (default (Lighting.darknessLevel this) arg0) (Fin 0) -> num_eq s (Fin 1)).
Proof.
  intros Hnew Hsat Hforce Hdark H.
  apply refreshPrepare_saturationLevel in H. rewrite Hnew in H.
  eexists. split; [exact H|]. unfold saturationOf. rewrite Hsat, Hforce.
  unfold darknessOf.
  destruct (clamped_unit _ Hdark) as (c & Hc & H0 & H1).
  assert (Hone : num_le (Fin 1) (default (Lighting.darknessLevel this) arg0) -> c == 1).
  { intros Hle. rewrite (limit_one _ Hle) in Hc. injection Hc as <-. reflexivity. }
  assert (Hzero : num_le (default (Lighting.darknessLevel this) arg0) (Fin 0) -> c == 0).
  { intros Hle. pose proof (limit_zero _ Hle) as Hz. rewrite Hc in Hz.
    now apply num_eq_Fin in Hz. }
  rewrite Hc. cbn [sub neg add].
  pose proof (clamped_fixed (1 + - c) ltac:(lra) ltac:(lra)) as Hfix.
  destruct (Math.clamped (Fin (1 + - c)) (Fin 0) (Fin 1)) as [| |q|]; try discriminate Hfix.
  apply num_eq_Fin in Hfix.
  split; [apply num_eq_Fin; lra|]. split.
  - intros Hle. apply Hone in Hle. apply num_eq_Fin. lra.
  - intros Hle. apply Hzero in Hle. apply num_eq_Fin. lra.
Qed.

(** X18: on hosts up to 0.8.4 a refresh leaves the first global light
    among the sources of the layer exactly when the scene has global
    illumination, the second one likewise when there is one, and no other
    source is added or removed; it throws only when there is global
    illumination and no global light to show.  On newer hosts the sources
    are left alone and nothing is thrown. *)
Theorem global_lights_among_sources (arg0 : option number) (config : Config.t)
    (sd : SceneView.t) (this : Lighting.t) :
  let lit := hasGlobalIllumination arg0 sd this in
  match refreshPrepare arg0 config sd this with
  | Throw _ =>
      isNewerVersion (Game.version game) "0.8.4" = false
      /\ lit = true /\ Lighting.globalLight this = None
  | Ok this' =>
      if isNewerVersion (Game.version game) "0.8.4"
      then Lighting.sources this' = Lighting.sources this
      else
        Lighting.sources this' !! "PerfectVision.Light.1"
        = (if lit then Lighting.globalLight this else None)
        /\ Lighting.sources this' !! "PerfectVision.Light.2"
           = match Lighting.globalLight2 this with
             | Some light2 => if lit then Some light2 else None
             | None => Lighting.sources this !! "PerfectVision.Light.2"
             end
        /\ forall name, name <> "PerfectVision.Light.1" -> name <> "PerfectVision.Light.2" ->
             Lighting.sources this' !! name = Lighting.sources this !! name
  end.
Proof.
  intros lit. subst lit. unfold refreshPrepare, globalLights.
  destruct (isNewerVersion (Game.version game) "0.8.4") eqn:Hnew; cbn.
  - try rewrite Hnew. reflexivity.
  - destruct (hasGlobalIllumination arg0 sd this) eqn:Hlit.
    + destruct (Lighting.globalLight this) as [light|] eqn:Hlight; cbn.
      * try rewrite Hnew. cbn.
        destruct (Lighting.globalLight2 this) as [light2|].
        -- split; [|split].
           ++ rewrite lookup_insert_ne by discriminate. apply lookup_insert_eq.
           ++ apply lookup_insert_eq.
           ++ intros name H1 H2. rewrite !lookup_insert_ne by congruence. reflexivity.
        -- split; [|split].
           ++ apply lookup_insert_eq.
           ++ rewrite lookup_insert_ne by discriminate. reflexivity.
           ++ intros name H1 H2. rewrite !lookup_insert_ne by congruence. reflexivity.
      * repeat split.
    + cbn. try rewrite Hnew. cbn.
      destruct (Lighting.globalLight2 this) as [light2|].
      * split; [|split].
        -- rewrite lookup_delete_ne by discriminate. apply lookup_delete_eq.
        -- apply lookup_delete_eq.
        -- intros name H1 H2. rewrite !lookup_delete_ne by congruence. reflexivity.
      * split; [|split].
        -- apply lookup_delete_eq.
        -- rewrite lookup_delete_ne by discriminate. reflexivity.
        -- intros name H1 H2. rewrite !lookup_delete_ne by congruence. reflexivity.
Qed.

(** The colours and the channels that the wrapper stores. *)
Lemma refreshPrepare_colours (arg0 : option number) (config : Config.t)
    (sd : SceneView.t) (this this' : Lighting.t) :
  refreshPrepare arg0 config sd this = Ok this' ->
  let daylight := sceneColor (SceneView.flag_daylightColor sd) (Config.daylightColor config) in
  let darkness := sceneColor (SceneView.flag_darknessColor sd) (Config.darknessColor config) in
  let changed :=
    negb (bool_decide (Lighting.daylightColor this = Some daylight))
    || negb (bool_decide (Lighting.darknessColor this = Some darkness)) in
  Lighting.daylightColor this' = Some daylight
  /\ Lighting.darknessColor this' = Some darkness
  /\ Lighting.channels this' = (if changed then None else Lighting.channels this)
  /\ Lighting.updateChannels this' = (if changed then true else Lighting.updateChannels this).
Proof.
  unfold refreshPrepare. intros H.
  destruct (globalLights arg0 sd this) as [that|e] eqn:E; [|discriminate H].
  destruct (globalLights_frame _ _ _ _ E) as (sources & reset & ->).
  cbn in H. injection H as <-. cbn. repeat split.
Qed.

(** X19: a refresh stores the two colours of the scene with no channel
    below [0xf].  When one of them differs from the colour stored before,
    the channels of the layer are dropped and their update is asked for;
    when both are the colours stored before, the channels and the request
    are left as they are. *)
Theorem colour_change_resets_channels (arg0 : option number) (config : Config.t)
    (sd : SceneView.t) (this this' : Lighting.t) :
  refreshPrepare arg0 config sd this = Ok this' ->
  exists daylight darkness,
    Lighting.daylightColor this' = Some daylight
    /\ Lighting.darknessColor this' = Some darkness
    /\ (15 <= red daylight /\ 15 <= green daylight /\ 15 <= blue daylight)%Z
    /\ (15 <= red darkness /\ 15 <= green darkness /\ 15 <= blue darkness)%Z
    /\ (Lighting.daylightColor this = Some daylight ->
        Lighting.darknessColor this = Some darkness ->
        Lighting.channels this' = Lighting.channels this
        /\ Lighting.updateChannels this' = Lighting.updateChannels this)
    /\ (Lighting.daylightColor this <> Some daylight
        \/ Lighting.darknessColor this <> Some darkness ->
        Lighting.channels this' = None /\ Lighting.updateChannels this' = true).
Proof.
  intros H. destruct (refreshPrepare_colours _ _ _ _ _ H) as (Hday & Hdark & Hch & Hup).
  eexists _, _. split; [exact Hday|]. split; [exact Hdark|].
  split; [|split; [|split]].
  - unfold sceneColor.
    match goal with |- context [sanitize ?h] =>
      destruct (sanitize_channels h) as (_ & -> & -> & ->) end. lia.
  - unfold sceneColor.
    match goal with |- context [sanitize ?h] =>
      destruct (sanitize_channels h) as (_ & -> & -> & ->) end. lia.
  - intros H1 H2. rewrite Hch, Hup.
    rewrite !bool_decide_eq_true_2 by assumption. split; reflexivity.
  - intros [H1|H2]; rewrite Hch, Hup.
    + rewrite (bool_decide_eq_false_2 _ H1). split; reflexivity.
    + rewrite (bool_decide_eq_false_2 _ H2), orb_true_r. split; reflexivity.
Qed.

(** X20: after a refresh, a second refresh of the same scene under the same
    configuration finds the colours it stored: the host's [refresh] then
    sees the channels as the first refresh left them and no request to
    update them, provided that the host's [refresh] does not touch the
    colours stored by the wrapper. *)
Theorem second_refresh_keeps_channels (wrapped : Lighting.t -> result Lighting.t)
    (arg0 arg0' : option number) (config : Config.t) (sd : SceneView.t)
    (this this1 seen : Lighting.t) :
  (forall l l', wrapped l = Ok l' ->
     Lighting.daylightColor l' = Lighting.daylightColor l
     /\ Lighting.darknessColor l' = Lighting.darknessColor l) ->
  refreshLighting wrapped arg0 config sd this = Ok this1 ->
  refreshPrepare arg0' config sd this1 = Ok seen ->
  Lighting.channels seen = Lighting.channels this1
  /\ Lighting.updateChannels seen = false.
Proof.
  intros Hwrapped H1 H2. unfold refreshLighting in H1.
  destruct (refreshPrepare arg0 config sd this) as [that|e] eqn:E; [|discriminate H1].
  cbn in H1. destruct (wrapped that) as [that'|e] eqn:Ew; [|discriminate H1].
  cbn in H1. injection H1 as <-.
  destruct (refreshPrepare_colours _ _ _ _ _ E) as (Hday & Hdark & _ & _).
  destruct (refreshPrepare_colours _ _ _ _ _ H2) as (_ & _ & Hch & Hup).
  destruct (Hwrapped that that' Ew) as (Hw1 & Hw2).
  cbn in Hch, Hup. rewrite Hw1, Hw2, Hday, Hdark in Hch, Hup.
  rewrite !bool_decide_eq_true_2 in Hch, Hup by reflexivity.
  cbn in Hch, Hup. split; assumption.
Qed.

(** X21: the host's [_configureChannels], called after a refresh, runs
    with the sanitized colours of the scene in [CONFIG].  When it returns,
    [CONFIG] has the colours it had before the call, whatever the host did
    to them; when it throws, [CONFIG] is left as the host left it. *)
Theorem configureChannels_scene_colours {Channels : Type}
    (wrapped : Config.t -> Config.t * result Channels)
    (arg0 : option number) (config config' : Config.t) (sd : SceneView.t)
    (this this' : Lighting.t) :
  refreshPrepare arg0 config sd this = Ok this' ->
  let seen :=
    Config.make
      (Some (sceneColor (SceneView.flag_daylightColor sd) (Config.daylightColor config)))
      (Some (sceneColor (SceneView.flag_darknessColor sd) (Config.darknessColor config))) in
  configureChannels wrapped this' config'
  = match snd (wrapped seen) with
    | Ok channels => (config', Ok channels)
    | Throw e => (fst (wrapped seen), Throw e)
    end.
Proof.
  intros H seen. destruct (refreshPrepare_colours _ _ _ _ _ H) as (Hday & Hdark & _ & _).
  unfold configureChannels. rewrite Hday, Hdark. fold seen.
  destruct (wrapped seen) as [config2 [channels|e]]; cbn; [|reflexivity].
  destruct config'; reflexivity.
Qed.

(** *** The duplicated light mesh *)

Lemma follows_clone (shader : option Shader.t) (w h w_ h_ : option number) :
  follows (Mesh.make shader w h)
    (Mesh.make (cloneShader shader {["ratio" := Num (Fin 1)]}) w_ h_).
Proof.
  unfold follows. destruct shader as [shader|]; cbn; [|exact I].
  split; [reflexivity|]. split.
  - apply lookup_union_Some_l. apply lookup_singleton_eq.
  - intros prop Hprop. rewrite lookup_union_r; [reflexivity|].
    apply lookup_singleton_ne. congruence.
Qed.

Lemma assign_follows (a : assignment) (c c' : Container.t) (light_ : Mesh.t) :
  Container.light_ c = Some light_ -> follows (Container.light c) light_ ->
  assign a c = Ok c' ->
  exists light_', Container.light_ c' = Some light_' /\ follows (Container.light c') light_'.
Proof.
  intros Hdup Hfollows H. destruct c as [light dup]. cbn in Hdup. subst dup.
  cbn [Container.light] in Hfollows. unfold follows in Hfollows.
  destruct a as [value|prop value|value|value]; cbn in H.
  - destruct (Mesh.shader light_) as [shader_|] eqn:E_; [|discriminate H].
    destruct (Mesh.shader light) as [shader|] eqn:E; [|contradiction].
    destruct Hfollows as (_ & Hratio & _). rewrite Hratio in H. cbn in H.
    injection H as <-. eexists. split; [reflexivity|]. apply follows_clone.
  - destruct (Mesh.shader light) as [shader|] eqn:E; [|discriminate H].
    destruct (Mesh.shader light_) as [shader_|] eqn:E_; [|contradiction].
    destruct Hfollows as (Hprogram & Hratio & Hsame).
    unfold linkedSet in H. destruct (bool_decide (prop ∈ ["ratio"])) eqn:Hin; cbn in H.
    + injection H as <-. eexists. split; [reflexivity|].
      apply bool_decide_eq_true_1 in Hin. apply list_elem_of_singleton in Hin. subst prop.
      unfold follows. cbn. split; [exact Hprogram|]. split; [exact Hratio|].
      intros prop Hprop. rewrite lookup_insert_ne by congruence. now apply Hsame.
    + injection H as <-. eexists. split; [reflexivity|].
      apply bool_decide_eq_false_1 in Hin. rewrite list_elem_of_singleton in Hin.
      unfold follows. cbn. split; [exact Hprogram|]. split.
      * rewrite lookup_insert_ne by congruence. exact Hratio.
      * intros prop' Hprop'. destruct (decide (prop = prop')) as [->|Hne].
        -- rewrite !lookup_insert_eq. reflexivity.
        -- rewrite !lookup_insert_ne by assumption. now apply Hsame.
  - injection H as <-. eexists. split; [reflexivity|]. exact Hfollows.
  - injection H as <-. eexists. split; [reflexivity|]. exact Hfollows.
Qed.

Lemma assignAll_follows (l : list assignment) (c c' : Container.t) (light_ : Mesh.t) :
  Container.light_ c = Some light_ -> follows (Container.light c) light_ ->
  assignAll l c = Ok c' ->
  exists light_', Container.light_ c' = Some light_' /\ follows (Container.light c') light_'.
Proof.
  revert c light_. induction l as [|a l IH]; intros c light_ Hdup Hfollows H; cbn in H.
  - injection H as <-. eauto.
  - destruct (assign a c) as [c1|e] eqn:E; [|discriminate H]. cbn in H.
    destruct (assign_follows _ _ _ _ Hdup Hfollows E) as (light_1 & Hdup1 & Hfollows1).
    exact (IH _ _ Hdup1 Hfollows1 H).
Qed.

Lemma created_follows (c c' : Container.t) (l : list assignment) :
  assignAll l (_createContainer true c) = Ok c' ->
  exists light_, Container.light_ c' = Some light_
    /\ follows (Container.light c') light_.
Proof.
  intros H.
  refine (assignAll_follows l (_createContainer true c) c'
            (Mesh.make (cloneShader (Mesh.shader (Container.light c))
                          {["ratio" := Num (Fin 1)]}) None None)
            eq_refl _ H).
  destruct c as [[shader w h] dup]. apply follows_clone.
Qed.

(** X22: once [_createContainer] has duplicated the light mesh of an
    illumination container, the duplicate follows the light through every
    run of assignments to [c.light] that does not throw: new shaders,
    uniforms, width and height.  Its uniforms are those of the light, but
    for [ratio], which stays 1 whatever the [ratio] of the light is. *)
Theorem duplicate_follows_light (c c' : Container.t) (l : list assignment) :
  assignAll l (_createContainer true c) = Ok c' ->
  exists light_, Container.light_ c' = Some light_
    /\ follows (Container.light c') light_.
Proof.
  intros H. exact (created_follows c c' l H).
Qed.

(** X23: with the duplicate in place, a shader can be assigned to
    [c.light] exactly as long as the light has a shader: after a run of
    assignments that leaves the light without a shader, or when it had none
    to begin with, every assignment of a shader throws a [TypeError]. *)
Theorem shader_assignment_throws (c c' : Container.t) (l : list assignment)
    (value : option Shader.t) :
  assignAll l (_createContainer true c) = Ok c' ->
  (assign (SetShader value) c' = Throw TypeError
   <-> Mesh.shader (Container.light c') = None)
  /\ assignAll [SetShader None; SetShader value] c' = Throw TypeError.
Proof.
  intros H.
  assert (exists light_, Container.light_ c' = Some light_
            /\ follows (Container.light c') light_) as (light_ & Hdup & Hfollows).
  { exact (created_follows c c' l H). }
  destruct c' as [light dup]. cbn in Hdup. subst dup. cbn [Container.light] in *.
  unfold follows in Hfollows. cbn.
  destruct (Mesh.shader light) as [shader|], (Mesh.shader light_) as [shader_|];
    try contradiction; cbn.
  - split; [|reflexivity]. split; discriminate.
  - split; [|reflexivity]. split; reflexivity.
Qed.

(** *** [refresh] and the [updateScene] hook *)

Lemma registrations_app (t t' : list effect) :
  registrations (t ++ t') = (registrations t + registrations t')%nat.
Proof. unfold registrations. rewrite List.filter_app, length_app. reflexivity. Qed.

Lemma removals_app (t t' : list effect) :
  removals (t ++ t') = (removals t + removals t')%nat.
Proof. unfold removals. rewrite List.filter_app, length_app. reflexivity. Qed.

(** The calls that [refresh] makes once the canvas is ready register and
    take off nothing. *)
Lemma updates_no_hooks (options : RefreshOptions.t) (stage : Stage.t) :
  let trace :=
    (if RefreshOptions.initialize options
     then (if RefreshOptions.lighting options
           then map LightUpdateSource (Stage.lights stage) else [])
          ++ (if RefreshOptions.sight options
              then map TokenUpdateSource (Stage.tokens stage) else [])
     else [])
    ++ (if RefreshOptions.lighting options then [LightingRefresh] else [])
    ++ (if RefreshOptions.sight options then [SightRefresh] else []) in
  registrations trace = 0%nat /\ removals trace = 0%nat.
Proof.
  assert (Hl : forall l, registrations (map LightUpdateSource l) = 0%nat
                         /\ removals (map LightUpdateSource l) = 0%nat).
  { induction l as [|x l [IH1 IH2]]; split; try reflexivity; assumption. }
  assert (Ht : forall l, registrations (map TokenUpdateSource l) = 0%nat
                         /\ removals (map TokenUpdateSource l) = 0%nat).
  { induction l as [|x l [IH1 IH2]]; split; try reflexivity; assumption. }
  intros trace. subst trace.
  destruct (Hl (Stage.lights stage)) as [Hl1 Hl2].
  destruct (Ht (Stage.tokens stage)) as [Ht1 Ht2].
  rewrite !registrations_app, !removals_app.
  destruct (RefreshOptions.initialize options), (RefreshOptions.lighting options),
    (RefreshOptions.sight options);
    rewrite ?registrations_app, ?removals_app, ?Hl1, ?Hl2, ?Ht1, ?Ht2; split; reflexivity.
Qed.

Lemma refresh_balance (options : RefreshOptions.t) (stage : Stage.t)
    (refreshHookID : option nat) (hookID : nat) :
  let '(refreshHookID', trace) := refresh options stage refreshHookID hookID in
  (pending refreshHookID + registrations trace
   = pending refreshHookID' + removals trace)%nat.
Proof.
  unfold refresh.
  destruct (isNewerVersion (Game.version game) "0.8.1").
  - destruct (Stage.ready stage); cbn; lia.
  - destruct (Stage.ready stage); cbn [negb].
    + destruct (updates_no_hooks options stage) as [H1 H2].
      rewrite registrations_app, removals_app. cbn zeta in H1, H2. rewrite H1, H2.
      destruct refreshHookID; cbn; lia.
    + destruct refreshHookID; cbn; lia.
Qed.

Lemma refreshAll_balance (calls : list (RefreshOptions.t * Stage.t * nat))
    (refreshHookID : option nat) :
  (pending refreshHookID + registrations (snd (refreshAll calls refreshHookID))
   = pending (fst (refreshAll calls refreshHookID))
     + removals (snd (refreshAll calls refreshHookID)))%nat.
Proof.
  revert refreshHookID.
  induction calls as [|[[options stage] hookID] calls IH]; intros refreshHookID.
  - cbn. lia.
  - cbn [refreshAll].
    pose proof (refresh_balance options stage refreshHookID hookID) as H.
    destruct (refresh options stage refreshHookID hookID) as [id trace].
    specialize (IH id). destruct (refreshAll calls id) as [id' trace'].
    cbn [fst snd] in *. rewrite registrations_app, removals_app. lia.
Qed.

Lemma refreshAll_new (calls : list (RefreshOptions.t * Stage.t * nat))
    (refreshHookID : option nat) :
  isNewerVersion (Game.version game) "0.8.1" = true ->
  fst (refreshAll calls refreshHookID) = refreshHookID
  /\ registrations (snd (refreshAll calls refreshHookID)) = 0%nat
  /\ removals (snd (refreshAll calls refreshHookID)) = 0%nat.
Proof.
  intros Hv. induction calls as [|[[options stage] hookID] calls IH].
  - repeat split.
  - cbn [refreshAll]. unfold refresh. rewrite Hv.
    destruct IH as (IH1 & IH2 & IH3).
    destruct (refreshAll calls refreshHookID) as [id' trace']. cbn [fst snd] in *.
    rewrite registrations_app, removals_app, IH2, IH3.
    destruct (Stage.ready stage); repeat split; assumption.
Qed.

(** X24: however often [refresh] is called, ready canvas or not, the
    [canvasReady] hook is registered once more than it is taken off when
    [refreshHookID] is set in the end and exactly as often when it is not:
    at no time is more than one registration pending.  On hosts after
    0.8.1 the hook is neither registered nor taken off. *)
Theorem refresh_one_pending_hook (calls : list (RefreshOptions.t * Stage.t * nat)) :
  let '(refreshHookID, trace) := refreshAll calls None in
  registrations trace = (pending refreshHookID + removals trace)%nat
  /\ (isNewerVersion (Game.version game) "0.8.1" = true ->
      refreshHookID = None /\ registrations trace = 0%nat /\ removals trace = 0%nat).
Proof.
  pose proof (refreshAll_balance calls None) as H.
  pose proof (refreshAll_new calls None) as Hnew.
  destruct (refreshAll calls None) as [id trace]. cbn [fst snd] in *.
  split; [exact H|exact Hnew].
Qed.

(** X25: on a ready canvas the [updateScene] hook, for the scene in view
    and a change of its flags, makes the calls that [refresh] makes with
    its default options when no hook is pending. *)
Theorem updateScene_as_refresh (stage : Stage.t) (hookID : nat) :
  Stage.ready stage = true ->
  refresh defaultOptions stage None hookID = (None, updateScene true true stage).
Proof.
  intros Hready. unfold refresh, updateScene. rewrite Hready. cbn.
  destruct (isNewerVersion (Game.version game) "0.8.1"); [reflexivity|].
  rewrite <- !app_assoc. reflexivity.
Qed.

End Host.

(** ** The theorems on the sample scene *)

Ltac qdone :=
  vm_compute; first [reflexivity | discriminate | (let H := fresh in intro H; discriminate H)].

(** C1, counterexample: with both rules at ["darkness"] and radii of 1250
    and 0 pixels the outputs are zero, line 417 forces [dim] to the 50
    pixels of [minR], and the vision radius, zero, is below it. *)
Lemma forced_dim_exceeds_visionRadius :
  (resolve sampleHypot samplePresets sampleGame sampleCanvas
     (sampleToken 60 0 (customFlags "darkness" "darkness"))
   ≫= fun r =>
        Ok ((Radii.dim (Resolved.radii r) === Fin 1250)%js,
            (Radii.bright (Resolved.radii r) === Fin 0)%js,
            (Data.dim (Resolved.data r) === Fin 50)%js,
            (Resolved.visionRadius r === Fin 0)%js,
            (Math.max [Data.dim (Resolved.data r); Data.bright (Resolved.data r)]
             <=? Resolved.visionRadius r)%js))
  = Ok (true, true, true, true, false).
Proof. vm_compute. reflexivity. Qed.

(** C1, on the sample scene: radii of 1250 and 650 pixels under the rules
    "dim" and "bright". *)
Lemma visionRadius_bounds_outputs_witness :
  let rules := Rules.make "dim" "dim" "bright" "bright" in
  let data := emission rules (Fin 1) (Fin 1250) (Fin 650) in
  let forced := forceMinimum (Fin 50) data in
  let v := visionRadiusOf rules (Fin 1250) (Fin 650) in
  (0 <= 1250 /\ 0 <= 650 /\ (Fin 1 = Fin 1 \/ Fin 1 = Fin (-1)) /\ Fin 50 <> NaN)
  /\ num_le (Math.max [Data.dim data; Data.bright data]) v
  /\ num_le (storedRadius data) v
  /\ num_le (Math.max [Data.dim forced; Data.bright forced]) (Math.max [v; Fin 50]).
Proof.
  intros rules data forced v.
  split; [repeat split; first [qdone | left; reflexivity]|].
  apply (visionRadius_bounds_outputs rules (Fin 1) (Fin 50) 1250 650);
    first [qdone | left; reflexivity].
Defined.

(** C2, counterexample: for the token without sight under ["fvtt"] the
    [dim] output is the 50 pixels of [minR], but the vision radius is zero,
    not [minR]. *)
Lemma blind_token_visionRadius_zero :
  (resolve sampleHypot samplePresets sampleGame sampleCanvas (sampleToken 0 0 fvttFlags)
   ≫= fun r =>
        Ok ((Data.dim (Resolved.data r) === Resolved.minR r)%js,
            (Resolved.minR r === Fin 50)%js,
            (Resolved.visionRadius r === Fin 0)%js,
            (Resolved.visionRadius r === Resolved.minR r)%js))
  = Ok (true, true, true, false).
Proof. vm_compute. reflexivity. Qed.

(** C2, on the sample scene. *)
Lemma blind_token_radii_witness :
  let token := sampleToken 0 0 fvttFlags in
  (activeRules sampleGame (Token.flags token) = "fvtt"
   /\ samplePresets !! "fvtt" = Some (Preset.make None None (Some "darkness") None)
   /\ num_eq (Token.dimSight token) (Fin 0)
   /\ num_eq (Token.brightSight token) (Fin 0)
   /\ num_le (Fin 0) (maxRadius sampleHypot sampleCanvas)
   /\ Flags.sightLimit (Token.flags token) = None
   /\ sceneOf token ≫= Scene.sightLimit = None)
  /\ exists r,
       resolve sampleHypot samplePresets sampleGame sampleCanvas token = Ok r
       /\ Data.dim (Resolved.data r) = minRadius token
       /\ num_eq (Data.bright (Resolved.data r)) (Fin 0)
       /\ num_eq (Resolved.visionRadius r) (Fin 0)
       /\ num_eq (fovRadius r) (minRadius token).
Proof.
  intros token. split; [repeat split; qdone|].
  apply (blind_token_radii sampleHypot samplePresets sampleGame sampleCanvas token
           (Preset.make None None (Some "darkness") None) 100 100); qdone.
Defined.



(** The polygon of the previous example. *)
Example computeFov_sample :
  map (fun p => (p === Fin 300, p === Fin 400, p === Fin 1000, p === Fin 0, p === Fin 900)%js)
    (points (fst (computeFov sampleHypot sampleIsNewerVersion sampleGame sampleCanvas
                    (sampleSource None) (Fin 1000) None)))
  = [(true, false, false, false, false); (false, true, false, false, false);
     (false, false, true, false, false); (false, false, false, true, false);
     (false, false, false, true, false); (false, false, false, false, true)].
Proof. vm_compute. reflexivity. Qed.

(** C5, on the sample scene: the first call stores the polygon and the
    reach of 5000 pixels, the second call returns the same pair. *)
Example computeFov_twice_sample :
  let computeFov := computeFov sampleHypot sampleIsNewerVersion sampleGame sampleCanvas in
  let first := computeFov (sampleSource None) (Fin 1000) (Some (FovCache.make None ∅)) in
  computeFov (sampleSource None) (Fin (2000 # 2)) (snd first) = first
  /\ (snd first ≫= FovCache.distance) = Some (Fin 5000).
Proof. vm_compute. split; reflexivity. Qed.

(** C6, on the sample scene: with 5ft squares of 100 pixels and a token one
    square wide, a limit of 30ft is 650 pixels and caps the bright radius
    derived from 120ft, 2450 pixels. *)
Lemma sightLimit_clamps_witness :
  let token := limitedToken in
  let getLightRadius := getLightRadius sampleCanvas in
  let r := sightRadii sampleHypot sampleCanvas token (Token.scene token) in
  (parseFloat (Flags.sightLimit (Token.flags token)) = Fin 30
   /\ num_eq (getLightRadius token (Fin 30)) (Fin 650)
   /\ num_eq (getLightRadius token (Token.brightSight token)) (Fin 2450))
  /\ num_eq (Radii.sightLimit r) (Fin 650)
  /\ num_eq (Radii.bright r) (Fin 650)
  /\ num_eq (Radii.dim r) (Fin 650).
Proof.
  intros token getLightRadius r. split; [repeat split; qdone|].
  pose proof (sightLimit_clamps sampleHypot sampleCanvas token (Token.scene token) (Fin 30)
                (or_introl eq_refl)) as H.
  destruct H as (H1 & _ & _ & _ & _ & _ & H2 & H3); [discriminate|].
  split; [|split].
  - fold r in H1. rewrite H1. qdone.
  - eapply (num_eq_trans _ _ _ (H3 _)). qdone.
  - eapply (num_eq_trans _ _ _ (H2 _)). qdone.
  Unshelve. all: qdone.
Defined.

(** C7, counterexample: raising the raw dim sight value from -10 to -5
    lowers the vision radius from 250 to 150 pixels. *)
Lemma negative_sight_not_monotone :
  -10 < -5
  /\ (r1 ← resolve sampleHypot samplePresets sampleGame sampleCanvas (sampleToken (-10) 0 noFlags);
      r2 ← resolve sampleHypot samplePresets sampleGame sampleCanvas (sampleToken (-5) 0 noFlags);
      Ok ((Resolved.visionRadius r1 === Fin 250)%js,
          (Resolved.visionRadius r2 === Fin 150)%js,
          (Resolved.visionRadius r1 <=? Resolved.visionRadius r2)%js))
     = Ok (true, true, false).
Proof. split; [reflexivity|vm_compute; reflexivity]. Qed.

(** C7, on the sample scene: from 30ft and 0ft to 60ft and 10ft. *)
Lemma visionRadius_monotone_witness :
  let token := sampleToken 0 0 noFlags in
  let resolve := resolve sampleHypot samplePresets sampleGame sampleCanvas in
  (0 <= 30 /\ 30 <= 60 /\ 0 <= 0 /\ 0 <= 10)
  /\ exists r1 r2,
       resolve (withSight token (Fin 30) (Fin 0)) = Ok r1
       /\ resolve (withSight token (Fin 60) (Fin 10)) = Ok r2
       /\ num_le (Resolved.visionRadius r1) (Resolved.visionRadius r2).
Proof.
  intros token resolve. split; [repeat split; qdone|].
  destruct (resolve (withSight token (Fin 30) (Fin 0))) as [r1|e] eqn:E1;
    [|exfalso; vm_compute in E1; discriminate E1].
  destruct (visionRadius_monotone sampleHypot samplePresets sampleGame sampleCanvas token
              100 100 5 100 30 0 60 10 r1) as (r2 & E2 & Hle); try qdone; [exact E1|].
  exists r1, r2. auto.
Defined.



(** C9, counterexample: with a unit distance of zero a sight value of 60
    gives an infinite radius, and with a grid size of zero it gives the 50
    pixels of half the token; neither is zero. *)
Lemma zero_scene_radius_not_zero :
  Dimensions.distance (Canvas.dimensions zeroDistanceCanvas) = Fin 0
  /\ getLightRadius zeroDistanceCanvas (sampleToken 60 0 noFlags) (Fin 60) = Infinity
  /\ Dimensions.size (Canvas.dimensions zeroSizeCanvas) = Fin 0
  /\ (getLightRadius zeroSizeCanvas (sampleToken 60 0 noFlags) (Fin 60) === Fin 50)%js = true
  /\ (getLightRadius zeroSizeCanvas (sampleToken 60 0 noFlags) (Fin 60) === Fin 0)%js = false.
Proof. repeat split; vm_compute; reflexivity. Qed.

(** C9, on the two scenes of the counterexample. *)
Lemma getLightRadius_zero_scene_witness :
  let token := sampleToken 60 0 noFlags in
  (0 == 0 /\ ~ 60 == 0 /\ ~ 5 == 0)
  /\ getLightRadius zeroDistanceCanvas token (Fin 0) = Fin 0
  /\ isFinite (getLightRadius zeroDistanceCanvas token (Fin 60)) = false
  /\ num_eq (getLightRadius zeroSizeCanvas token (Fin 60)) (Fin (100 / 2) * Math.sign (Fin 60))%js.
Proof.
  intros token. split; [repeat split; qdone|].
  split; [|split].
  - apply (proj1 (getLightRadius_zero_scene zeroDistanceCanvas token (Fin 0) 0 100
                    eq_refl eq_refl (or_introl (Qeq_refl 0)))). qdone.
  - apply (proj1 (proj2 (getLightRadius_zero_scene zeroDistanceCanvas token (Fin 60) 0 100
                           eq_refl eq_refl (or_introl (Qeq_refl 0)))) 60); qdone.
  - apply (proj2 (proj2 (getLightRadius_zero_scene zeroSizeCanvas token (Fin 60) 5 0
                           eq_refl eq_refl (or_intror (Qeq_refl 0)))) 60 100); qdone.
Defined.

(** C10, on the sample scene: the token without sight keeps a stored radius
    of zero and a hidden vision mesh while the host receives [minR]. *)
Lemma stored_radius_before_forcing_witness :
  let token := sampleToken 0 0 fvttFlags in
  let this := sampleSource (Some token) in
  exists r this' ext,
    (resolve sampleHypot samplePresets sampleGame sampleCanvas token = Ok r
     /\ initialize sampleHypot sampleIsNewerVersion samplePresets sampleGame sampleCanvas
          sampleWrapped this sampleExtension None = Ok (this', ext))
    /\ num_eq (Extension.radius ext) (Fin 0)
    /\ Meshes.light_visible (drawLight sampleCanvas this' ext false) = false
    /\ Data.dim (Resolved.data r) = Resolved.minR r
    /\ num_eq (Resolved.minR r) (Fin 50)
    /\ num_eq (PointSource.radius this') (Fin 50).
Proof.
  intros token this.
  destruct (resolve sampleHypot samplePresets sampleGame sampleCanvas token) as [r|e] eqn:Er;
    [|exfalso; vm_compute in Er; discriminate Er].
  destruct (initialize sampleHypot sampleIsNewerVersion samplePresets sampleGame sampleCanvas
              sampleWrapped this sampleExtension None) as [[this' ext]|e] eqn:Ei;
    [|exfalso; vm_compute in Ei; discriminate Ei].
  exists r, this', ext. split; [split; reflexivity|].
  assert (Hr : r = r) by reflexivity.
  vm_compute in Er. injection Er as Er.
  vm_compute in Ei. injection Ei as Ei1 Ei2.
  destruct (stored_radius_before_forcing sampleHypot sampleIsNewerVersion samplePresets
              sampleGame sampleCanvas sampleWrapped this this' sampleExtension ext None
              token r false) as (_ & H2 & H3 & H4 & H5);
    try (subst r this' ext; vm_compute; reflexivity).
  repeat split; try assumption.
  - subst r. vm_compute. reflexivity.
  - rewrite H5. subst r. vm_compute. reflexivity.
Defined.

(** ** Further properties on the sample scene *)

(** X1, on the sample scene: 60ft of dim and 30ft of bright sight. *)
Lemma colour_within_vision_witness :
  let token := sampleToken 60 30 noFlags in
  exists r,
    (resolve sampleHypot samplePresets sampleGame sampleCanvas token = Ok r
     /\ num_le (Fin 0) (Radii.dim (Resolved.radii r))
     /\ num_le (Fin 0) (Radii.bright (Resolved.radii r)))
    /\ num_le (Resolved.visionRadiusColor r) (Resolved.visionRadius r).
Proof.
  intros token.
  destruct (resolve sampleHypot samplePresets sampleGame sampleCanvas token) as [r|e] eqn:Er;
    [|exfalso; vm_compute in Er; discriminate Er].
  exists r. vm_compute in Er. injection Er as Er.
  assert (H1 : num_le (Fin 0) (Radii.dim (Resolved.radii r))) by (subst r; qdone).
  assert (H2 : num_le (Fin 0) (Radii.bright (Resolved.radii r))) by (subst r; qdone).
  split; [repeat split; assumption|].
  apply (colour_within_vision sampleHypot samplePresets sampleGame sampleCanvas token r);
    try assumption.
  subst r. vm_compute. reflexivity.
Defined.

(** X2, on the sample scene: the same token under the rules "dim" and
    "bright". *)
Lemma derived_radii_bounded_witness :
  let token := sampleToken 60 30 (customFlags "dim" "bright") in
  exists r,
    (resolve sampleHypot samplePresets sampleGame sampleCanvas token = Ok r
     /\ num_le (Fin 0) (Radii.dim (Resolved.radii r))
     /\ num_le (Fin 0) (Radii.bright (Resolved.radii r)))
    /\ num_le (Resolved.visionRadius r)
         (Math.max [Radii.dim (Resolved.radii r); Radii.bright (Resolved.radii r)])
    /\ num_le (Fin 0) (Resolved.visionRadiusDimToBright r).
Proof.
  intros token.
  destruct (resolve sampleHypot samplePresets sampleGame sampleCanvas token) as [r|e] eqn:Er;
    [|exfalso; vm_compute in Er; discriminate Er].
  exists r. vm_compute in Er. injection Er as Er.
  assert (H1 : num_le (Fin 0) (Radii.dim (Resolved.radii r))) by (subst r; qdone).
  assert (H2 : num_le (Fin 0) (Radii.bright (Resolved.radii r))) by (subst r; qdone).
  split; [repeat split; assumption|].
  destruct (derived_radii_bounded sampleHypot samplePresets sampleGame sampleCanvas token r)
    as ((_ & Hv) & _ & (Hb & _)); try assumption.
  - subst r. vm_compute. reflexivity.
  - split; assumption.
Defined.

(** X3, on the sample scene: the token limited to 30ft, 650 pixels. *)
Lemma sightRadii_range_witness :
  let token := limitedToken in
  let r := sightRadii sampleHypot sampleCanvas token (Token.scene token) in
  (0 <= 100 /\ ~ 5 == 0 /\ num_le (Fin 0) (maxRadius sampleHypot sampleCanvas)
   /\ isInfinite (parseFloat (Flags.sightLimit (Token.flags token))) = false
   /\ isInfinite (parseFloat (Token.scene token ≫= Scene.sightLimit)) = false)
  /\ num_le (Radii.dim r) (maxRadius sampleHypot sampleCanvas)
  /\ num_le (Radii.bright r) (Radii.sightLimit r)
  /\ num_le (minRadius token) (Radii.sightLimit r).
Proof.
  intros token r. split; [repeat split; qdone|].
  destruct (sightRadii_range sampleHypot sampleCanvas token 100 100 5 100
              eq_refl eq_refl eq_refl eq_refl) with (scene := Token.scene token)
              (a := 60) (b := 120)
    as ((_ & Hd) & _ & _ & Hl); try qdone.
  destruct Hl as (Hm & _ & Hb); [qdone|].
  split; [exact Hd|]. split; [exact Hb|exact Hm].
Defined.

(** X4, on the sample scene: one negative raw value makes the sign
    negative. *)
Lemma sign_of_raw_values_witness :
  let token := sampleToken (-10) 5 noFlags in
  (0 < 100 /\ 0 < 5 /\ 0 <= 100 /\ (-10 < 0 \/ 5 < 0))
  /\ Radii.sign (sightRadii sampleHypot sampleCanvas token (Token.scene token)) = Fin (-1).
Proof.
  intros token. split; [repeat split; first [qdone | left; qdone]|].
  apply (proj1 (sign_of_raw_values sampleHypot sampleCanvas token 100 5 100
                  eq_refl eq_refl eq_refl ltac:(qdone) ltac:(qdone) ltac:(qdone)
                  (Token.scene token) (-10) 5 eq_refl eq_refl)).
  left. qdone.
Defined.

(** X5, on the sample scene: -30ft of dim sight gives the radii of 30ft. *)
Lemma magnitude_decides_radii_witness :
  let token := sampleToken 0 0 noFlags in
  let resolve := resolve sampleHypot samplePresets sampleGame sampleCanvas in
  (Qabs (-30) == Qabs 30 /\ Qabs 0 == Qabs 0)
  /\ exists r1 r2,
       resolve (withSight token (Fin (-30)) (Fin 0)) = Ok r1
       /\ resolve (withSight token (Fin 30) (Fin 0)) = Ok r2
       /\ num_eq (Resolved.visionRadius r1) (Resolved.visionRadius r2).
Proof.
  intros token resolve. split; [split; qdone|].
  destruct (resolve (withSight token (Fin (-30)) (Fin 0))) as [r1|e] eqn:E1;
    [|exfalso; vm_compute in E1; discriminate E1].
  destruct (magnitude_decides_radii sampleHypot samplePresets sampleGame sampleCanvas token
              100 100 5 100 (-30) 0 30 0 r1) as (r2 & E2 & _ & _ & Hv & _); try qdone;
    [exact E1|].
  exists r1, r2. auto.
Defined.

(** X6, on the sample scene: 60ft of dim sight on squares of 5ft and 100
    pixels, for a token one square wide, are 1250 pixels. *)
Lemma dim_sight_pixels_witness :
  let token := sampleToken 60 0 (customFlags "dim" "bright") in
  exists r,
    (resolve sampleHypot samplePresets sampleGame sampleCanvas token = Ok r
     /\ Rules.dimVisionInDarkness (Resolved.rules r) = "dim"
     /\ num_le (Fin (60 / 5 * 100 + 100 / 2)) (maxRadius sampleHypot sampleCanvas))
    /\ num_eq (Data.dim (Resolved.data r)) (Fin 1250)
    /\ num_eq (Resolved.visionRadius r) (Fin 1250).
Proof.
  intros token.
  destruct (resolve sampleHypot samplePresets sampleGame sampleCanvas token) as [r|e] eqn:Er;
    [|exfalso; vm_compute in Er; discriminate Er].
  exists r. vm_compute in Er. injection Er as Er.
  assert (Hrules : Rules.dimVisionInDarkness (Resolved.rules r) = "dim")
    by (subst r; reflexivity).
  split; [split; [reflexivity|split; [exact Hrules|qdone]]|].
  destruct (dim_sight_pixels sampleHypot samplePresets sampleGame sampleCanvas token
              100 100 5 100 60 r) as (Hd & _ & _ & Hv); try qdone; try exact Hrules.
  - subst r. vm_compute. reflexivity.
  - split.
    + eapply num_eq_trans; [exact Hd|qdone].
    + eapply num_eq_trans; [exact Hv|qdone].
Defined.

(** X9, on the sample scene: three vertices at a radius of 1000 pixels,
    none at a radius of zero. *)
Lemma computeFov_vertex_count_witness :
  let computeFov := computeFov sampleHypot sampleIsNewerVersion sampleGame sampleCanvas in
  (cached (Fin 1000) None = None /\ cached (Fin 0) None = None)
  /\ length (vertices (points (fst (computeFov (sampleSource None) (Fin 1000) None)))) = 3%nat
  /\ points (fst (computeFov (sampleSource None) (Fin 0) None)) = [].
Proof.
  intros computeFov. split; [split; reflexivity|]. split.
  - exact (proj1 (computeFov_vertex_count sampleHypot sampleIsNewerVersion sampleGame
                    sampleCanvas (sampleSource None) (Fin 1000) None eq_refl)).
  - apply (proj2 (computeFov_vertex_count sampleHypot sampleIsNewerVersion sampleGame
                    sampleCanvas (sampleSource None) (Fin 0) None eq_refl)).
    reflexivity.
Defined.


(** X11, on the sample scene: for the token without sight the field of
    view has the 50 pixels of [minR], which is the radius the host gives
    the source, and the polygon of the host is kept. *)
Lemma initialize_keeps_host_fov_witness :
  let token := sampleToken 0 0 fvttFlags in
  let this := sampleSource (Some token) in
  exists r this' ext,
    (resolve sampleHypot samplePresets sampleGame sampleCanvas token = Ok r
     /\ initialize sampleHypot sampleIsNewerVersion samplePresets sampleGame sampleCanvas
          sampleWrapped this sampleExtension None = Ok (this', ext)
     /\ num_eq (fovRadius r)
          (PointSource.radius (sampleWrapped this (Some (Resolved.data r)))))
    /\ Extension.fov ext = Some (PointSource.fov this').
Proof.
  intros token this.
  destruct (resolve sampleHypot samplePresets sampleGame sampleCanvas token) as [r|e] eqn:Er;
    [|exfalso; vm_compute in Er; discriminate Er].
  destruct (initialize sampleHypot sampleIsNewerVersion samplePresets sampleGame sampleCanvas
              sampleWrapped this sampleExtension None) as [[this' ext]|e] eqn:Ei;
    [|exfalso; vm_compute in Ei; discriminate Ei].
  exists r, this', ext.
  vm_compute in Er. injection Er as Er.
  vm_compute in Ei. injection Ei as Ei1 Ei2.
  assert (Hradius : num_eq (fovRadius r)
                      (PointSource.radius (sampleWrapped this (Some (Resolved.data r)))))
    by (subst r; qdone).
  split; [split; [reflexivity|split; [reflexivity|exact Hradius]]|].
  apply (initialize_keeps_host_fov sampleHypot sampleIsNewerVersion samplePresets sampleGame
           sampleCanvas sampleWrapped this this' sampleExtension ext None token r);
    try exact Hradius; subst r this' ext; vm_compute; reflexivity.
Defined.

(** X12, on the sample scene: under the rules "dim" and "bright" all of
    the vision is coloured, and the three polygons are one. *)
Lemma initialize_shares_colour_fov_witness :
  let token := sampleToken 60 30 (customFlags "dim" "bright") in
  let this := sampleSource (Some token) in
  exists r this' ext,
    (resolve sampleHypot samplePresets sampleGame sampleCanvas token = Ok r
     /\ initialize sampleHypot sampleIsNewerVersion samplePresets sampleGame sampleCanvas
          sampleWrapped this sampleExtension None = Ok (this', ext)
     /\ (Resolved.visionRadiusColor r >? Fin 0)%js = true
     /\ num_eq (Resolved.visionRadiusColor r) (Resolved.visionRadius r))
    /\ Extension.fovColor ext = Some (PointSource.fov this')
    /\ Extension.fovMono ext = Some (PointSource.fov this').
Proof.
  intros token this.
  destruct (resolve sampleHypot samplePresets sampleGame sampleCanvas token) as [r|e] eqn:Er;
    [|exfalso; vm_compute in Er; discriminate Er].
  destruct (initialize sampleHypot sampleIsNewerVersion samplePresets sampleGame sampleCanvas
              sampleWrapped this sampleExtension None) as [[this' ext]|e] eqn:Ei;
    [|exfalso; vm_compute in Ei; discriminate Ei].
  exists r, this', ext.
  vm_compute in Er. injection Er as Er.
  vm_compute in Ei. injection Ei as Ei1 Ei2.
  assert (Hpos : (Resolved.visionRadiusColor r >? Fin 0)%js = true) by (subst r; qdone).
  assert (Heq : num_eq (Resolved.visionRadiusColor r) (Resolved.visionRadius r))
    by (subst r; qdone).
  split; [split; [reflexivity|split; [reflexivity|split; assumption]]|].
  apply (initialize_shares_colour_fov sampleHypot sampleIsNewerVersion samplePresets
           sampleGame sampleCanvas sampleWrapped this this' sampleExtension ext None token r);
    try assumption; subst r this' ext; first [qdone | vm_compute; reflexivity].
Defined.

(** X16, on the sample scene: a saturation level of three quarters. *)
Lemma saturationLevel_unit_witness :
  exists this' s,
    refreshPrepare sampleIsNewerVersion sampleGame sampleColorStringToHex None sampleConfig
      sampleSceneView sampleLighting = Ok this'
    /\ Lighting.saturationLevel this' = Some s
    /\ (s = NaN \/ (num_le (Fin 0) s /\ num_le s (Fin 1))).
Proof.
  destruct (refreshPrepare sampleIsNewerVersion sampleGame sampleColorStringToHex None
              sampleConfig sampleSceneView sampleLighting) as [this'|e] eqn:E;
    [|exfalso; vm_compute in E; discriminate E].
  destruct (saturationLevel_unit sampleIsNewerVersion sampleGame sampleColorStringToHex None
              sampleConfig sampleSceneView sampleLighting this' E) as (s & Hs & Hrange).
  exists this', s. split; [reflexivity|]. split; assumption.
Defined.

(** X17, on the sample scene: a darkness level of one quarter leaves a
    saturation level of three quarters. *)
Lemma saturation_complements_darkness_witness :
  (sampleIsNewerVersion (Game.version sampleGame) "0.8.4" = true
   /\ Lighting.saturation sampleLighting = None
   /\ SceneView.flag_forceSaturation sampleSceneView = false
   /\ default (Lighting.darknessLevel sampleLighting) None <> NaN)
  /\ exists this' s,
       refreshPrepare sampleIsNewerVersion sampleGame sampleColorStringToHex None sampleConfig
         sampleSceneView sampleLighting = Ok this'
       /\ Lighting.saturationLevel this' = Some s
       /\ num_eq s (Fin (3 # 4)).
Proof.
  split; [repeat split; qdone|].
  destruct (refreshPrepare sampleIsNewerVersion sampleGame sampleColorStringToHex None
              sampleConfig sampleSceneView sampleLighting) as [this'|e] eqn:E;
    [|exfalso; vm_compute in E; discriminate E].
  destruct (saturation_complements_darkness sampleIsNewerVersion sampleGame
              sampleColorStringToHex None sampleConfig sampleSceneView sampleLighting this')
    as (s & Hs & Heq & _); try qdone; [exact E|].
  exists this', s. split; [reflexivity|]. split; [exact Hs|].
  eapply num_eq_trans; [exact Heq|qdone].
Defined.

(** X19, on the sample scene: the first refresh stores the colours
    [0xffcc0f] and [0x242448] and drops the channels. *)
Lemma colour_change_resets_channels_witness :
  exists this',
    refreshPrepare sampleIsNewerVersion sampleGame sampleColorStringToHex None sampleConfig
      sampleSceneView sampleLighting = Ok this'
    /\ Lighting.daylightColor this' = Some 0xffcc0f%Z
    /\ Lighting.darknessColor this' = Some 0x242448%Z
    /\ Lighting.channels this' = None
    /\ Lighting.updateChannels this' = true.
Proof.
  destruct (refreshPrepare sampleIsNewerVersion sampleGame sampleColorStringToHex None
              sampleConfig sampleSceneView sampleLighting) as [this'|e] eqn:E;
    [|exfalso; vm_compute in E; discriminate E].
  destruct (colour_change_resets_channels sampleIsNewerVersion sampleGame
              sampleColorStringToHex None sampleConfig sampleSceneView sampleLighting this' E)
    as (daylight & darkness & Hday & Hdark & _ & _ & _ & Hreset).
  exists this'. split; [reflexivity|].
  destruct Hreset as [Hch Hup]; [left; discriminate|].
  vm_compute in E. injection E as E.
  split; [subst this'; reflexivity|]. split; [subst this'; reflexivity|].
  split; assumption.
Defined.

(** X20, on the sample scene: the second refresh finds the channels that
    the host computed during the first, and leaves them. *)
Lemma second_refresh_keeps_channels_witness :
  exists this1 seen,
    (refreshLighting sampleIsNewerVersion sampleGame sampleColorStringToHex sampleRefresh
       None sampleConfig sampleSceneView sampleLighting = Ok this1
     /\ refreshPrepare sampleIsNewerVersion sampleGame sampleColorStringToHex (Some (Fin 1))
          sampleConfig sampleSceneView this1 = Ok seen)
    /\ Lighting.channels seen = Some 2%nat
    /\ Lighting.updateChannels seen = false.
Proof.
  destruct (refreshLighting sampleIsNewerVersion sampleGame sampleColorStringToHex
              sampleRefresh None sampleConfig sampleSceneView sampleLighting)
    as [this1|e] eqn:E1; [|exfalso; vm_compute in E1; discriminate E1].
  destruct (refreshPrepare sampleIsNewerVersion sampleGame sampleColorStringToHex
              (Some (Fin 1)) sampleConfig sampleSceneView this1)
    as [seen|e] eqn:E2.
  - exists this1, seen. split; [split; [reflexivity|exact E2]|].
    destruct (second_refresh_keeps_channels sampleIsNewerVersion sampleGame
                sampleColorStringToHex sampleRefresh None (Some (Fin 1)) sampleConfig
                sampleSceneView sampleLighting this1 seen) as (Hch & Hup);
      [intros l l' Hl; injection Hl as <-; split; reflexivity|exact E1|exact E2|].
    split; [|exact Hup]. rewrite Hch.
    vm_compute in E1. injection E1 as E1. subst this1. reflexivity.
  - exfalso. vm_compute in E1. injection E1 as E1. subst this1.
    vm_compute in E2. discriminate E2.
Defined.

(** X21, on the sample scene: the host's [_configureChannels] finds the
    colours of the scene in [CONFIG], and [CONFIG] is as before although
    the host emptied it. *)
Lemma configureChannels_scene_colours_witness :
  exists this',
    refreshPrepare sampleIsNewerVersion sampleGame sampleColorStringToHex None sampleConfig
      sampleSceneView sampleLighting = Ok this'
    /\ configureChannels sampleConfigureChannels this' sampleConfig
       = (sampleConfig, Ok (Some 0xffcc0f%Z, Some 0x242448%Z)).
Proof.
  destruct (refreshPrepare sampleIsNewerVersion sampleGame sampleColorStringToHex None
              sampleConfig sampleSceneView sampleLighting) as [this'|e] eqn:E;
    [|exfalso; vm_compute in E; discriminate E].
  exists this'. split; [reflexivity|].
  rewrite (configureChannels_scene_colours sampleIsNewerVersion sampleGame
             sampleColorStringToHex sampleConfigureChannels None sampleConfig sampleConfig
             sampleSceneView sampleLighting this' E).
  vm_compute. reflexivity.
Defined.

(** X22, on the sample container: after the assignments the duplicate has
    the uniforms of the light and a [ratio] of 1. *)
Lemma duplicate_follows_light_witness :
  exists c' light_,
    assignAll sampleAssignments (_createContainer true sampleContainer) = Ok c'
    /\ Container.light_ c' = Some light_
    /\ follows (Container.light c') light_.
Proof.
  destruct (assignAll sampleAssignments (_createContainer true sampleContainer))
    as [c'|e] eqn:E; [|exfalso; vm_compute in E; discriminate E].
  destruct (duplicate_follows_light sampleContainer c' sampleAssignments E)
    as (light_ & Hdup & Hfollows).
  exists c', light_. split; [reflexivity|]. split; assumption.
Defined.

(** X23, on the sample container: after the shader has been taken away no
    shader can be assigned. *)
Lemma shader_assignment_throws_witness :
  exists c',
    assignAll (sampleAssignments ++ [SetShader None]) (_createContainer true sampleContainer)
    = Ok c'
    /\ assign (SetShader (Some (sampleShader 1))) c' = Throw TypeError.
Proof.
  destruct (assignAll (sampleAssignments ++ [SetShader None])
              (_createContainer true sampleContainer))
    as [c'|e] eqn:E; [|exfalso; vm_compute in E; discriminate E].
  exists c'. split; [reflexivity|].
  apply (proj1 (shader_assignment_throws sampleContainer c'
                  (sampleAssignments ++ [SetShader None]) (Some (sampleShader 1)) E)).
  vm_compute in E. injection E as E. subst c'. reflexivity.
Defined.

(** X25, on the sample stage, host 0.8.6: one call of
    [canvas.perception.schedule]. *)
Lemma updateScene_as_refresh_witness :
  Stage.ready sampleStage = true
  /\ refresh sampleIsNewerVersion sampleGame defaultOptions sampleStage None 1
     = (None, [PerceptionSchedule true true true true]).
Proof.
  split; [reflexivity|].
  rewrite (updateScene_as_refresh sampleIsNewerVersion sampleGame sampleStage 1 eq_refl).
  reflexivity.
Defined.

(** X18, on host 0.7.9: at a darkness level of one quarter the two global
    lights are among the sources, at a darkness level of 1 they are not;
    the light of the scene stays. *)
Example global_lights_sample :
  let sources (arg0 : option number) :=
    refreshPrepare sampleIsNewerVersion oldGame sampleColorStringToHex arg0 sampleConfig
      thresholdSceneView oldLighting
    ≫= fun this' =>
         Ok (Lighting.sources this' !! "PerfectVision.Light.1",
             Lighting.sources this' !! "PerfectVision.Light.2",
             Lighting.sources this' !! "Light.17") in
  sources None = Ok (Some 5%nat, Some 6%nat, Some 17%nat)
  /\ sources (Some (Fin 1)) = Ok (None, None, Some 17%nat).
Proof. split; vm_compute; reflexivity. Qed.

(** X24, on host 0.7.9: two calls before the canvas is ready register one
    hook, and the call on the ready canvas takes it off before it updates
    and refreshes. *)
Example refresh_hook_sample :
  let waiting := Stage.make false [] [] in
  refreshAll sampleIsNewerVersion oldGame
    [(defaultOptions, waiting, 7%nat); (RefreshOptions.make true false false, waiting, 8%nat);
     (defaultOptions, sampleStage, 9%nat)] None
  = (None,
     [HooksOnce; HooksOff; LightUpdateSource 1; LightUpdateSource 2; TokenUpdateSource 3;
      LightingRefresh; SightRefresh]).
Proof. vm_compute. reflexivity. Qed.
